(** * Hotel reservation system: the booking engine

    A shallow embedding of [models.py] and [hotel_service.py], and the
    properties of the booking engine proved on it.

    Python objects that are mutated through more than one reference (the
    [Room] a [Booking] points to is the very object stored in
    [Hotel.rooms]) live in a store and are named by a reference; the engine
    runs in a state-and-exception monad in which a raised exception keeps
    whatever had been written before it. *)

From Stdlib Require Import ZArith Lia Floats.
From stdpp Require Import base decidable option list strings.

Local Open Scope Z_scope.

(** ** Values of the host language *)

(** A [datetime.date] is its proleptic Gregorian ordinal ([date.toordinal()]):
    comparison of dates is comparison of ordinals and [(d2 - d1).days] is
    their difference. *)
Definition date := Z.

Definition is_leap (y : Z) : bool :=
  (y mod 4 =? 0) && (negb (y mod 100 =? 0) || (y mod 400 =? 0)).

Definition days_before_year (y : Z) : Z :=
  let p := y - 1 in p * 365 + p / 4 - p / 100 + p / 400.

Definition days_before_month (y m : Z) : Z :=
  nth (Z.to_nat m) [0; 0; 31; 59; 90; 120; 151; 181; 212; 243; 273; 304; 334] 0
  + (if (2 <? m) && is_leap y then 1 else 0).

(** [date(y, m, d)] for a valid calendar day. *)
Definition date_of_ymd (y m d : Z) : date :=
  days_before_year y + days_before_month y m + d.

(** [float(n)] for an [int] whose magnitude is below [2^63]; a difference of
    two dates is below [3652059] in magnitude, and converts exactly. *)
Definition float_of_int (n : Z) : float :=
  if n <? 0 then PrimFloat.opp (PrimFloat.of_uint63 (Uint63.of_Z (- n)))
  else PrimFloat.of_uint63 (Uint63.of_Z n).

(** [not s] for a [str]. *)
Definition str_is_empty (s : string) : bool :=
  match s with EmptyString => true | String _ _ => false end.

(** ** Insertion-ordered dictionaries

    A Python [dict]: lookup by key, assignment that overwrites in place or
    appends, deletion, and [values()] in insertion order. *)
Definition dict (K V : Type) : Type := list (K * V).

Section Dict.
Context {K V : Type} `{EqDecision K}.

Fixpoint dict_get (k : K) (d : dict K V) : option V :=
  match d with
  | [] => None
  | (k', v) :: d' => if decide (k = k') then Some v else dict_get k d'
  end.

Definition dict_mem (k : K) (d : dict K V) : bool :=
  match dict_get k d with Some _ => true | None => false end.

Fixpoint dict_set (k : K) (v : V) (d : dict K V) : dict K V :=
  match d with
  | [] => [(k, v)]
  | (k', v') :: d' =>
      if decide (k = k') then (k', v) :: d' else (k', v') :: dict_set k v d'
  end.

Fixpoint dict_del (k : K) (d : dict K V) : dict K V :=
  match d with
  | [] => []
  | (k', v') :: d' =>
      if decide (k = k') then d' else (k', v') :: dict_del k d'
  end.

Definition dict_values (d : dict K V) : list V := snd <$> d.
End Dict.

(** ** models.py *)

Module BookingStatus.
Definition BOOKED : string := "booked".
Definition CHECKED_IN : string := "checked_in".
Definition CHECKED_OUT : string := "checked_out".
Definition CANCELLED : string := "cancelled".

Definition is_valid (status : string) : bool :=
  bool_decide (status ∈ [BOOKED; CHECKED_IN; CHECKED_OUT; CANCELLED]).

Definition all_statuses : list string :=
  [BOOKED; CHECKED_IN; CHECKED_OUT; CANCELLED].
End BookingStatus.
Import BookingStatus.

Module Room.
Record t : Type := mk {
  number : Z;
  room_type : string;
  price_per_night : float;
  is_occupied : bool }.

Definition set_is_occupied (b : bool) (r : t) : t :=
  mk (number r) (room_type r) (price_per_night r) b.
End Room.

Module Guest.
Record t : Type := mk {
  guest_id : string;
  name : string;
  contact : string }.
End Guest.

(** A reference to a [Room] object: its index in the store. *)
Definition ref := nat.

Module Booking.
Record t : Type := mk {
  booking_id : string;
  guest : Guest.t;
  room : ref;
  check_in : date;
  check_out : date;
  status : string }.

Definition set_status (st : string) (b : t) : t :=
  mk (booking_id b) (guest b) (room b) (check_in b) (check_out b) st.

Definition nights_count (self : t) : Z := check_out self - check_in self.
End Booking.

(** ** hotel_service.py: the state *)

Module Hotel.
Record t : Type := mk {
  name : string;
  rooms : dict Z ref;
  guests : dict string Guest.t;
  bookings : dict string Booking.t }.
End Hotel.

(** The state a call runs in: the [Room] objects allocated so far and the
    hotel. A [Guest] is never written after its construction and a [Booking]
    is reached through [Hotel.bookings] only, so both are kept by value. *)
Record State : Type := mkState {
  objs : list Room.t;
  hotel : Hotel.t }.

Definition set_objs (f : list Room.t → list Room.t) (s : State) : State :=
  mkState (f (objs s)) (hotel s).
Definition set_rooms (f : dict Z ref → dict Z ref) (s : State) : State :=
  let h := hotel s in
  mkState (objs s) (Hotel.mk (Hotel.name h) (f (Hotel.rooms h)) (Hotel.guests h) (Hotel.bookings h)).
Definition set_guests (f : dict string Guest.t → dict string Guest.t) (s : State) : State :=
  let h := hotel s in
  mkState (objs s) (Hotel.mk (Hotel.name h) (Hotel.rooms h) (f (Hotel.guests h)) (Hotel.bookings h)).
Definition set_bookings (f : dict string Booking.t → dict string Booking.t) (s : State) : State :=
  let h := hotel s in
  mkState (objs s) (Hotel.mk (Hotel.name h) (Hotel.rooms h) (Hotel.guests h) (f (Hotel.bookings h))).

Definition rooms (s : State) := Hotel.rooms (hotel s).
Definition guests (s : State) := Hotel.guests (hotel s).
Definition bookings (s : State) := Hotel.bookings (hotel s).

(** ** Exceptions and the monad *)

(** The three exception classes the engine raises. [DanglingReference] is
    not a Python exception: it is what the model answers when a reference
    names no object of the store, which no Python state can exhibit. *)
Inductive exn : Set :=
  | EntityNotFoundError
  | BookingConflictError
  | InvalidOperationError
  | DanglingReference.

Inductive result (A : Type) : Type :=
  | Ok (a : A)
  | Raise (e : exn).
Arguments Ok {A} a.
Arguments Raise {A} e.

(** A call returns its outcome together with the state it leaves behind,
    also when it raises. *)
Definition M (A : Type) : Type := State → result A * State.

#[export] Instance M_ret : MRet M := λ A a s, (Ok a, s).
#[export] Instance M_bind : MBind M := λ A B k m s,
  match m s with
  | (Ok a, s') => k a s'
  | (Raise e, s') => (Raise e, s')
  end.

Definition raise {A} (e : exn) : M A := λ s, (Raise e, s).
Definition get : M State := λ s, (Ok s, s).
Definition modify (f : State → State) : M unit := λ s, (Ok tt, f s).

(** [r.attr] on a [Room] reference. *)
Definition deref (l : ref) : M Room.t := λ s,
  match objs s !! l with
  | Some r => (Ok r, s)
  | None => (Raise DanglingReference, s)
  end.

(** [r.is_occupied = b]. *)
Definition write_is_occupied (l : ref) (b : bool) : M unit :=
  r ← deref l;
  modify (set_objs (λ σ, <[l := Room.set_is_occupied b r]> σ)).

(** A new object of the store. *)
Definition alloc (r : Room.t) : M ref := λ s,
  (Ok (length (objs s)), set_objs (λ σ, σ ++ [r]) s).

(** ** models.py: constructors and methods *)

(** [Room.__init__]. The object is reachable only once the constructor has
    returned, so it enters the store after the validation. *)
Definition Room_init (number : Z) (room_type : string) (price_per_night : float)
    (is_occupied : bool) : M ref :=
  if number <=? 0 then raise InvalidOperationError
  else if PrimFloat.leb price_per_night 0%float then raise InvalidOperationError
  else if str_is_empty room_type then raise InvalidOperationError
  else alloc (Room.mk number room_type price_per_night is_occupied).

(** [Guest(...)] with its [__post_init__]. *)
Definition Guest_init (guest_id name contact : string) : M Guest.t :=
  if str_is_empty guest_id then raise InvalidOperationError
  else if str_is_empty name then raise InvalidOperationError
  else if str_is_empty contact then raise InvalidOperationError
  else mret (Guest.mk guest_id name contact).

(** [Booking(...)] with the default status and its [__post_init__]. *)
Definition Booking_init (booking_id : string) (guest : Guest.t) (room : ref)
    (check_in check_out : date) : M Booking.t :=
  let self := Booking.mk booking_id guest room check_in check_out BOOKED in
  if str_is_empty (Booking.booking_id self) then raise InvalidOperationError
  else if Booking.check_out self <=? Booking.check_in self then raise InvalidOperationError
  else if negb (is_valid (Booking.status self)) then raise InvalidOperationError
  else mret self.

Definition Booking_calculate_total_price (self : Booking.t) : M float :=
  let nights := Booking.nights_count self in
  r ← deref (Booking.room self);
  mret (PrimFloat.mul (float_of_int nights) (Room.price_per_night r)).

(** ** hotel_service.py: class Hotel *)

Definition Hotel_init (name : string) : result State :=
  if str_is_empty name then Raise InvalidOperationError
  else Ok (mkState [] (Hotel.mk name [] [] [])).

Definition Hotel_add_room (number : Z) (room_type : string) (price_per_night : float)
    : M ref :=
  s ← get;
  if dict_mem number (rooms s) then raise InvalidOperationError
  else
    room ← Room_init number room_type price_per_night false;
    modify (set_rooms (dict_set number room));;
    mret room.

Definition Hotel_remove_room (number : Z) : M unit :=
  s ← get;
  match dict_get number (rooms s) with
  | None => raise EntityNotFoundError
  | Some l =>
      r ← deref l;
      if Room.is_occupied r then raise InvalidOperationError
      else modify (set_rooms (dict_del number))
  end.

Definition Hotel_list_rooms : M (list ref) :=
  s ← get; mret (dict_values (rooms s)).

Definition Hotel_get_room (number : Z) : M ref :=
  s ← get;
  match dict_get number (rooms s) with
  | None => raise EntityNotFoundError
  | Some l => mret l
  end.

(** ** hotel_service.py: class HotelService

    [str(uuid.uuid4())] is an argument of the two calls that draw one. *)

Definition register_guest (uuid : string) (name contact : string) : M Guest.t :=
  let guest_id := uuid in
  guest ← Guest_init guest_id name contact;
  modify (set_guests (dict_set guest_id guest));;
  mret guest.

Definition get_guest (guest_id : string) : M Guest.t :=
  s ← get;
  match dict_get guest_id (guests s) with
  | None => raise EntityNotFoundError
  | Some g => mret g
  end.

Definition add_room (number : Z) (room_type : string) (price_per_night : float)
    : M ref :=
  Hotel_add_room number room_type price_per_night.

(** The loop of [_room_is_available] over [bookings.values()]. *)
Fixpoint room_is_available_loop (bs : list Booking.t) (room : ref)
    (check_in check_out : date) : M bool :=
  match bs with
  | [] => mret true
  | booking :: rest =>
      br ← deref (Booking.room booking);
      r ← deref room;
      if bool_decide (Room.number br ≠ Room.number r) then
        room_is_available_loop rest room check_in check_out
      else if bool_decide (Booking.status booking ∈ [CANCELLED; CHECKED_OUT]) then
        room_is_available_loop rest room check_in check_out
      else if (check_in <? Booking.check_out booking)
              && (Booking.check_in booking <? check_out) then
        mret false
      else room_is_available_loop rest room check_in check_out
  end.

Definition _room_is_available (room : ref) (check_in check_out : date) : M bool :=
  s ← get;
  room_is_available_loop (dict_values (bookings s)) room check_in check_out.

Definition create_booking (uuid : string) (guest_id : string) (room_number : Z)
    (check_in check_out : date) : M Booking.t :=
  guest ← get_guest guest_id;
  room ← Hotel_get_room room_number;
  ok ← _room_is_available room check_in check_out;
  if negb ok then raise BookingConflictError
  else
    let booking_id := uuid in
    booking ← Booking_init booking_id guest room check_in check_out;
    modify (set_bookings (dict_set booking_id booking));;
    mret booking.

Definition get_booking (booking_id : string) : M Booking.t :=
  s ← get;
  match dict_get booking_id (bookings s) with
  | None => raise EntityNotFoundError
  | Some b => mret b
  end.

(** [booking.status = st] on the object stored under [booking_id]. *)
Definition write_status (booking_id : string) (booking : Booking.t) (st : string)
    : M unit :=
  modify (set_bookings (dict_set booking_id (Booking.set_status st booking))).

Definition cancel_booking (booking_id : string) : M unit :=
  booking ← get_booking booking_id;
  if bool_decide (Booking.status booking = CANCELLED) then mret tt
  else if bool_decide (Booking.status booking = CHECKED_OUT) then
    raise InvalidOperationError
  else write_status booking_id booking CANCELLED.

Definition check_in (booking_id : string) (current_date : date) : M unit :=
  booking ← get_booking booking_id;
  if bool_decide (Booking.status booking ≠ BOOKED) then raise InvalidOperationError
  else if bool_decide (current_date ≠ Booking.check_in booking) then
    raise InvalidOperationError
  else
    r ← deref (Booking.room booking);
    if Room.is_occupied r then raise BookingConflictError
    else
      write_status booking_id booking CHECKED_IN;;
      write_is_occupied (Booking.room booking) true.

Definition check_out (booking_id : string) (current_date : date) : M float :=
  booking ← get_booking booking_id;
  if bool_decide (Booking.status booking ≠ CHECKED_IN) then raise InvalidOperationError
  else if bool_decide (current_date ≠ Booking.check_out booking) then
    raise InvalidOperationError
  else
    write_status booking_id booking CHECKED_OUT;;
    write_is_occupied (Booking.room booking) false;;
    Booking_calculate_total_price (Booking.set_status CHECKED_OUT booking).

(** The loop of [calculate_total_revenue]. *)
Fixpoint total_revenue_loop (bs : list Booking.t) (total : float) : M float :=
  match bs with
  | [] => mret total
  | booking :: rest =>
      if bool_decide (Booking.status booking = CHECKED_OUT) then
        p ← Booking_calculate_total_price booking;
        total_revenue_loop rest (PrimFloat.add total p)
      else total_revenue_loop rest total
  end.

Definition calculate_total_revenue : M float :=
  s ← get;
  total_revenue_loop (dict_values (bookings s)) 0%float.

(** The engine's calls, as one type, and the call each one makes. *)
Inductive op : Type :=
  | AddRoom (number : Z) (room_type : string) (price_per_night : float)
  | RemoveRoom (number : Z)
  | RegisterGuest (uuid name contact : string)
  | CreateBooking (uuid guest_id : string) (room_number : Z) (check_in check_out : date)
  | CancelBooking (booking_id : string)
  | CheckIn (booking_id : string) (current_date : date)
  | CheckOut (booking_id : string) (current_date : date).

(** What a call hands back, whatever its type. *)
Inductive value : Type :=
  | VNone
  | VRoom (l : ref)
  | VGuest (g : Guest.t)
  | VBooking (b : Booking.t)
  | VFloat (f : float).

Definition run_op (o : op) : M value :=
  match o with
  | AddRoom n t p => l ← add_room n t p; mret (VRoom l)
  | RemoveRoom n => Hotel_remove_room n;; mret VNone
  | RegisterGuest u n c => g ← register_guest u n c; mret (VGuest g)
  | CreateBooking u g n ci co => b ← create_booking u g n ci co; mret (VBooking b)
  | CancelBooking b => cancel_booking b;; mret VNone
  | CheckIn b d => check_in b d;; mret VNone
  | CheckOut b d => p ← check_out b d; mret (VFloat p)
  end.

(** ** Vocabulary of the properties *)

(** Outcome and final state of a call. *)
Definition outcome {A} (m : M A) (s : State) : result A := (m s).1.
Definition after {A} (m : M A) (s : State) : State := (m s).2.

(** The object a reference names holds room number [n]. *)
Definition names_room (s : State) (l : ref) (n : Z) : Prop :=
  Room.number <$> objs s !! l = Some n.

(** Every reference held by the hotel names an object of the store, and a
    room is filed under its own number. *)
Definition wf (s : State) : Prop :=
  Forall (λ nl, names_room s nl.2 nl.1) (rooms s)
  ∧ Forall (λ b, is_Some (objs s !! Booking.room b)) (dict_values (bookings s)).

(** A booking that still holds its room: neither cancelled nor checked out. *)
Definition active (b : Booking.t) : Prop :=
  Booking.status b ≠ CANCELLED ∧ Booking.status b ≠ CHECKED_OUT.

(** The interval overlap test against [[ci, co)]. *)
Definition overlaps (ci co : date) (b : Booking.t) : Prop :=
  ci < Booking.check_out b ∧ Booking.check_in b < co.

(** [b] is an existing booking on room number [n] that is active and
    overlaps [[ci, co)]. *)
Definition conflicting (s : State) (n : Z) (ci co : date) (b : Booking.t) : Prop :=
  b ∈ dict_values (bookings s)
  ∧ names_room s (Booking.room b) n
  ∧ active b
  ∧ overlaps ci co b.

(** The test of one turn of the loop of [_room_is_available], on the numbers
    of the two rooms. *)
Definition blocks (s : State) (n : Z) (ci co : date) (b : Booking.t) : bool :=
  match objs s !! Booking.room b with
  | Some br =>
      negb (bool_decide (Room.number br ≠ n))
      && negb (bool_decide (Booking.status b ∈ [CANCELLED; CHECKED_OUT]))
      && ((ci <? Booking.check_out b) && (Booking.check_in b <? co))
  | None => false
  end.

(** Every stored booking ends after it starts. *)
Definition dates_ordered (s : State) : Prop :=
  Forall (λ b, Booking.check_in b < Booking.check_out b) (dict_values (bookings s)).

(** The states the engine reaches from a new [Hotel(name)]. *)
Inductive reachable : State → Prop :=
  | reachable_init name s :
      Hotel_init name = Ok s → reachable s
  | reachable_step o s :
      reachable s → reachable (after (run_op o) s).

(** The sum [total += p] accumulates, from [0.0], in list order. *)
Definition float_sum (ps : list float) : float :=
  fold_left PrimFloat.add ps 0%float.

(** [p] is the price of booking [b]: its nights times the nightly rate of
    the room it references. *)
Definition price_of (s : State) (b : Booking.t) (p : float) : Prop :=
  ∃ r, objs s !! Booking.room b = Some r
       ∧ p = PrimFloat.mul (float_of_int (Booking.check_out b - Booking.check_in b))
                           (Room.price_per_night r).

Definition checked_out_bookings (s : State) : list Booking.t :=
  filter (λ b, Booking.status b = CHECKED_OUT) (dict_values (bookings s)).

(** [n] calls of [m] in a row. *)
Fixpoint repeat_call (n : nat) (m : M unit) : M unit :=
  match n with
  | O => mret tt
  | S n' => m;; repeat_call n' m
  end.

(** ** Sample states *)

Definition john : Guest.t := Guest.mk "g1" "John" "john@example.com".

Definition room101 (occupied : bool) : Room.t :=
  Room.mk 101 "single" 100%float occupied.

(** Room 101 at 100.0 a night, one guest, and the bookings given. *)
Definition hotel_with (occupied : bool) (bs : dict string Booking.t) : State :=
  mkState [room101 occupied] (Hotel.mk "Luxury Hotel" [(101, 0%nat)] [("g1", john)] bs).

Definition booking_jan (st : string) : Booking.t :=
  Booking.mk "b1" john 0%nat (date_of_ymd 2024 1 1) (date_of_ymd 2024 1 3) st.

Definition booking_later (st : string) : Booking.t :=
  Booking.mk "b2" john 0%nat (date_of_ymd 2024 1 3) (date_of_ymd 2024 1 5) st.

Definition booking_far (st : string) : Booking.t :=
  Booking.mk "b3" john 0%nat (date_of_ymd 2024 1 10) (date_of_ymd 2024 1 12) st.

(** ** What a call can do to the state *)

(** A [check_out] that returned. *)
Definition successful_check_out (o : op) (s : State) : bool :=
  match o with
  | CheckOut _ _ =>
      match outcome (run_op o) s with Ok _ => true | Raise _ => false end
  | _ => false
  end.

(** The writes one call can leave behind. [clears] tells whether the call
    may lower an occupancy flag. *)
Inductive effect (clears : bool) (s : State) : State → Prop :=
  | effect_none :
      effect clears s s
  | effect_add_room r :
      effect clears s
        (set_rooms (dict_set (Room.number r) (length (objs s)))
           (set_objs (λ σ, σ ++ [r]) s))
  | effect_remove_room n :
      effect clears s (set_rooms (dict_del n) s)
  | effect_guest u g :
      effect clears s (set_guests (dict_set u g) s)
  | effect_booking u bk n :
      dict_get n (rooms s) = Some (Booking.room bk) →
      Booking.check_in bk < Booking.check_out bk →
      Booking.status bk = BOOKED →
      effect clears s (set_bookings (dict_set u bk) s)
  | effect_status id b st :
      dict_get id (bookings s) = Some b →
      st ≠ CHECKED_IN →
      effect clears s (set_bookings (dict_set id (Booking.set_status st b)) s)
  | effect_check_in id b r :
      dict_get id (bookings s) = Some b →
      objs s !! Booking.room b = Some r →
      Room.is_occupied r = false →
      effect clears s
        (set_objs (λ σ, <[Booking.room b := Room.set_is_occupied true r]> σ)
           (set_bookings (dict_set id (Booking.set_status CHECKED_IN b)) s))
  | effect_check_out id b r :
      dict_get id (bookings s) = Some b →
      Booking.status b = CHECKED_IN →
      objs s !! Booking.room b = Some r →
      clears = true →
      effect clears s
        (set_objs (λ σ, <[Booking.room b := Room.set_is_occupied false r]> σ)
           (set_bookings (dict_set id (Booking.set_status CHECKED_OUT b)) s)).

(** Occupancy agrees with the bookings: the room of a [checked_in] booking
    is occupied, and no two [checked_in] bookings share a room object. *)
Definition occupancy_coherent (s : State) : Prop :=
  (∀ id b, dict_get id (bookings s) = Some b →
     Booking.status b = CHECKED_IN →
     ∃ r, objs s !! Booking.room b = Some r ∧ Room.is_occupied r = true)
  ∧ (∀ id1 id2 b1 b2,
       dict_get id1 (bookings s) = Some b1 → dict_get id2 (bookings s) = Some b2 →
       Booking.status b1 = CHECKED_IN → Booking.status b2 = CHECKED_IN →
       Booking.room b1 = Booking.room b2 → id1 = id2).

(** A run of calls: the outcomes in order, and the final state. *)
Fixpoint run_ops (os : list op) (s : State) : list (result value) * State :=
  match os with
  | [] => ([], s)
  | o :: os' =>
      let '(r, s') := run_op o s in
      let '(rs, s'') := run_ops os' s' in
      (r :: rs, s'')
  end.

(** ** hotel_service.py: the queries *)

Definition list_guests : M (list Guest.t) :=
  s ← get; mret (dict_values (guests s)).

Definition list_rooms : M (list ref) := Hotel_list_rooms.

(** The truth value of the optional [room_type] argument: [None] and the
    empty string are false. *)
Definition type_filter (room_type : option string) : option string :=
  match room_type with
  | Some t => if str_is_empty t then None else Some t
  | None => None
  end.

(** The loop of [get_available_rooms]; [available] is the list built so far. *)
Fixpoint available_rooms_loop (rs : list ref) (check_in check_out : date)
    (room_type : option string) (available : list ref) : M (list ref) :=
  match rs with
  | [] => mret available
  | room :: rest =>
      skip ← match type_filter room_type with
             | Some t => r ← deref room; mret (bool_decide (Room.room_type r ≠ t))
             | None => mret false
             end;
      if (skip : bool) then
        available_rooms_loop rest check_in check_out room_type available
      else
        ok ← _room_is_available room check_in check_out;
        if (ok : bool) then
          available_rooms_loop rest check_in check_out room_type (available ++ [room])
        else available_rooms_loop rest check_in check_out room_type available
  end.

Definition get_available_rooms (check_in check_out : date)
    (room_type : option string) : M (list ref) :=
  if check_out <=? check_in then raise InvalidOperationError
  else
    rs ← Hotel_list_rooms;
    available_rooms_loop rs check_in check_out room_type [].

Definition get_guest_bookings (guest_id : string) : M (list Booking.t) :=
  get_guest guest_id;;
  s ← get;
  mret (filter (λ b, Guest.guest_id (Booking.guest b) = guest_id)
          (dict_values (bookings s))).

Definition list_bookings : M (list Booking.t) :=
  s ← get; mret (dict_values (bookings s)).

Definition get_active_bookings : M (list Booking.t) :=
  s ← get;
  mret (filter (λ b, Booking.status b ∈ [BOOKED; CHECKED_IN])
          (dict_values (bookings s))).

(** [sum(1 for r in rooms.values() if r.is_occupied)] and its negated twin:
    the count of the rooms whose flag is [want], accumulated from 0. *)
Fixpoint count_rooms_loop (rs : list ref) (want : bool) (total : Z) : M Z :=
  match rs with
  | [] => mret total
  | l :: rest =>
      r ← deref l;
      if (if want then Room.is_occupied r else negb (Room.is_occupied r)) then
        count_rooms_loop rest want (total + 1)
      else count_rooms_loop rest want total
  end.

Definition get_occupancy_report : M (dict string Z) :=
  s ← get;
  let total_rooms := Z.of_nat (length (rooms s)) in
  occupied_rooms ← count_rooms_loop (dict_values (rooms s)) true 0;
  available_rooms ← count_rooms_loop (dict_values (rooms s)) false 0;
  mret [("total_rooms", total_rooms);
        ("occupied_rooms", occupied_rooms);
        ("available_rooms", available_rooms)].

(** ** payments.py: class Invoice

    An invoice holds the booking it was made for; its methods read the
    booking's dates and the price of its room, which no call writes. *)

(** The default [tax_rate=0.1]: the double nearest to one tenth. *)
Definition default_tax_rate : float := 0x1.999999999999ap-4%float.

Definition Invoice_calculate_base_cost (booking : Booking.t) : M float :=
  Booking_calculate_total_price booking.

Definition Invoice_calculate_tax (booking : Booking.t) (tax_rate : float) : M float :=
  base ← Invoice_calculate_base_cost booking;
  mret (PrimFloat.mul base tax_rate).

Definition Invoice_calculate_total_with_tax (booking : Booking.t) (tax_rate : float)
    : M float :=
  base ← Invoice_calculate_base_cost booking;
  tax ← Invoice_calculate_tax booking tax_rate;
  mret (PrimFloat.add base tax).

(** ** The exact writes of a call *)

Definition dict_keys {K V} (d : dict K V) : list K := fst <$> d.

(** The state each call leaves, case by case, with the tests the call made
    before writing. *)
Inductive writes (s : State) : op → State → Prop :=
  | writes_nothing o :
      writes s o s
  | writes_add_room n t p :
      dict_get n (rooms s) = None →
      0 < n → PrimFloat.leb p 0%float = false → t ≠ EmptyString →
      writes s (AddRoom n t p)
        (set_rooms (dict_set n (length (objs s)))
           (set_objs (λ σ, σ ++ [Room.mk n t p false]) s))
  | writes_remove_room n l r :
      dict_get n (rooms s) = Some l →
      objs s !! l = Some r → Room.is_occupied r = false →
      writes s (RemoveRoom n) (set_rooms (dict_del n) s)
  | writes_register_guest u name contact :
      u ≠ EmptyString → name ≠ EmptyString → contact ≠ EmptyString →
      writes s (RegisterGuest u name contact)
        (set_guests (dict_set u (Guest.mk u name contact)) s)
  | writes_create_booking u gid g n l ci co :
      dict_get gid (guests s) = Some g →
      dict_get n (rooms s) = Some l →
      _room_is_available l ci co s = (Ok true, s) →
      u ≠ EmptyString → ci < co →
      writes s (CreateBooking u gid n ci co)
        (set_bookings (dict_set u (Booking.mk u g l ci co BOOKED)) s)
  | writes_cancel id b :
      dict_get id (bookings s) = Some b →
      Booking.status b ≠ CANCELLED → Booking.status b ≠ CHECKED_OUT →
      writes s (CancelBooking id)
        (set_bookings (dict_set id (Booking.set_status CANCELLED b)) s)
  | writes_check_in id b r :
      dict_get id (bookings s) = Some b →
      Booking.status b = BOOKED →
      objs s !! Booking.room b = Some r → Room.is_occupied r = false →
      writes s (CheckIn id (Booking.check_in b))
        (set_objs (λ σ, <[Booking.room b := Room.set_is_occupied true r]> σ)
           (set_bookings (dict_set id (Booking.set_status CHECKED_IN b)) s))
  | writes_check_out id b r :
      dict_get id (bookings s) = Some b →
      Booking.status b = CHECKED_IN →
      objs s !! Booking.room b = Some r →
      writes s (CheckOut id (Booking.check_out b))
        (set_objs (λ σ, <[Booking.room b := Room.set_is_occupied false r]> σ)
           (set_bookings (dict_set id (Booking.set_status CHECKED_OUT b)) s))
  | writes_check_out_dangling id b :
      dict_get id (bookings s) = Some b →
      Booking.status b = CHECKED_IN →
      objs s !! Booking.room b = None →
      writes s (CheckOut id (Booking.check_out b))
        (set_bookings (dict_set id (Booking.set_status CHECKED_OUT b)) s).

(** ** Invariants of the entities *)

(** What [Room.__init__] accepts. *)
Definition room_valid (r : Room.t) : Prop :=
  0 < Room.number r
  ∧ PrimFloat.leb (Room.price_per_night r) 0%float = false
  ∧ Room.room_type r ≠ EmptyString.

(** What [Guest.__post_init__] accepts. *)
Definition guest_valid (g : Guest.t) : Prop :=
  Guest.guest_id g ≠ EmptyString
  ∧ Guest.name g ≠ EmptyString
  ∧ Guest.contact g ≠ EmptyString.

(** What [Booking.__post_init__] accepts. *)
Definition booking_valid (b : Booking.t) : Prop :=
  Booking.booking_id b ≠ EmptyString
  ∧ Booking.check_in b < Booking.check_out b
  ∧ is_valid (Booking.status b) = true.

(** Every object satisfies its constructor's checks and is filed under its
    own identifier, and no key occurs twice. *)
Definition entities_valid (s : State) : Prop :=
  Forall room_valid (objs s)
  ∧ Forall (λ kg, guest_valid kg.2 ∧ Guest.guest_id kg.2 = kg.1) (guests s)
  ∧ Forall (λ kb, booking_valid kb.2 ∧ Booking.booking_id kb.2 = kb.1
                  ∧ guest_valid (Booking.guest kb.2)) (bookings s)
  ∧ NoDup (dict_keys (rooms s))
  ∧ NoDup (dict_keys (guests s))
  ∧ NoDup (dict_keys (bookings s))
  ∧ NoDup (dict_values (rooms s)).

(** No two active bookings of one room number overlap. *)
Definition no_double_booking (s : State) : Prop :=
  ∀ id1 id2 b1 b2 n,
    dict_get id1 (bookings s) = Some b1 →
    dict_get id2 (bookings s) = Some b2 →
    id1 ≠ id2 →
    names_room s (Booking.room b1) n → names_room s (Booking.room b2) n →
    active b1 → active b2 →
    ¬ (Booking.check_in b1 < Booking.check_out b2
       ∧ Booking.check_in b2 < Booking.check_out b1).

(** The reference of room number [n] is free for [[ci, co)]: no stored
    booking conflicts. *)
Definition room_free (s : State) (n : Z) (ci co : date) : Prop :=
  ¬ ∃ b, conflicting s n ci co b.

(** ** Vocabulary of the queries *)

(** The room behind [l] passes the type filter and has no blocking booking
    for [[ci, co)]. *)
Definition room_matches (s : State) (ci co : date) (room_type : option string)
    (l : ref) : bool :=
  match objs s !! l with
  | Some r =>
      match type_filter room_type with
      | Some t => negb (bool_decide (Room.room_type r ≠ t))
      | None => true
      end
      && negb (existsb (blocks s (Room.number r) ci co) (dict_values (bookings s)))
  | None => false
  end.

(** How many of the rooms filed in the hotel have their flag equal to
    [want]. *)
Definition count_flag (s : State) (want : bool) : Z :=
  Z.of_nat (length (filter (λ l, Room.is_occupied <$> objs s !! l = Some want)
                      (dict_values (rooms s)))).

(** The lifecycle of a booking's status across one call. *)
Definition status_step (old new : string) : Prop :=
  new = old
  ∨ (old = BOOKED ∧ new = CHECKED_IN)
  ∨ (old = CHECKED_IN ∧ new = CHECKED_OUT)
  ∨ (old ≠ CANCELLED ∧ old ≠ CHECKED_OUT ∧ new = CANCELLED).

(** The call is a [create_booking] that draws identifier [id]. *)
Definition creates (o : op) (id : string) : Prop :=
  match o with
  | CreateBooking u _ _ _ _ => u = id
  | _ => False
  end.

(** A new [Hotel("Luxury Hotel")]. *)
Definition new_hotel : State := mkState [] (Hotel.mk "Luxury Hotel" [] [] []).

(** Room 101 removed and added again while booking [b1] was [booked]: the
    booking still references the first object, the hotel files the second. *)
Definition hotel_readded : State :=
  mkState [room101 false; room101 false]
    (Hotel.mk "Luxury Hotel" [(101, 1%nat)] [("g1", john)]
       [("b1", booking_jan BOOKED)]).

(** The report of [get_occupancy_report] with the given counts. *)
Definition report (total occupied available : Z) : dict string Z :=
  [("total_rooms", total); ("occupied_rooms", occupied);
   ("available_rooms", available)].

(** The calls that concern guests and reservations only. *)
Definition touches_no_room (o : op) : Prop :=
  match o with
  | RegisterGuest _ _ _ | CreateBooking _ _ _ _ _ | CancelBooking _ => True
  | _ => False
  end.

(** * Properties *)

(** ** Dictionaries *)

Section DictFacts.
Context {K V : Type} `{EqDecision K}.
Implicit Types (k : K) (v : V) (d : dict K V).

Lemma dict_get_set_eq k v d : dict_get k (dict_set k v d) = Some v.
Proof.
  induction d as [|[k' v'] d IH]; simpl.
  - by rewrite decide_True.
  - destruct (decide (k = k')) as [->|Hne]; simpl.
    + by rewrite decide_True.
    + by rewrite decide_False.
Qed.

Lemma dict_get_set_ne k k' v d :
  k ≠ k' → dict_get k' (dict_set k v d) = dict_get k' d.
Proof.
  intros Hne. induction d as [|[k0 v0] d IH]; simpl.
  - by rewrite decide_False.
  - destruct (decide (k = k0)) as [->|Hk]; simpl.
    + by rewrite !decide_False.
    + destruct (decide (k' = k0)); [done | apply IH].
Qed.

Lemma dict_get_values k v d : dict_get k d = Some v → v ∈ dict_values d.
Proof.
  induction d as [|[k' v'] d IH]; simpl; [done |].
  destruct (decide (k = k')); intros Hg.
  - injection Hg as ->. apply list_elem_of_here.
  - apply list_elem_of_further, IH, Hg.
Qed.

Lemma dict_get_elem k v d : dict_get k d = Some v → (k, v) ∈ d.
Proof.
  induction d as [|[k' v'] d IH]; simpl; [done |].
  destruct (decide (k = k')) as [->|]; intros Hg.
  - injection Hg as ->. apply list_elem_of_here.
  - apply list_elem_of_further, IH, Hg.
Qed.

Lemma dict_set_elem k v d x :
  x ∈ dict_set k v d → x.2 = v ∨ x ∈ d.
Proof.
  induction d as [|[k' v'] d IH]; simpl.
  - intros ->%list_elem_of_singleton. by left.
  - destruct (decide (k = k')); intros [->|Hx]%elem_of_cons.
    + by left.
    + right. by apply list_elem_of_further.
    + right. apply list_elem_of_here.
    + destruct (IH Hx); [by left | right; by apply list_elem_of_further].
Qed.

Lemma dict_set_elem_key k v d x :
  x ∈ dict_set k v d → x = (k, v) ∨ x ∈ d.
Proof.
  induction d as [|[k' v'] d IH]; simpl.
  - intros ->%list_elem_of_singleton. by left.
  - destruct (decide (k = k')) as [->|]; intros [->|Hx]%elem_of_cons.
    + by left.
    + right. by apply list_elem_of_further.
    + right. apply list_elem_of_here.
    + destruct (IH Hx); [by left | right; by apply list_elem_of_further].
Qed.

Lemma dict_values_set k v d x :
  x ∈ dict_values (dict_set k v d) → x = v ∨ x ∈ dict_values d.
Proof.
  unfold dict_values. intros ([k0 v0] & -> & Hx)%list_elem_of_fmap.
  destruct (dict_set_elem _ _ _ _ Hx) as [?|Hd]; [by left |].
  right. apply list_elem_of_fmap. by exists (k0, v0).
Qed.

Lemma dict_del_elem k d x : x ∈ dict_del k d → x ∈ d.
Proof.
  induction d as [|[k' v'] d IH]; simpl; [done |].
  destruct (decide (k = k')).
  - apply list_elem_of_further.
  - intros [->|Hx]%elem_of_cons;
      [apply list_elem_of_here | by apply list_elem_of_further, IH].
Qed.

End DictFacts.

(** ** The monad and the store *)

Ltac mred :=
  unfold outcome, after, mbind, mret, M_bind, M_ret, raise, get, modify in *;
  simpl in *.

Lemma float_pos_not_le (p : float) :
  PrimFloat.ltb 0%float p = true → PrimFloat.leb p 0%float = false.
Proof.
  rewrite FloatAxioms.ltb_spec, FloatAxioms.leb_spec.
  change (Prim2SF 0%float) with (S754_zero false).
  destruct (Prim2SF p) as [sg|sg| |sg m e]; try destruct sg; cbn; congruence.
Qed.

Lemma str_is_empty_false (x : string) : x ≠ EmptyString → str_is_empty x = false.
Proof. by destruct x. Qed.

Lemma get_booking_Some s id b :
  dict_get id (bookings s) = Some b → get_booking id s = (Ok b, s).
Proof. unfold get_booking. mred. by intros ->. Qed.

Lemma get_booking_None s id :
  dict_get id (bookings s) = None → get_booking id s = (Raise EntityNotFoundError, s).
Proof. unfold get_booking. mred. by intros ->. Qed.

(** ** Rooms *)

(** C8: a valid room addition (positive number not yet present, positive
    price, non-empty type) succeeds and [get_room] then returns the new room
    under its number; for a number already present [add_room] raises
    [InvalidOperationError] whatever type and price are supplied, and the
    state (so the room collection) is unchanged. *)
Theorem add_room_retrievable (s : State) (number : Z) (room_type : string)
    (price : float) :
  (0 < number → dict_get number (rooms s) = None →
   PrimFloat.ltb 0%float price = true → room_type ≠ EmptyString →
   ∃ l s', add_room number room_type price s = (Ok l, s')
     ∧ Hotel_get_room number s' = (Ok l, s')
     ∧ objs s' !! l = Some (Room.mk number room_type price false))
  ∧ (is_Some (dict_get number (rooms s)) →
     add_room number room_type price s = (Raise InvalidOperationError, s)).
Proof.
  split.
  - intros Hn Hfree Hp Ht.
    exists (length (objs s)), (set_rooms (dict_set number (length (objs s)))
      (set_objs (λ σ, σ ++ [Room.mk number room_type price false]) s)).
    unfold add_room, Hotel_add_room, Hotel_get_room, Room_init, alloc, dict_mem.
    mred. rewrite Hfree. simpl.
    rewrite (proj2 (Z.leb_gt _ _) Hn), (float_pos_not_le _ Hp),
      (str_is_empty_false _ Ht). simpl.
    unfold rooms. simpl. rewrite dict_get_set_eq.
    repeat split. by rewrite lookup_app_r, Nat.sub_diag.
  - intros [l Hl]. unfold add_room, Hotel_add_room, dict_mem. mred.
    by rewrite Hl.
Qed.

Lemma add_room_retrievable_witness :
  ∃ l s', add_room 102 "double" 150%float (hotel_with false []) = (Ok l, s')
     ∧ Hotel_get_room 102 s' = (Ok l, s')
     ∧ objs s' !! l = Some (Room.mk 102 "double" 150%float false).
Proof.
  apply (proj1 (add_room_retrievable (hotel_with false []) 102 "double" 150%float));
    [lia | reflexivity | reflexivity | discriminate].
Defined.

(** ** Cancellation *)

(** What [cancel_booking] does on a stored booking, by its status. *)
Lemma cancel_booking_stored s id b :
  dict_get id (bookings s) = Some b →
  cancel_booking id s =
    if bool_decide (Booking.status b = CANCELLED) then (Ok tt, s)
    else if bool_decide (Booking.status b = CHECKED_OUT) then
      (Raise InvalidOperationError, s)
    else (Ok tt, set_bookings (dict_set id (Booking.set_status CANCELLED b)) s).
Proof.
  intros Hb. unfold cancel_booking. mred. rewrite (get_booking_Some _ _ _ Hb).
  by repeat case_bool_decide.
Qed.

Lemma cancel_booking_absent s id :
  dict_get id (bookings s) = None →
  cancel_booking id s = (Raise EntityNotFoundError, s).
Proof.
  intros Hb. unfold cancel_booking. mred. by rewrite (get_booking_None _ _ Hb).
Qed.

(** C6: cancelling a booking that is already cancelled raises nothing and
    leaves the whole state, so the status too, as it was; any number of
    repeated calls does the same. *)
Theorem cancel_cancelled_noop (s : State) (id : string) (b : Booking.t) :
  dict_get id (bookings s) = Some b →
  Booking.status b = CANCELLED →
  cancel_booking id s = (Ok tt, s)
  ∧ ∀ n, repeat_call n (cancel_booking id) s = (Ok tt, s).
Proof.
  intros Hb Hst.
  assert (Hone : cancel_booking id s = (Ok tt, s)).
  { rewrite (cancel_booking_stored _ _ _ Hb). by rewrite bool_decide_eq_true_2. }
  split; [done |].
  induction n as [|n IH]; [done |].
  simpl. unfold mbind, M_bind. by rewrite Hone.
Qed.

Lemma cancel_cancelled_noop_witness :
  cancel_booking "b1" (hotel_with false [("b1", booking_jan CANCELLED)])
    = (Ok tt, hotel_with false [("b1", booking_jan CANCELLED)])
  ∧ repeat_call 3 (cancel_booking "b1") (hotel_with false [("b1", booking_jan CANCELLED)])
    = (Ok tt, hotel_with false [("b1", booking_jan CANCELLED)]).
Proof.
  destruct (cancel_cancelled_noop (hotel_with false [("b1", booking_jan CANCELLED)])
              "b1" (booking_jan CANCELLED) eq_refl eq_refl) as [H1 Hn].
  split; [exact H1 | exact (Hn 3%nat)].
Defined.

(** C2, as the code has it: a booking whose status is [checked_in] (or
    [booked]) is cancellable; [cancel_booking] returns normally and the
    booking's status becomes [cancelled]. Of the stored bookings only a
    [checked_out] one is refused, with [InvalidOperationError] and the state
    unchanged. *)
Theorem cancel_checked_in_succeeds (s : State) (id : string) (b : Booking.t) :
  dict_get id (bookings s) = Some b →
  (Booking.status b = CHECKED_IN ∨ Booking.status b = BOOKED →
     cancel_booking id s
       = (Ok tt, set_bookings (dict_set id (Booking.set_status CANCELLED b)) s)
     ∧ dict_get id (bookings (after (cancel_booking id) s))
       = Some (Booking.set_status CANCELLED b))
  ∧ (Booking.status b = CHECKED_OUT →
     cancel_booking id s = (Raise InvalidOperationError, s))
  ∧ (∀ e, outcome (cancel_booking id) s = Raise e →
     Booking.status b = CHECKED_OUT).
Proof.
  intros Hb. rewrite (cancel_booking_stored _ _ _ Hb). split; [|split].
  - intros Hst.
    assert (Booking.status b ≠ CANCELLED ∧ Booking.status b ≠ CHECKED_OUT) as [H1 H2].
    { destruct Hst as [-> | ->]; by split. }
    unfold after. rewrite (cancel_booking_stored _ _ _ Hb).
    rewrite !bool_decide_eq_false_2 by done.
    split; [done |]. unfold bookings. simpl. apply dict_get_set_eq.
  - intros Hst. rewrite Hst. done.
  - intros e. unfold outcome. rewrite (cancel_booking_stored _ _ _ Hb).
    repeat case_bool_decide; simpl; congruence.
Qed.

Lemma cancel_checked_in_succeeds_witness :
  cancel_booking "b1" (hotel_with true [("b1", booking_jan CHECKED_IN)])
    = (Ok tt, hotel_with true [("b1", booking_jan CANCELLED)]).
Proof.
  exact (proj1 (proj1 (cancel_checked_in_succeeds
    (hotel_with true [("b1", booking_jan CHECKED_IN)]) "b1" (booking_jan CHECKED_IN)
    eq_refl) (or_introl eq_refl))).
Defined.

(** C2 as stated fails: on a hotel whose booking [b1] is [checked_in],
    [cancel_booking] returns normally and the status is [cancelled]
    afterwards. *)
Lemma cancel_checked_in_counterexample :
  Booking.status <$> dict_get "b1" (bookings (hotel_with true [("b1", booking_jan CHECKED_IN)]))
    = Some CHECKED_IN
  ∧ outcome (cancel_booking "b1") (hotel_with true [("b1", booking_jan CHECKED_IN)]) = Ok tt
  ∧ Booking.status <$>
      dict_get "b1" (bookings (after (cancel_booking "b1")
                                 (hotel_with true [("b1", booking_jan CHECKED_IN)])))
    = Some CANCELLED.
Proof. by vm_compute. Qed.

(** ** Check-in and check-out *)

(** What [check_in] does on a stored booking. *)
Lemma check_in_stored s id d b :
  dict_get id (bookings s) = Some b →
  check_in id d s =
    if bool_decide (Booking.status b ≠ BOOKED) then (Raise InvalidOperationError, s)
    else if bool_decide (d ≠ Booking.check_in b) then (Raise InvalidOperationError, s)
    else match objs s !! Booking.room b with
         | None => (Raise DanglingReference, s)
         | Some r =>
             if Room.is_occupied r then (Raise BookingConflictError, s)
             else (Ok tt,
                   set_objs (λ σ, <[Booking.room b := Room.set_is_occupied true r]> σ)
                     (set_bookings (dict_set id (Booking.set_status CHECKED_IN b)) s))
         end.
Proof.
  intros Hb. unfold check_in. mred. rewrite (get_booking_Some _ _ _ Hb).
  repeat case_bool_decide; try done.
  unfold deref. destruct (objs s !! Booking.room b) as [r|] eqn:Hr; [|done].
  destruct (Room.is_occupied r); [done |].
  unfold write_status, write_is_occupied, deref. mred. by rewrite Hr.
Qed.

(** What [check_out] does on a stored booking. *)
Lemma check_out_stored s id d b :
  dict_get id (bookings s) = Some b →
  check_out id d s =
    if bool_decide (Booking.status b ≠ CHECKED_IN) then (Raise InvalidOperationError, s)
    else if bool_decide (d ≠ Booking.check_out b) then (Raise InvalidOperationError, s)
    else match objs s !! Booking.room b with
         | None =>
             (Raise DanglingReference,
              set_bookings (dict_set id (Booking.set_status CHECKED_OUT b)) s)
         | Some r =>
             (Ok (PrimFloat.mul
                    (float_of_int (Booking.check_out b - Booking.check_in b))
                    (Room.price_per_night r)),
              set_objs (λ σ, <[Booking.room b := Room.set_is_occupied false r]> σ)
                (set_bookings (dict_set id (Booking.set_status CHECKED_OUT b)) s))
         end.
Proof.
  intros Hb. unfold check_out. mred. rewrite (get_booking_Some _ _ _ Hb).
  repeat case_bool_decide; try done.
  unfold write_status, write_is_occupied, Booking_calculate_total_price, deref.
  mred. destruct (objs s !! Booking.room b) as [r|] eqn:Hr; [|done].
  simpl. rewrite list_lookup_insert_eq by (by eapply lookup_lt_Some). done.
Qed.

(** C3: on a [checked_in] booking, [check_out] at the booking's own
    check-out date succeeds; afterwards the booking's status is
    [checked_out] and the [is_occupied] flag of its room is false, and the
    call returns the number of days from check-in to check-out times the
    room's nightly price; 2024-01-01 to 2024-01-03 at 100.0 a night gives
    200.0. *)
Theorem check_out_returns_price (s : State) (id : string) (b : Booking.t)
    (r : Room.t) :
  dict_get id (bookings s) = Some b →
  Booking.status b = CHECKED_IN →
  objs s !! Booking.room b = Some r →
  (∃ s' b' r',
     check_out id (Booking.check_out b) s
     = (Ok (PrimFloat.mul
              (float_of_int (Booking.check_out b - Booking.check_in b))
              (Room.price_per_night r)), s')
     ∧ dict_get id (bookings s') = Some b'
     ∧ Booking.status b' = CHECKED_OUT
     ∧ objs s' !! Booking.room b = Some r'
     ∧ Room.is_occupied r' = false
     ∧ b' = Booking.set_status CHECKED_OUT b
     ∧ r' = Room.set_is_occupied false r)
  ∧ (Booking.check_in b = date_of_ymd 2024 1 1 →
     Booking.check_out b = date_of_ymd 2024 1 3 →
     Room.price_per_night r = 100%float →
     outcome (check_out id (Booking.check_out b)) s = Ok 200%float).
Proof.
  intros Hb Hst Hr.
  pose proof (check_out_stored s id (Booking.check_out b) b Hb) as Hco.
  rewrite Hst, bool_decide_eq_false_2 in Hco by (intros H; by apply H).
  rewrite bool_decide_eq_false_2, Hr in Hco by (intros H; by apply H).
  split.
  - exists (set_objs (λ σ, <[Booking.room b := Room.set_is_occupied false r]> σ)
              (set_bookings (dict_set id (Booking.set_status CHECKED_OUT b)) s)),
      (Booking.set_status CHECKED_OUT b), (Room.set_is_occupied false r).
    split; [exact Hco |]. split_and!; try reflexivity.
    + unfold bookings. simpl. apply dict_get_set_eq.
    + simpl. apply list_lookup_insert_eq. by eapply lookup_lt_Some.
  - intros Hci Hcout Hp. unfold outcome. rewrite Hco. simpl.
    rewrite Hci, Hcout, Hp. reflexivity.
Qed.

Lemma check_out_returns_price_witness :
  outcome (check_out "b1" (date_of_ymd 2024 1 3))
    (hotel_with true [("b1", booking_jan CHECKED_IN)]) = Ok 200%float
  ∧ ∃ s' b' r',
      check_out "b1" (date_of_ymd 2024 1 3)
        (hotel_with true [("b1", booking_jan CHECKED_IN)]) = (Ok 200%float, s')
      ∧ dict_get "b1" (bookings s') = Some b'
      ∧ Booking.status b' = CHECKED_OUT
      ∧ objs s' !! 0%nat = Some r'
      ∧ Room.is_occupied r' = false.
Proof.
  destruct (check_out_returns_price
    (hotel_with true [("b1", booking_jan CHECKED_IN)]) "b1"
    (booking_jan CHECKED_IN) (room101 true) eq_refl eq_refl eq_refl)
    as [(s' & b' & r' & Hco & Hb' & Hst' & Hr' & Hocc' & _) H200].
  split; [exact (H200 eq_refl eq_refl eq_refl) |].
  exists s', b', r'. split; [exact Hco |].
  split; [exact Hb' |]. split; [exact Hst' |]. split; [exact Hr' | exact Hocc'].
Defined.

(** C4: [check_in] on an absent id raises [EntityNotFoundError]; on a
    stored booking it raises [InvalidOperationError] when the status is not
    [booked], [InvalidOperationError] when the date is not the booking's
    check-in date, [BookingConflictError] when (those two tests passed and)
    the room is already occupied, and otherwise succeeds: afterwards the
    booking's status is [checked_in] and the [is_occupied] flag of its room
    is true. *)
Theorem check_in_cases (s : State) (id : string) (d : date) :
  (dict_get id (bookings s) = None →
   check_in id d s = (Raise EntityNotFoundError, s))
  ∧ (∀ b, dict_get id (bookings s) = Some b →
     (Booking.status b ≠ BOOKED →
      check_in id d s = (Raise InvalidOperationError, s))
     ∧ (d ≠ Booking.check_in b →
        check_in id d s = (Raise InvalidOperationError, s))
     ∧ (∀ r, objs s !! Booking.room b = Some r →
        Booking.status b = BOOKED → d = Booking.check_in b →
        (Room.is_occupied r = true →
         check_in id d s = (Raise BookingConflictError, s))
        ∧ (Room.is_occupied r = false →
           ∃ s' b' r',
             check_in id d s = (Ok tt, s')
             ∧ dict_get id (bookings s') = Some b'
             ∧ Booking.status b' = CHECKED_IN
             ∧ objs s' !! Booking.room b = Some r'
             ∧ Room.is_occupied r' = true
             ∧ b' = Booking.set_status CHECKED_IN b
             ∧ r' = Room.set_is_occupied true r))).
Proof.
  split.
  - intros Hb. unfold check_in. mred. by rewrite (get_booking_None _ _ Hb).
  - intros b Hb. rewrite (check_in_stored _ _ _ _ Hb). split; [|split].
    + intros Hst. by rewrite bool_decide_eq_true_2.
    + intros Hd. repeat case_bool_decide; done.
    + intros r Hr Hst Hd.
      rewrite !bool_decide_eq_false_2 by (intros Hx; by apply Hx).
      rewrite Hr. split; intros Hocc; rewrite Hocc; [done |].
      exists (set_objs (λ σ, <[Booking.room b := Room.set_is_occupied true r]> σ)
                (set_bookings (dict_set id (Booking.set_status CHECKED_IN b)) s)),
        (Booking.set_status CHECKED_IN b), (Room.set_is_occupied true r).
      split; [done |]. split_and!; try reflexivity.
      * unfold bookings. simpl. apply dict_get_set_eq.
      * simpl. apply list_lookup_insert_eq. by eapply lookup_lt_Some.
Qed.

Lemma check_in_cases_witness :
  check_in "b1" (date_of_ymd 2024 1 2) (hotel_with false [("b1", booking_jan BOOKED)])
    = (Raise InvalidOperationError, hotel_with false [("b1", booking_jan BOOKED)])
  ∧ check_in "b1" (date_of_ymd 2024 1 1) (hotel_with true [("b1", booking_jan BOOKED)])
    = (Raise BookingConflictError, hotel_with true [("b1", booking_jan BOOKED)])
  ∧ check_in "zz" (date_of_ymd 2024 1 1) (hotel_with false [("b1", booking_jan BOOKED)])
    = (Raise EntityNotFoundError, hotel_with false [("b1", booking_jan BOOKED)])
  ∧ ∃ s' b' r',
      check_in "b1" (date_of_ymd 2024 1 1) (hotel_with false [("b1", booking_jan BOOKED)])
      = (Ok tt, s')
      ∧ dict_get "b1" (bookings s') = Some b'
      ∧ Booking.status b' = CHECKED_IN
      ∧ objs s' !! 0%nat = Some r'
      ∧ Room.is_occupied r' = true.
Proof.
  split; [|split; [|split]].
  - destruct (check_in_cases (hotel_with false [("b1", booking_jan BOOKED)])
      "b1" (date_of_ymd 2024 1 2)) as [_ Hstored].
    destruct (Hstored (booking_jan BOOKED) eq_refl) as (_ & Hdate & _).
    apply Hdate. vm_compute. discriminate.
  - destruct (check_in_cases (hotel_with true [("b1", booking_jan BOOKED)])
      "b1" (date_of_ymd 2024 1 1)) as [_ Hstored].
    destruct (Hstored (booking_jan BOOKED) eq_refl) as (_ & _ & Hroom).
    destruct (Hroom (room101 true) eq_refl eq_refl eq_refl) as [Hocc _].
    apply Hocc. reflexivity.
  - destruct (check_in_cases (hotel_with false [("b1", booking_jan BOOKED)])
      "zz" (date_of_ymd 2024 1 1)) as [Habsent _].
    apply Habsent. reflexivity.
  - destruct (check_in_cases (hotel_with false [("b1", booking_jan BOOKED)])
      "b1" (date_of_ymd 2024 1 1)) as [_ Hstored].
    destruct (Hstored (booking_jan BOOKED) eq_refl) as (_ & _ & Hroom).
    destruct (Hroom (room101 false) eq_refl eq_refl eq_refl) as [_ Hfree].
    destruct (Hfree eq_refl) as (s' & b' & r' & Hci & Hb' & Hst' & Hr' & Hocc' & _).
    exists s', b', r'. split; [exact Hci |].
    split; [exact Hb' |]. split; [exact Hst' |]. split; [exact Hr' | exact Hocc'].
Defined.

(** ** A failed call leaves the state as it was *)

(** The availability scan only reads. *)
Lemma room_is_available_loop_state bs room ci co s :
  (room_is_available_loop bs room ci co s).2 = s.
Proof.
  induction bs as [|b bs IH]; simpl; [done |].
  unfold deref. mred.
  destruct (objs s !! Booking.room b); [|done].
  destruct (objs s !! room); [|done].
  repeat case_match; done.
Qed.

Lemma room_is_available_state room ci co s :
  ∃ x, _room_is_available room ci co s = (x, s).
Proof.
  unfold _room_is_available. mred.
  pose proof (room_is_available_loop_state (dict_values (bookings s)) room ci co s) as Hs.
  destruct (room_is_available_loop _ room ci co s) as [x s']. simpl in Hs.
  subst s'. by exists x.
Qed.

Lemma add_room_raise s n t p e :
  outcome (add_room n t p) s = Raise e → after (add_room n t p) s = s.
Proof.
  unfold add_room, Hotel_add_room, Room_init, alloc. mred.
  repeat case_match; by simplify_eq/=.
Qed.

Lemma remove_room_raise s n e :
  outcome (Hotel_remove_room n) s = Raise e → after (Hotel_remove_room n) s = s.
Proof.
  unfold Hotel_remove_room, deref. mred.
  repeat case_match; by simplify_eq/=.
Qed.

Lemma register_guest_raise s u n c e :
  outcome (register_guest u n c) s = Raise e → after (register_guest u n c) s = s.
Proof.
  unfold register_guest, Guest_init. mred.
  repeat case_match; by simplify_eq/=.
Qed.

Lemma create_booking_raise s u g n ci co e :
  outcome (create_booking u g n ci co) s = Raise e →
  after (create_booking u g n ci co) s = s.
Proof.
  unfold create_booking, get_guest, Hotel_get_room, Booking_init. mred.
  destruct (dict_get g (guests s)); [|done].
  destruct (dict_get n (rooms s)) as [l|]; [|done].
  destruct (room_is_available_state l ci co s) as [x ->].
  destruct x as [[|]|]; simpl; [|done..].
  repeat case_match; by simplify_eq/=.
Qed.

Lemma cancel_booking_raise s id e :
  outcome (cancel_booking id) s = Raise e → after (cancel_booking id) s = s.
Proof.
  unfold outcome, after.
  destruct (dict_get id (bookings s)) as [b|] eqn:Hb.
  - rewrite (cancel_booking_stored _ _ _ Hb). repeat case_bool_decide; done.
  - by rewrite (cancel_booking_absent _ _ Hb).
Qed.

Lemma check_in_raise s id d e :
  outcome (check_in id d) s = Raise e → after (check_in id d) s = s.
Proof.
  unfold outcome, after.
  destruct (dict_get id (bookings s)) as [b|] eqn:Hb.
  - rewrite (check_in_stored _ _ _ _ Hb). repeat case_match; done.
  - unfold check_in. mred. by rewrite (get_booking_None _ _ Hb).
Qed.

(** [check_out] writes the status before it reaches the room, so here the
    reference of the booking has to name an object. *)
Lemma check_out_raise s id d e :
  wf s →
  outcome (check_out id d) s = Raise e → after (check_out id d) s = s.
Proof.
  intros [_ Hwf]. unfold outcome, after.
  destruct (dict_get id (bookings s)) as [b|] eqn:Hb.
  - rewrite (check_out_stored _ _ _ _ Hb).
    rewrite Forall_forall in Hwf.
    destruct (Hwf b (dict_get_values _ _ _ Hb)) as [r ->].
    repeat case_bool_decide; done.
  - unfold check_out. mred. by rewrite (get_booking_None _ _ Hb).
Qed.

(** The outcome and the state of [run_op] are those of the call it makes. *)
Lemma run_op_raise_inv o s e :
  outcome (run_op o) s = Raise e →
  match o with
  | AddRoom n t p =>
      outcome (add_room n t p) s = Raise e
      ∧ after (run_op o) s = after (add_room n t p) s
  | RemoveRoom n =>
      outcome (Hotel_remove_room n) s = Raise e
      ∧ after (run_op o) s = after (Hotel_remove_room n) s
  | RegisterGuest u n c =>
      outcome (register_guest u n c) s = Raise e
      ∧ after (run_op o) s = after (register_guest u n c) s
  | CreateBooking u g n ci co =>
      outcome (create_booking u g n ci co) s = Raise e
      ∧ after (run_op o) s = after (create_booking u g n ci co) s
  | CancelBooking id =>
      outcome (cancel_booking id) s = Raise e
      ∧ after (run_op o) s = after (cancel_booking id) s
  | CheckIn id d =>
      outcome (check_in id d) s = Raise e
      ∧ after (run_op o) s = after (check_in id d) s
  | CheckOut id d =>
      outcome (check_out id d) s = Raise e
      ∧ after (run_op o) s = after (check_out id d) s
  end.
Proof.
  destruct o; unfold run_op, outcome, after, mbind, M_bind, mret, M_ret;
    match goal with |- context [match ?c s with _ => _ end] =>
      destruct (c s) as [[?|?] ?] end; simpl; intros; by simplify_eq.
Qed.

(** C5: when a call of the engine raises, the state it leaves is the state
    it was given: rooms, guests, bookings, statuses and occupancy flags. In
    particular a [check_in] at a date other than the booking's check-in date
    raises [InvalidOperationError] and the booking is still [booked]. *)
Theorem failed_call_keeps_state (s : State) :
  wf s →
  (∀ o e, outcome (run_op o) s = Raise e → after (run_op o) s = s)
  ∧ (∀ id d b, dict_get id (bookings s) = Some b →
     Booking.status b = BOOKED → d ≠ Booking.check_in b →
     outcome (check_in id d) s = Raise InvalidOperationError
     ∧ Booking.status <$> dict_get id (bookings (after (check_in id d) s))
       = Some BOOKED).
Proof.
  intros Hwf. split.
  - intros o e He. apply run_op_raise_inv in He.
    destruct o; destruct He as [He ->].
    + by eapply add_room_raise.
    + by eapply remove_room_raise.
    + by eapply register_guest_raise.
    + by eapply create_booking_raise.
    + by eapply cancel_booking_raise.
    + by eapply check_in_raise.
    + by eapply check_out_raise.
  - intros id d b Hb Hst Hd. unfold outcome, after.
    rewrite (check_in_stored _ _ _ _ Hb), Hst.
    rewrite bool_decide_eq_false_2 by (intros Hx; by apply Hx).
    rewrite bool_decide_eq_true_2 by done. simpl.
    by rewrite Hb, <- Hst.
Qed.

Ltac solve_wf :=
  unfold wf, names_room; simpl; split;
  repeat (apply Forall_cons; split; [first [reflexivity | by eexists] |]);
  by constructor.

Lemma failed_call_keeps_state_witness :
  after (run_op (CheckIn "b1" (date_of_ymd 2024 1 2)))
    (hotel_with false [("b1", booking_jan BOOKED)])
  = hotel_with false [("b1", booking_jan BOOKED)].
Proof.
  assert (Hwf : wf (hotel_with false [("b1", booking_jan BOOKED)])) by solve_wf.
  apply (proj1 (failed_call_keeps_state _ Hwf) _ InvalidOperationError).
  reflexivity.
Defined.

(** ** Availability and booking creation *)

Lemma room_is_available_loop_spec bs s room r ci co :
  objs s !! room = Some r →
  Forall (λ b, is_Some (objs s !! Booking.room b)) bs →
  room_is_available_loop bs room ci co s
    = (Ok (negb (existsb (blocks s (Room.number r) ci co) bs)), s).
Proof.
  intros Hr. induction 1 as [|b bs [br Hbr] _ IH]; simpl; [done |].
  unfold blocks at 1. unfold deref. mred. rewrite Hbr, Hr.
  destruct (bool_decide (Room.number br ≠ Room.number r)); simpl; [done |].
  destruct (bool_decide (Booking.status b ∈ [CANCELLED; CHECKED_OUT])); simpl; [done |].
  by destruct ((ci <? Booking.check_out b) && (Booking.check_in b <? co)).
Qed.

(** The scan finds a blocking booking exactly when one conflicts. *)
Lemma blocks_conflicting s n ci co :
  existsb (blocks s n ci co) (dict_values (bookings s)) = true
  ↔ ∃ b, conflicting s n ci co b.
Proof.
  rewrite existsb_exists. split.
  - intros (b & Hin%list_elem_of_In & Hb). exists b. unfold blocks in Hb.
    destruct (objs s !! Booking.room b) as [br|] eqn:Hbr; [|done].
    apply andb_prop in Hb as [Hb Hov]. apply andb_prop in Hb as [Hnum Hst].
    apply andb_prop in Hov as [H1%Z.ltb_lt H2%Z.ltb_lt].
    apply negb_true_iff, bool_decide_eq_false in Hnum, Hst.
    repeat split; try done.
    + unfold names_room. rewrite Hbr. simpl. f_equal.
      by destruct (decide (Room.number br = n)).
    + intros Heq. apply Hst. rewrite Heq. apply list_elem_of_here.
    + intros Heq. apply Hst. rewrite Heq. apply list_elem_of_further, list_elem_of_here.
  - intros (b & Hin & Hnum & [Hc Ho] & [H1 H2]). exists b.
    split; [by apply list_elem_of_In |]. unfold blocks.
    unfold names_room in Hnum.
    destruct (objs s !! Booking.room b) as [br|]; [|done].
    simpl in Hnum. injection Hnum as Hnum.
    rewrite (bool_decide_eq_false_2 (Room.number br ≠ n)) by (intros Hx; by apply Hx).
    case_bool_decide as Hmem.
    + apply elem_of_cons in Hmem as [?|Hmem]; [done |].
      apply elem_of_cons in Hmem as [?|Hmem]; [done |].
      by apply elem_of_nil in Hmem.
    + simpl. apply andb_true_intro. split; by apply Z.ltb_lt.
Qed.

(** What [create_booking] does once guest and room exist. *)
Lemma create_booking_found s u gid n ci co g l :
  wf s →
  dict_get gid (guests s) = Some g →
  dict_get n (rooms s) = Some l →
  create_booking u gid n ci co s =
    if existsb (blocks s n ci co) (dict_values (bookings s)) then
      (Raise BookingConflictError, s)
    else if str_is_empty u then (Raise InvalidOperationError, s)
    else if co <=? ci then (Raise InvalidOperationError, s)
    else (Ok (Booking.mk u g l ci co BOOKED),
          set_bookings (dict_set u (Booking.mk u g l ci co BOOKED)) s).
Proof.
  intros [Hrooms Hbks] Hg Hl.
  rewrite Forall_forall in Hrooms.
  pose proof (Hrooms _ (dict_get_elem _ _ _ Hl)) as Hn. unfold names_room in Hn.
  simpl in Hn. destruct (objs s !! l) as [r|] eqn:Hr; [|done].
  simpl in Hn. injection Hn as Hn.
  unfold create_booking, get_guest, Hotel_get_room, _room_is_available, Booking_init.
  mred. rewrite Hg, Hl.
  rewrite (room_is_available_loop_spec _ _ _ _ _ _ Hr Hbks), Hn.
  destruct (existsb _ _); simpl; [done |].
  destruct (str_is_empty u); [done |].
  by destruct (co <=? ci).
Qed.

(** C1: for an existing guest and room, [create_booking] raises
    [BookingConflictError] exactly when some stored booking on that room
    number, neither cancelled nor checked out, satisfies
    [ci < b.check_out] and [b.check_in < co]. A booking that the interval
    abuts ([ci = b.check_out] or [co = b.check_in]) does not pass that test,
    so it never causes a conflict; and whenever no active booking of the
    room passes the test, the creation succeeds and stores the booking as
    [booked]. *)
Theorem create_booking_conflict_iff (s : State) (u gid : string) (n : Z)
    (ci co : date) :
  wf s →
  is_Some (dict_get gid (guests s)) →
  is_Some (dict_get n (rooms s)) →
  (outcome (create_booking u gid n ci co) s = Raise BookingConflictError
   ↔ ∃ b, b ∈ dict_values (bookings s)
        ∧ names_room s (Booking.room b) n
        ∧ (Booking.status b ≠ CANCELLED ∧ Booking.status b ≠ CHECKED_OUT)
        ∧ (ci < Booking.check_out b ∧ Booking.check_in b < co))
  ∧ (∀ b, ci = Booking.check_out b ∨ co = Booking.check_in b →
     ¬ (ci < Booking.check_out b ∧ Booking.check_in b < co))
  ∧ (u ≠ EmptyString → ci < co →
     (∀ b, b ∈ dict_values (bookings s) → names_room s (Booking.room b) n →
        Booking.status b ≠ CANCELLED ∧ Booking.status b ≠ CHECKED_OUT →
        ¬ (ci < Booking.check_out b ∧ Booking.check_in b < co)) →
     ∃ bk, create_booking u gid n ci co s = (Ok bk, set_bookings (dict_set u bk) s)
       ∧ Booking.status bk = BOOKED
       ∧ Booking.check_in bk = ci ∧ Booking.check_out bk = co
       ∧ dict_get u (bookings (after (create_booking u gid n ci co) s)) = Some bk).
Proof.
  intros Hwf [g Hg] [l Hl].
  pose proof (create_booking_found s u gid n ci co g l Hwf Hg Hl) as Hcb.
  pose proof (blocks_conflicting s n ci co) as Hblk.
  unfold conflicting, active, overlaps in Hblk.
  split; [|split].
  - rewrite <- Hblk. unfold outcome. rewrite Hcb.
    destruct (existsb _ _); simpl; [done |].
    split; [|done]. repeat case_match; done.
  - intros b [-> | ->]; lia.
  - intros Hu Hlt Hclear.
    assert (existsb (blocks s n ci co) (dict_values (bookings s)) = false) as Hnone.
    { apply not_true_is_false. rewrite Hblk.
      intros (b & Hin & Hnum & Hact & Hov).
      by apply (Hclear b Hin Hnum Hact). }
    unfold after. rewrite Hcb, Hnone, (str_is_empty_false _ Hu).
    rewrite (proj2 (Z.leb_gt _ _) Hlt).
    eexists. split; [done |]. repeat split.
    unfold bookings. simpl. apply dict_get_set_eq.
Qed.

Lemma create_booking_conflict_iff_witness :
  ∃ bk, create_booking "b2" "g1" 101 (date_of_ymd 2024 1 3) (date_of_ymd 2024 1 5)
          (hotel_with false [("b1", booking_jan BOOKED); ("b3", booking_far BOOKED)])
        = (Ok bk, hotel_with false [("b1", booking_jan BOOKED);
                                    ("b3", booking_far BOOKED); ("b2", bk)])
      ∧ Booking.status bk = BOOKED.
Proof.
  assert (Hwf : wf (hotel_with false
    [("b1", booking_jan BOOKED); ("b3", booking_far BOOKED)])) by solve_wf.
  destruct (create_booking_conflict_iff
    (hotel_with false [("b1", booking_jan BOOKED); ("b3", booking_far BOOKED)])
    "b2" "g1" 101 (date_of_ymd 2024 1 3) (date_of_ymd 2024 1 5) Hwf
    (ex_intro _ john eq_refl) (ex_intro _ 0%nat eq_refl)) as (_ & _ & Hok).
  destruct Hok as (bk & Hbk & Hst & _).
  - discriminate.
  - reflexivity.
  - intros b Hin _ _ [H1 H2].
    apply elem_of_cons in Hin as [->|Hin]; [vm_compute in H1; discriminate H1 |].
    apply elem_of_cons in Hin as [->|Hin]; [vm_compute in H2; discriminate H2 |].
    by apply elem_of_nil in Hin.
  - exists bk. split; [exact Hbk | exact Hst].
Defined.

(** ** The writes of a call, and what they preserve *)

Lemma run_op_effect o s :
  effect (successful_check_out o s) s (after (run_op o) s).
Proof.
  destruct o as [n t p|n|u nm c|u g n ci co|id|id d|id d]; unfold after.
  - unfold run_op, add_room, Hotel_add_room, Room_init, alloc. mred.
    repeat case_match; simplify_eq/=; try apply effect_none.
    apply (effect_add_room _ s (Room.mk n t p false)).
  - unfold run_op, Hotel_remove_room, deref. mred.
    repeat case_match; simplify_eq/=; try apply effect_none.
    apply effect_remove_room.
  - unfold run_op, register_guest, Guest_init. mred.
    repeat case_match; simplify_eq/=; try apply effect_none.
    apply effect_guest.
  - unfold run_op, create_booking, get_guest, Hotel_get_room, Booking_init. mred.
    destruct (dict_get g (guests s)); [|apply effect_none].
    destruct (dict_get n (rooms s)) as [l|] eqn:Hl; [|apply effect_none].
    destruct (room_is_available_state l ci co s) as [x ->].
    destruct x as [[|]|]; simpl; try apply effect_none.
    destruct (str_is_empty u); [apply effect_none |].
    destruct (Z.leb_spec co ci); simpl; [apply effect_none |].
    by apply (effect_booking _ s u (Booking.mk u _ l ci co BOOKED) n).
  - unfold run_op. mred.
    destruct (dict_get id (bookings s)) as [b|] eqn:Hb.
    + rewrite (cancel_booking_stored _ _ _ Hb).
      repeat case_bool_decide; simpl; try apply effect_none.
      by apply effect_status.
    + rewrite (cancel_booking_absent _ _ Hb). apply effect_none.
  - unfold run_op. mred.
    destruct (dict_get id (bookings s)) as [b|] eqn:Hb.
    + rewrite (check_in_stored _ _ _ _ Hb).
      repeat case_match; simplify_eq/=; try apply effect_none.
      by apply effect_check_in.
    + unfold check_in. mred. rewrite (get_booking_None _ _ Hb). apply effect_none.
  - unfold successful_check_out, outcome, run_op. mred.
    destruct (dict_get id (bookings s)) as [b|] eqn:Hb.
    + rewrite (check_out_stored _ _ _ _ Hb).
      repeat case_bool_decide; simpl; try apply effect_none.
      destruct (objs s !! Booking.room b) as [r|] eqn:Hr; simpl.
      * apply effect_check_out; try done.
      * by apply effect_status.
    + unfold check_out. mred. rewrite (get_booking_None _ _ Hb). apply effect_none.
Qed.

Lemma Forall_dict_values_set {K V} `{EqDecision K} (P : V → Prop) (k : K) v
    (d : dict K V) :
  P v → Forall P (dict_values d) → Forall P (dict_values (dict_set k v d)).
Proof.
  rewrite !Forall_forall. intros Hv Hd x Hx.
  destruct (dict_values_set _ _ _ _ Hx) as [->|]; auto.
Qed.

Lemma effect_dates_ordered c s s' :
  effect c s s' → dates_ordered s → dates_ordered s'.
Proof.
  unfold dates_ordered.
  assert (Hkeep : ∀ id b st, dict_get id (bookings s) = Some b →
    Forall (λ b, Booking.check_in b < Booking.check_out b) (dict_values (bookings s)) →
    Forall (λ b, Booking.check_in b < Booking.check_out b)
      (dict_values (dict_set id (Booking.set_status st b) (bookings s)))).
  { intros id b st Hb Hd. apply Forall_dict_values_set; [|done]. simpl.
    rewrite Forall_forall in Hd. apply Hd. by eapply dict_get_values. }
  destruct 1 as [|r|n|u g|u bk n Hn Hlt Hst|id b st Hb Hst|id b r Hb Hr Hocc
                 |id b r Hb Hst Hr Hc];
    unfold bookings in *; simpl; try done; intros Hd.
  - by apply Forall_dict_values_set.
  - by apply Hkeep.
  - by apply Hkeep.
  - by apply Hkeep.
Qed.

(** Changing an occupancy flag keeps every reference and every number. *)
Lemma names_room_insert s l r v l' n :
  objs s !! l = Some r →
  Room.number <$> objs s !! l' = Some n →
  Room.number <$> (<[l := Room.set_is_occupied v r]> (objs s)) !! l' = Some n.
Proof.
  intros Hr Hn. destruct (decide (l = l')) as [<-|Hne].
  - rewrite list_lookup_insert_eq by (by eapply lookup_lt_Some).
    rewrite Hr in Hn. done.
  - by rewrite list_lookup_insert_ne.
Qed.

Lemma is_Some_insert s l r v l' :
  objs s !! l = Some r →
  is_Some (objs s !! l') →
  is_Some ((<[l := Room.set_is_occupied v r]> (objs s)) !! l').
Proof.
  intros Hr Hn. destruct (decide (l = l')) as [<-|Hne].
  - rewrite list_lookup_insert_eq by (by eapply lookup_lt_Some). by eexists.
  - by rewrite list_lookup_insert_ne.
Qed.

(** Well-formedness survives a status write and a flag write. *)
Lemma wf_write_status_room s id b st r v :
  dict_get id (bookings s) = Some b →
  objs s !! Booking.room b = Some r →
  wf s →
  wf (set_objs (λ σ, <[Booking.room b := Room.set_is_occupied v r]> σ)
        (set_bookings (dict_set id (Booking.set_status st b)) s)).
Proof.
  intros Hb Hr [Hrooms Hbks]. unfold wf, names_room, rooms, bookings in *.
  simpl in *. split.
  - rewrite Forall_forall in *. intros x Hx.
    by apply names_room_insert, Hrooms.
  - apply Forall_dict_values_set.
    + simpl. rewrite list_lookup_insert_eq by (by eapply lookup_lt_Some).
      by eexists.
    + rewrite Forall_forall in *. intros x Hx.
      by apply is_Some_insert, Hbks.
Qed.

Lemma effect_wf c s s' : effect c s s' → wf s → wf s'.
Proof.
  destruct 1 as [|r|n|u g|u bk n Hn Hlt Hst|id b st Hb Hst|id b r Hb Hr Hocc
                 |id b r Hb Hst Hr Hc];
    intros Hwf; try done; try (by apply wf_write_status_room);
    destruct Hwf as [Hrooms Hbks]; unfold wf, names_room, rooms, bookings in *;
    simpl in *.
  - split.
    + rewrite Forall_forall in *. intros [n l] [Heq|Hin]%dict_set_elem_key.
      * injection Heq as -> ->. simpl.
        by rewrite lookup_app_r, Nat.sub_diag.
      * specialize (Hrooms _ Hin). simpl in *.
        destruct (objs s !! l) as [r'|] eqn:Hl; [|done].
        by rewrite (lookup_app_l_Some _ _ _ _ Hl).
    + rewrite Forall_forall in *. intros b Hin.
      destruct (Hbks b Hin) as [r' Hl].
      rewrite (lookup_app_l_Some _ _ _ _ Hl). by eexists.
  - split; [|done]. rewrite Forall_forall in *. intros x Hx.
    apply Hrooms. by eapply dict_del_elem.
  - split; [done |]. apply Forall_dict_values_set; [|done].
    rewrite Forall_forall in Hrooms.
    pose proof (Hrooms _ (dict_get_elem _ _ _ Hn)) as Hl. simpl in Hl.
    destruct (objs s !! Booking.room bk); [by eexists | done].
  - split; [done |]. apply Forall_dict_values_set; [|done]. simpl.
    rewrite Forall_forall in Hbks. apply Hbks. by eapply dict_get_values.
Qed.

Lemma Hotel_init_inv name s :
  Hotel_init name = Ok s → objs s = [] ∧ rooms s = [] ∧ bookings s = [].
Proof.
  unfold Hotel_init. destruct (str_is_empty name); [done |].
  intros [= <-]. done.
Qed.

(** Every state the engine reaches is well formed. *)
Lemma reachable_wf s : reachable s → wf s.
Proof.
  induction 1 as [name s Hinit|o s _ IH].
  - apply Hotel_init_inv in Hinit as (_ & Hr & Hb).
    unfold wf. rewrite Hr, Hb. split; constructor.
  - eapply effect_wf; [apply run_op_effect | done].
Qed.

Lemma reachable_dates_ordered s : reachable s → dates_ordered s.
Proof.
  induction 1 as [name s Hinit|o s _ IH].
  - apply Hotel_init_inv in Hinit as (_ & _ & Hb).
    unfold dates_ordered. rewrite Hb. constructor.
  - eapply effect_dates_ordered; [apply run_op_effect | done].
Qed.

(** C10, as the code has it: for an existing guest and room,
    [create_booking] with [check_out <= check_in] always raises and stores
    nothing. The availability scan runs before the [Booking] constructor, so
    the error is [BookingConflictError] when an active booking on the room
    passes the overlap test against the given dates, and the constructor's
    [InvalidOperationError] otherwise. Every booking of every state the
    engine reaches has [check_out > check_in]. *)
Theorem create_booking_bad_dates_rejected :
  (∀ (s : State) (u gid : string) (n : Z) (ci co : date),
     wf s →
     is_Some (dict_get gid (guests s)) →
     is_Some (dict_get n (rooms s)) →
     co ≤ ci →
     after (create_booking u gid n ci co) s = s
     ∧ ((∃ b, conflicting s n ci co b) →
        outcome (create_booking u gid n ci co) s = Raise BookingConflictError)
     ∧ ((¬ ∃ b, conflicting s n ci co b) →
        outcome (create_booking u gid n ci co) s = Raise InvalidOperationError))
  ∧ (∀ s, reachable s →
       ∀ b, b ∈ dict_values (bookings s) → Booking.check_in b < Booking.check_out b).
Proof.
  split.
  - intros s u gid n ci co Hwf [g Hg] [l Hl] Hle.
    unfold after, outcome.
    rewrite (create_booking_found s u gid n ci co g l Hwf Hg Hl).
    rewrite <- (blocks_conflicting s n ci co).
    rewrite (proj2 (Z.leb_le co ci) Hle).
    destruct (existsb _ _); simpl.
    + split; [done |]. split; [done |]. intros Hx. by destruct Hx.
    + destruct (str_is_empty u); (split; [done |]); (split; [done |]); done.
  - intros s Hs. apply Forall_forall. by apply reachable_dates_ordered.
Qed.

Lemma create_booking_bad_dates_rejected_witness :
  create_booking "b2" "g1" 101 (date_of_ymd 2024 1 5) (date_of_ymd 2024 1 5)
    (hotel_with false [("b1", booking_jan BOOKED)])
  = (Raise InvalidOperationError, hotel_with false [("b1", booking_jan BOOKED)]).
Proof.
  assert (Hwf : wf (hotel_with false [("b1", booking_jan BOOKED)])) by solve_wf.
  destruct (proj1 create_booking_bad_dates_rejected
    (hotel_with false [("b1", booking_jan BOOKED)]) "b2" "g1" 101
    (date_of_ymd 2024 1 5) (date_of_ymd 2024 1 5) Hwf
    (ex_intro _ john eq_refl) (ex_intro _ 0%nat eq_refl)) as (Hst & _ & Hinv).
  - vm_compute. discriminate.
  - apply injective_projections; simpl; [apply Hinv | exact Hst].
    intros (b & Hin & _ & _ & Hov).
    apply list_elem_of_singleton in Hin as ->.
    destruct Hov as [Hov _]. vm_compute in Hov. discriminate.
Defined.

(** C10 as stated fails: with room 101 booked from 2024-01-01 to
    2024-01-03, [create_booking] on room 101 with check-in and check-out both
    2024-01-02 raises [BookingConflictError], not [InvalidOperationError]. *)
Lemma create_booking_bad_dates_counterexample :
  date_of_ymd 2024 1 2 ≤ date_of_ymd 2024 1 2
  ∧ is_Some (dict_get "g1" (guests (hotel_with false [("b1", booking_jan BOOKED)])))
  ∧ is_Some (dict_get 101 (rooms (hotel_with false [("b1", booking_jan BOOKED)])))
  ∧ outcome (create_booking "b2" "g1" 101 (date_of_ymd 2024 1 2) (date_of_ymd 2024 1 2))
      (hotel_with false [("b1", booking_jan BOOKED)])
    = Raise BookingConflictError
  ∧ outcome (create_booking "b2" "g1" 101 (date_of_ymd 2024 1 2) (date_of_ymd 2024 1 2))
      (hotel_with false [("b1", booking_jan BOOKED)])
    ≠ Raise InvalidOperationError.
Proof.
  split; [by vm_compute |]. split; [by eexists |]. split; [by eexists |].
  split; [by vm_compute |]. vm_compute. discriminate.
Qed.

(** ** Revenue *)

Lemma total_revenue_loop_spec s bs total :
  Forall (λ b, is_Some (objs s !! Booking.room b)) bs →
  ∃ ps, Forall2 (price_of s) (filter (λ b, Booking.status b = CHECKED_OUT) bs) ps
      ∧ total_revenue_loop bs total s = (Ok (fold_left PrimFloat.add ps total), s).
Proof.
  intros Hbs. revert total.
  induction Hbs as [|b bs [r Hr] _ IH]; intros total; simpl.
  - exists []. split; [constructor | done].
  - case_bool_decide as Hst.
    + rewrite filter_cons_True by done.
      unfold Booking_calculate_total_price, Booking.nights_count, deref. mred.
      rewrite Hr.
      destruct (IH (PrimFloat.add total
        (PrimFloat.mul (float_of_int (Booking.check_out b - Booking.check_in b))
           (Room.price_per_night r)))) as (ps & Hps & Hloop).
      eexists (_ :: ps). split; [|exact Hloop].
      constructor; [|done]. by exists r.
    + rewrite filter_cons_False by done. apply IH.
Qed.

Lemma price_of_functional s bs ps qs :
  Forall2 (price_of s) bs ps → Forall2 (price_of s) bs qs → ps = qs.
Proof.
  intros Hps. revert qs.
  induction Hps as [|b p bs ps (r & Hr & ->) _ IH]; intros qs Hqs.
  - by inversion Hqs.
  - inversion Hqs as [|? q ? qs' (r' & Hr' & ->) Hrest]; subst.
    rewrite Hr in Hr'. injection Hr' as <-. f_equal. by apply IH.
Qed.

(** C7: [calculate_total_revenue] returns the sum, accumulated from 0.0 in
    the order of the collection, of nights times nightly price over exactly
    the [checked_out] bookings; other bookings do not enter it, so two states
    with the same rooms and the same [checked_out] bookings have the same
    revenue. One [checked_out] booking of 2 nights at 100.0 and one [booked]
    booking give 200.0. *)
Theorem total_revenue_checked_out_only (s : State) :
  wf s →
  (∃ ps, Forall2 (price_of s) (checked_out_bookings s) ps
       ∧ calculate_total_revenue s = (Ok (float_sum ps), s))
  ∧ (∀ s', wf s' → objs s' = objs s →
       checked_out_bookings s' = checked_out_bookings s →
       outcome calculate_total_revenue s' = outcome calculate_total_revenue s)
  ∧ (∀ b1 b2 r, dict_values (bookings s) = [b1; b2] →
       Booking.status b1 = CHECKED_OUT → Booking.status b2 = BOOKED →
       Booking.check_out b1 - Booking.check_in b1 = 2 →
       objs s !! Booking.room b1 = Some r →
       Room.price_per_night r = 100%float →
       outcome calculate_total_revenue s = Ok 200%float).
Proof.
  assert (Hrev : ∀ t, wf t →
    ∃ ps, Forall2 (price_of t) (checked_out_bookings t) ps
        ∧ calculate_total_revenue t = (Ok (float_sum ps), t)).
  { intros t [_ Hbks]. unfold calculate_total_revenue. mred.
    apply (total_revenue_loop_spec t _ 0%float Hbks). }
  intros Hwf. split; [by apply Hrev |]. split.
  - intros s' Hwf' Hobjs Hco.
    destruct (Hrev s Hwf) as (ps & Hps & Hs).
    destruct (Hrev s' Hwf') as (qs & Hqs & Hs').
    unfold outcome. rewrite Hs, Hs'. simpl. do 2 f_equal.
    rewrite Hco in Hqs.
    assert (Forall2 (price_of s) (checked_out_bookings s) qs) as Hqs2.
    { eapply Forall2_impl; [exact Hqs |].
      intros b q (r & Hr & ->). exists r. by rewrite <- Hobjs. }
    by eapply price_of_functional.
  - intros b1 b2 r Hvals Hst1 Hst2 Hn Hr Hp.
    destruct (Hrev s Hwf) as (ps & Hps & Hs).
    unfold outcome. rewrite Hs. simpl. f_equal.
    unfold checked_out_bookings in Hps. rewrite Hvals in Hps.
    rewrite filter_cons_True in Hps by done.
    rewrite filter_cons_False in Hps by (rewrite Hst2; done).
    rewrite filter_nil in Hps.
    inversion Hps as [|? p ? ps' (r' & Hr' & ->) Hnil]; subst.
    inversion Hnil; subst.
    rewrite Hr in Hr'. injection Hr' as <-.
    rewrite Hn, Hp. reflexivity.
Qed.

Lemma total_revenue_checked_out_only_witness :
  outcome calculate_total_revenue
    (hotel_with false [("b1", booking_jan CHECKED_OUT); ("b2", booking_later BOOKED)])
  = Ok 200%float.
Proof.
  assert (Hwf : wf (hotel_with false
    [("b1", booking_jan CHECKED_OUT); ("b2", booking_later BOOKED)])) by solve_wf.
  destruct (total_revenue_checked_out_only _ Hwf) as (_ & _ & Hex).
  apply (Hex (booking_jan CHECKED_OUT) (booking_later BOOKED) (room101 false));
    reflexivity.
Defined.

(** ** Occupancy agrees with the bookings in every reachable state *)

Lemma dict_get_set_inv {K V} `{EqDecision K} (k k' : K) (v v' : V) (d : dict K V) :
  dict_get k' (dict_set k v d) = Some v' →
  (k' = k ∧ v' = v) ∨ (k' ≠ k ∧ dict_get k' d = Some v').
Proof.
  destruct (decide (k = k')) as [<-|Hne].
  - rewrite dict_get_set_eq. intros [= <-]. by left.
  - rewrite dict_get_set_ne by done. intros Hg. right. split; [congruence | done].
Qed.

Lemma effect_occupancy_coherent c s s' :
  effect c s s' → occupancy_coherent s → occupancy_coherent s'.
Proof.
  destruct 1 as [|r|n|u g|u bk n Hn Hlt Hst|id b st Hb Hst|id b r Hb Hr Hocc
                 |id b r Hb Hst Hr Hc];
    intros [HI HII]; try done; unfold occupancy_coherent, bookings in *; simpl in *.
  - split; [|done]. intros id b Hb Hst.
    destruct (HI id b Hb Hst) as (r' & Hr' & Hocc).
    exists r'. split; [by apply lookup_app_l_Some | done].
  - split.
    + intros id b [[-> ->]|[_ Hb]]%dict_get_set_inv Hs;
        [by rewrite Hst in Hs | eauto].
    + intros id1 id2 b1 b2 [[-> ->]|[_ H1]]%dict_get_set_inv
        [[-> ->]|[_ H2]]%dict_get_set_inv Hs1 Hs2;
        try (by rewrite Hst in Hs1); try (by rewrite Hst in Hs2). eauto.
  - split.
    + intros id' b' [[-> ->]|[_ Hb']]%dict_get_set_inv Hs; [done | eauto].
    + intros id1 id2 b1 b2 [[-> ->]|[_ H1]]%dict_get_set_inv
        [[-> ->]|[_ H2]]%dict_get_set_inv Hs1 Hs2; try done. eauto.
  - assert (Hfree : ∀ id' b', dict_get id' (Hotel.bookings (hotel s)) = Some b' →
      Booking.status b' = CHECKED_IN → Booking.room b' ≠ Booking.room b).
    { intros id' b' Hb' Hs' Heq.
      destruct (HI id' b' Hb' Hs') as (r' & Hr' & Hocc').
      rewrite Heq, Hr in Hr'. congruence. }
    split.
    + intros id' b' [[-> ->]|[_ Hb']]%dict_get_set_inv Hs; simpl.
      * rewrite list_lookup_insert_eq by (by eapply lookup_lt_Some). by eexists.
      * rewrite list_lookup_insert_ne by (symmetry; by eapply Hfree). eauto.
    + intros id1 id2 b1 b2 [[-> ->]|[_ H1]]%dict_get_set_inv
        [[-> ->]|[_ H2]]%dict_get_set_inv Hs1 Hs2 Hroom; simpl in *;
        [done | | | by eauto].
      * exfalso. by eapply (Hfree id2 b2).
      * exfalso. by eapply (Hfree id1 b1).
  - split.
    + intros id' b' [[-> ->]|[Hne Hb']]%dict_get_set_inv Hs; [done |].
      rewrite list_lookup_insert_ne; [eauto |].
      intros Heq. apply Hne. by eapply (HII id' id b' b).
    + intros id1 id2 b1 b2 [[-> ->]|[_ H1]]%dict_get_set_inv
        [[-> ->]|[_ H2]]%dict_get_set_inv Hs1 Hs2; try done. eauto.
Qed.

Lemma reachable_occupancy_coherent s : reachable s → occupancy_coherent s.
Proof.
  induction 1 as [name s Hinit|o s _ IH].
  - apply Hotel_init_inv in Hinit as (_ & _ & Hb).
    unfold occupancy_coherent. rewrite Hb. split; intros; done.
  - eapply effect_occupancy_coherent; [apply run_op_effect | done].
Qed.

(** ** Cancellation and the occupancy flag *)

(** A call that is not a successful [check_out] leaves every raised
    occupancy flag raised. *)
Lemma effect_keeps_occupied s s' l r :
  effect false s s' →
  objs s !! l = Some r → Room.is_occupied r = true →
  ∃ r', objs s' !! l = Some r' ∧ Room.is_occupied r' = true.
Proof.
  destruct 1 as [|r0|n|u g|u bk n Hn Hlt Hst|id b st Hb Hst|id b r0 Hb Hr0 Hocc0
                 |id b r0 Hb Hst Hr0 Hc];
    intros Hl Hocc; simpl; try (by exists r); try done.
  - exists r. split; [|done]. by apply lookup_app_l_Some.
  - destruct (decide (Booking.room b = l)) as [<-|Hne].
    + rewrite list_lookup_insert_eq by (by eapply lookup_lt_Some). by eexists.
    + rewrite list_lookup_insert_ne by done. by exists r.
Qed.

(** C9, as the code has it: [cancel_booking] writes nothing but the status
    of the booking it is given; store, rooms and guests are as before.
    Cancelling a [checked_in] booking whose room is occupied therefore
    leaves the room occupied; from then on every [check_in] of a booking on
    that room fails: with [InvalidOperationError] when the booking is not
    [booked] or the date is not its check-in date, the two tests that come
    first, and with [BookingConflictError] otherwise; and [remove_room] on
    the room raises [InvalidOperationError]. No call other than a
    [check_out] that returns lowers an occupancy flag. In a state the
    engine reaches, the room of a [checked_in] booking is occupied, so there
    the flag is raised before the cancellation and after it. *)
Theorem cancel_leaves_room_occupied :
  (∀ s id,
     objs (after (cancel_booking id) s) = objs s
     ∧ rooms (after (cancel_booking id) s) = rooms s
     ∧ guests (after (cancel_booking id) s) = guests s
     ∧ (after (cancel_booking id) s = s
        ∨ ∃ b, dict_get id (bookings s) = Some b
             ∧ after (cancel_booking id) s
               = set_bookings (dict_set id (Booking.set_status CANCELLED b)) s))
  ∧ (∀ s id b r,
       dict_get id (bookings s) = Some b →
       Booking.status b = CHECKED_IN →
       objs s !! Booking.room b = Some r →
       Room.is_occupied r = true →
       outcome (cancel_booking id) s = Ok tt
       ∧ Booking.status <$> dict_get id (bookings (after (cancel_booking id) s))
         = Some CANCELLED
       ∧ objs (after (cancel_booking id) s) !! Booking.room b = Some r
       ∧ (∀ id' d b',
            dict_get id' (bookings (after (cancel_booking id) s)) = Some b' →
            Booking.room b' = Booking.room b →
            (∃ e, check_in id' d (after (cancel_booking id) s)
                  = (Raise e, after (cancel_booking id) s)
                ∧ (e = InvalidOperationError ∨ e = BookingConflictError))
            ∧ (Booking.status b' ≠ BOOKED ∨ d ≠ Booking.check_in b' →
               check_in id' d (after (cancel_booking id) s)
               = (Raise InvalidOperationError, after (cancel_booking id) s))
            ∧ (Booking.status b' = BOOKED → d = Booking.check_in b' →
               check_in id' d (after (cancel_booking id) s)
               = (Raise BookingConflictError, after (cancel_booking id) s)))
       ∧ (∀ n, dict_get n (rooms (after (cancel_booking id) s)) = Some (Booking.room b) →
            Hotel_remove_room n (after (cancel_booking id) s)
            = (Raise InvalidOperationError, after (cancel_booking id) s)))
  ∧ (∀ s o l r,
       objs s !! l = Some r → Room.is_occupied r = true →
       successful_check_out o s = false →
       ∃ r', objs (after (run_op o) s) !! l = Some r' ∧ Room.is_occupied r' = true)
  ∧ (∀ s id b,
       reachable s →
       dict_get id (bookings s) = Some b →
       Booking.status b = CHECKED_IN →
       ∃ r, objs s !! Booking.room b = Some r
          ∧ Room.is_occupied r = true
          ∧ objs (after (cancel_booking id) s) !! Booking.room b = Some r).
Proof.
  assert (Hframe : ∀ s id,
     objs (after (cancel_booking id) s) = objs s
     ∧ rooms (after (cancel_booking id) s) = rooms s
     ∧ guests (after (cancel_booking id) s) = guests s
     ∧ (after (cancel_booking id) s = s
        ∨ ∃ b, dict_get id (bookings s) = Some b
             ∧ after (cancel_booking id) s
               = set_bookings (dict_set id (Booking.set_status CANCELLED b)) s)).
  { intros s id. unfold after.
    destruct (dict_get id (bookings s)) as [b|] eqn:Hb.
    - rewrite (cancel_booking_stored _ _ _ Hb).
      repeat case_bool_decide; simpl; repeat split; auto.
      right. by exists b.
    - rewrite (cancel_booking_absent _ _ Hb). simpl. repeat split; auto. }
  split; [exact Hframe |]. split.
  - intros s id b r Hb Hst Hr Hocc.
    destruct (Hframe s id) as (Hobjs & Hrooms & _ & _).
    assert (Hafter : after (cancel_booking id) s
      = set_bookings (dict_set id (Booking.set_status CANCELLED b)) s).
    { unfold after. rewrite (cancel_booking_stored _ _ _ Hb), Hst. done. }
    set (s' := after (cancel_booking id) s) in *.
    assert (Hr' : objs s' !! Booking.room b = Some r) by (by rewrite Hobjs).
    split; [|split; [|split; [done |]; split]].
    + unfold outcome. rewrite (cancel_booking_stored _ _ _ Hb), Hst. done.
    + rewrite Hafter. unfold bookings. simpl. by rewrite dict_get_set_eq.
    + intros id' d b' Hb' Hroom.
      rewrite (check_in_stored _ _ _ _ Hb'), Hroom, Hr', Hocc.
      split; [|split].
      * repeat case_bool_decide; eexists; split; eauto.
      * intros Hbad. repeat case_bool_decide; try done. by destruct Hbad.
      * intros Hst' ->.
        by rewrite !bool_decide_eq_false_2 by (intros Hx; by apply Hx).
    + intros n Hn. unfold Hotel_remove_room, deref. mred.
      fold (rooms s'). by rewrite Hn, Hr', Hocc.
  - split.
    + intros s o l r Hl Hocc Hco.
      pose proof (run_op_effect o s) as Heff. rewrite Hco in Heff.
      by eapply effect_keeps_occupied.
    + intros s id b Hreach Hb Hst.
      destruct (proj1 (reachable_occupancy_coherent s Hreach) id b Hb Hst)
        as (r & Hr & Hocc).
      exists r. destruct (Hframe s id) as (Hobjs & _).
      by rewrite Hobjs.
Qed.

Lemma cancel_leaves_room_occupied_witness :
  objs (after (cancel_booking "b1")
          (hotel_with true [("b1", booking_jan CHECKED_IN); ("b2", booking_later BOOKED)]))
    !! 0%nat = Some (room101 true)
  ∧ check_in "b2" (date_of_ymd 2024 1 3)
      (after (cancel_booking "b1")
         (hotel_with true [("b1", booking_jan CHECKED_IN); ("b2", booking_later BOOKED)]))
    = (Raise BookingConflictError,
       after (cancel_booking "b1")
         (hotel_with true [("b1", booking_jan CHECKED_IN); ("b2", booking_later BOOKED)]))
  ∧ check_in "b2" (date_of_ymd 2024 1 4)
      (after (cancel_booking "b1")
         (hotel_with true [("b1", booking_jan CHECKED_IN); ("b2", booking_later BOOKED)]))
    = (Raise InvalidOperationError,
       after (cancel_booking "b1")
         (hotel_with true [("b1", booking_jan CHECKED_IN); ("b2", booking_later BOOKED)]))
  ∧ Hotel_remove_room 101
      (after (cancel_booking "b1")
         (hotel_with true [("b1", booking_jan CHECKED_IN); ("b2", booking_later BOOKED)]))
    = (Raise InvalidOperationError,
       after (cancel_booking "b1")
         (hotel_with true [("b1", booking_jan CHECKED_IN); ("b2", booking_later BOOKED)])).
Proof.
  destruct cancel_leaves_room_occupied as (_ & Hcancel & _ & _).
  destruct (Hcancel
    (hotel_with true [("b1", booking_jan CHECKED_IN); ("b2", booking_later BOOKED)])
    "b1" (booking_jan CHECKED_IN) (room101 true) eq_refl eq_refl eq_refl eq_refl)
    as (_ & _ & Hocc & Hin & Hrm).
  split; [exact Hocc |]. split; [|split].
  - destruct (Hin "b2" (date_of_ymd 2024 1 3) (booking_later BOOKED) eq_refl eq_refl)
      as (_ & _ & Hconf).
    apply Hconf; reflexivity.
  - destruct (Hin "b2" (date_of_ymd 2024 1 4) (booking_later BOOKED) eq_refl eq_refl)
      as (_ & Hinv & _).
    apply Hinv. right. vm_compute. discriminate.
  - apply Hrm. reflexivity.
Defined.

(** C9 as stated fails: after the [checked_in] booking [b1] of room 101 has
    been cancelled the room is still occupied, yet a [check_in] of booking
    [b2] of the same room on a day other than its check-in date, and a
    [check_in] of [b1] itself, raise [InvalidOperationError], not
    [BookingConflictError]. *)
Lemma cancel_then_check_in_counterexample :
  Booking.room (booking_later BOOKED) = Booking.room (booking_jan CHECKED_IN)
  ∧ Room.is_occupied <$>
      objs (after (cancel_booking "b1")
              (hotel_with true [("b1", booking_jan CHECKED_IN);
                                ("b2", booking_later BOOKED)])) !! 0%nat
    = Some true
  ∧ dict_get "b2"
      (bookings (after (cancel_booking "b1")
                   (hotel_with true [("b1", booking_jan CHECKED_IN);
                                     ("b2", booking_later BOOKED)])))
    = Some (booking_later BOOKED)
  ∧ outcome (check_in "b2" (date_of_ymd 2024 1 4))
      (after (cancel_booking "b1")
         (hotel_with true [("b1", booking_jan CHECKED_IN);
                           ("b2", booking_later BOOKED)]))
    = Raise InvalidOperationError
  ∧ outcome (check_in "b1" (date_of_ymd 2024 1 1))
      (after (cancel_booking "b1")
         (hotel_with true [("b1", booking_jan CHECKED_IN);
                           ("b2", booking_later BOOKED)]))
    = Raise InvalidOperationError.
Proof. by vm_compute. Qed.

(** ** The scenarios of the specification, run from a new hotel *)

(** Scenario 1: room 101 at 100.0, guest John, a booking from 2024-01-01 to
    2024-01-03; check-in on the first day occupies the room, check-out on
    the last returns 200.0 and frees it. *)
Example scenario_stay :
  ∃ s0 g b s,
    Hotel_init "Luxury Hotel" = Ok s0
    ∧ run_ops [AddRoom 101 "single" 100%float;
               RegisterGuest "g1" "John" "john@example.com";
               CreateBooking "b1" "g1" 101 (date_of_ymd 2024 1 1) (date_of_ymd 2024 1 3);
               CheckIn "b1" (date_of_ymd 2024 1 1)] s0
      = ([Ok (VRoom 0%nat); Ok (VGuest g); Ok (VBooking b); Ok VNone], s)
    ∧ objs s !! 0%nat = Some (room101 true)
    ∧ run_ops [CheckOut "b1" (date_of_ymd 2024 1 3)] s
      = ([Ok (VFloat 200%float)],
         hotel_with false [("b1", booking_jan CHECKED_OUT)]).
Proof. do 4 eexists. repeat split; by vm_compute. Qed.

(** Scenario 2: with that booking still [booked], a booking of room 101 from
    2024-01-02 to 2024-01-04 is refused. *)
Example scenario_double_booking :
  outcome (create_booking "b2" "g1" 101 (date_of_ymd 2024 1 2) (date_of_ymd 2024 1 4))
    (hotel_with false [("b1", booking_jan BOOKED)])
  = Raise BookingConflictError.
Proof. by vm_compute. Qed.

(** * Beyond the claims: the rest of the engine *)

(** ** Every call writes exactly one of the cases of [writes] *)

Lemma str_is_empty_false_inv (x : string) : str_is_empty x = false → x ≠ EmptyString.
Proof. by destruct x. Qed.

Lemma run_op_writes o s : writes s o (after (run_op o) s).
Proof.
  destruct o as [n t p|n|u nm c|u g n ci co|id|id d|id d]; unfold after.
  - unfold run_op, add_room, Hotel_add_room, Room_init, alloc, dict_mem. mred.
    destruct (dict_get n (rooms s)) eqn:Hn; simpl; [apply writes_nothing |].
    destruct (Z.leb_spec n 0); simpl; [apply writes_nothing |].
    destruct (PrimFloat.leb p 0%float) eqn:Hp; simpl; [apply writes_nothing |].
    destruct (str_is_empty t) eqn:Ht; simpl; [apply writes_nothing |].
    apply writes_add_room; try done. by apply str_is_empty_false_inv.
  - unfold run_op, Hotel_remove_room, deref. mred.
    destruct (dict_get n (rooms s)) as [l|] eqn:Hn; simpl; [|apply writes_nothing].
    destruct (objs s !! l) as [r|] eqn:Hl; simpl; [|apply writes_nothing].
    destruct (Room.is_occupied r) eqn:Hocc; simpl; [apply writes_nothing |].
    by eapply writes_remove_room.
  - unfold run_op, register_guest, Guest_init. mred.
    destruct (str_is_empty u) eqn:Hu; simpl; [apply writes_nothing |].
    destruct (str_is_empty nm) eqn:Hnm; simpl; [apply writes_nothing |].
    destruct (str_is_empty c) eqn:Hc; simpl; [apply writes_nothing |].
    apply writes_register_guest; by apply str_is_empty_false_inv.
  - unfold run_op, create_booking, get_guest, Hotel_get_room, Booking_init. mred.
    destruct (dict_get g (guests s)) as [gu|] eqn:Hg; [|apply writes_nothing].
    destruct (dict_get n (rooms s)) as [l|] eqn:Hl; [|apply writes_nothing].
    destruct (room_is_available_state l ci co s) as [x Hx]. rewrite Hx.
    destruct x as [[|]|]; simpl; try apply writes_nothing.
    destruct (str_is_empty u) eqn:Hu; [apply writes_nothing |].
    destruct (Z.leb_spec co ci); simpl; [apply writes_nothing |].
    eapply writes_create_booking; try done. by apply str_is_empty_false_inv.
  - unfold run_op. mred.
    destruct (dict_get id (bookings s)) as [b|] eqn:Hb.
    + rewrite (cancel_booking_stored _ _ _ Hb).
      repeat case_bool_decide; simpl; try apply writes_nothing.
      by apply writes_cancel.
    + rewrite (cancel_booking_absent _ _ Hb). apply writes_nothing.
  - unfold run_op. mred.
    destruct (dict_get id (bookings s)) as [b|] eqn:Hb.
    + rewrite (check_in_stored _ _ _ _ Hb).
      case_bool_decide as Hst; simpl; [apply writes_nothing |].
      case_bool_decide as Hd; simpl; [apply writes_nothing |].
      destruct (objs s !! Booking.room b) as [r|] eqn:Hr; simpl;
        [|apply writes_nothing].
      destruct (Room.is_occupied r) eqn:Hocc; simpl; [apply writes_nothing |].
      assert (d = Booking.check_in b) as ->
        by (by destruct (decide (d = Booking.check_in b))).
      by apply writes_check_in.
    + unfold check_in. mred. rewrite (get_booking_None _ _ Hb). apply writes_nothing.
  - unfold run_op. mred.
    destruct (dict_get id (bookings s)) as [b|] eqn:Hb.
    + rewrite (check_out_stored _ _ _ _ Hb).
      case_bool_decide as Hst; simpl; [apply writes_nothing |].
      case_bool_decide as Hd; simpl; [apply writes_nothing |].
      assert (Booking.status b = CHECKED_IN) as Hst'
        by (by destruct (decide (Booking.status b = CHECKED_IN))).
      assert (d = Booking.check_out b) as ->
        by (by destruct (decide (d = Booking.check_out b))).
      destruct (objs s !! Booking.room b) as [r|] eqn:Hr; simpl.
      * by apply writes_check_out.
      * by apply writes_check_out_dangling.
    + unfold check_out. mred. rewrite (get_booking_None _ _ Hb). apply writes_nothing.
Qed.

(** ** Dictionaries, continued: keys *)

Section DictKeys.
Context {K V : Type} `{EqDecision K}.
Implicit Types (k : K) (v : V) (d : dict K V).

Lemma dict_keys_cons k v d : dict_keys ((k, v) :: d) = k :: dict_keys d.
Proof. reflexivity. Qed.

Lemma dict_values_cons k v d : dict_values ((k, v) :: d) = v :: dict_values d.
Proof. reflexivity. Qed.

Lemma dict_get_None_keys k d : dict_get k d = None ↔ k ∉ dict_keys d.
Proof.
  induction d as [|[k' v'] d IH]; cbn [dict_get].
  - split; [intros _; apply not_elem_of_nil | done].
  - rewrite dict_keys_cons, not_elem_of_cons.
    destruct (decide (k = k')) as [->|Hne].
    + split; [done | by intros [? _]].
    + rewrite IH. split; [by split | by intros [_ ?]].
Qed.

Lemma dict_get_Some_keys k v d : dict_get k d = Some v → k ∈ dict_keys d.
Proof.
  intros Hg. destruct (decide (k ∈ dict_keys d)) as [|Hn]; [done |].
  apply dict_get_None_keys in Hn. congruence.
Qed.

Lemma dict_keys_set_present k v d :
  is_Some (dict_get k d) → dict_keys (dict_set k v d) = dict_keys d.
Proof.
  induction d as [|[k' v'] d IH]; cbn [dict_get dict_set].
  - by intros [? ?].
  - destruct (decide (k = k')); [done |].
    intros Hs. by rewrite !dict_keys_cons, IH.
Qed.

Lemma dict_set_absent k v d :
  dict_get k d = None → dict_set k v d = d ++ [(k, v)].
Proof.
  induction d as [|[k' v'] d IH]; simpl; [done |].
  destruct (decide (k = k')); [done |]. intros Hg. by rewrite IH.
Qed.

Lemma NoDup_keys_set k v d : NoDup (dict_keys d) → NoDup (dict_keys (dict_set k v d)).
Proof.
  intros Hnd. destruct (dict_get k d) as [v0|] eqn:Hg.
  - by rewrite dict_keys_set_present.
  - rewrite (dict_set_absent _ _ _ Hg). unfold dict_keys in *.
    rewrite fmap_app. apply NoDup_app. split; [done |]. split.
    + intros x Hx ->%list_elem_of_singleton.
      by apply dict_get_None_keys in Hg.
    + apply NoDup_singleton.
Qed.

Lemma dict_keys_del k d : dict_keys (dict_del k d) ⊆ dict_keys d.
Proof.
  induction d as [|[k' v'] d IH]; cbn [dict_del]; [done |].
  destruct (decide (k = k')); rewrite ?dict_keys_cons.
  - intros x Hx. by apply list_elem_of_further.
  - intros x [->|Hx]%elem_of_cons; [apply list_elem_of_here |].
    apply list_elem_of_further. by apply IH.
Qed.

Lemma NoDup_keys_del k d : NoDup (dict_keys d) → NoDup (dict_keys (dict_del k d)).
Proof.
  induction d as [|[k' v'] d IH]; cbn [dict_del]; [done |].
  rewrite dict_keys_cons. intros [Hnin Hnd]%NoDup_cons.
  destruct (decide (k = k')); [done |].
  rewrite dict_keys_cons. apply NoDup_cons. split; [|by apply IH].
  intros Hin. apply Hnin. by apply (dict_keys_del k d).
Qed.

Lemma dict_values_del k d : dict_values (dict_del k d) ⊆ dict_values d.
Proof.
  intros x ([k0 v0] & -> & Hin)%list_elem_of_fmap.
  apply list_elem_of_fmap. exists (k0, v0). split; [done |].
  by eapply dict_del_elem.
Qed.

Lemma NoDup_values_del k d : NoDup (dict_values d) → NoDup (dict_values (dict_del k d)).
Proof.
  induction d as [|[k' v'] d IH]; cbn [dict_del]; [done |].
  rewrite dict_values_cons. intros [Hnin Hnd]%NoDup_cons.
  destruct (decide (k = k')); [done |].
  rewrite dict_values_cons. apply NoDup_cons. split; [|by apply IH].
  intros Hin. apply Hnin. by apply (dict_values_del k d).
Qed.

(** Deleting a key of a dictionary removes it. *)
Lemma dict_get_del_eq k d : NoDup (dict_keys d) → dict_get k (dict_del k d) = None.
Proof.
  induction d as [|[k' v'] d IH]; cbn [dict_del dict_get]; [done |].
  rewrite dict_keys_cons. intros [Hnin Hnd]%NoDup_cons.
  destruct (decide (k = k')) as [->|Hne].
  - by apply dict_get_None_keys.
  - cbn [dict_get]. rewrite decide_False by done. by apply IH.
Qed.

Lemma dict_get_del_ne k k' d : k ≠ k' → dict_get k' (dict_del k d) = dict_get k' d.
Proof.
  intros Hne. induction d as [|[k0 v0] d IH]; simpl; [done |].
  destruct (decide (k = k0)) as [->|Hk]; simpl.
  - by rewrite decide_False.
  - destruct (decide (k' = k0)); [done | apply IH].
Qed.

Lemma Forall_dict_set (P : K * V → Prop) k v d :
  P (k, v) → Forall P d → Forall P (dict_set k v d).
Proof.
  rewrite !Forall_forall. intros Hv Hd x [->|Hx]%dict_set_elem_key; auto.
Qed.

Lemma Forall_dict_get (P : K * V → Prop) k v d :
  Forall P d → dict_get k d = Some v → P (k, v).
Proof.
  rewrite Forall_forall. intros Hd Hg. by apply Hd, dict_get_elem.
Qed.
End DictKeys.

(** ** The entities keep their constructors' invariants *)

Lemma room_valid_set_is_occupied v r : room_valid r → room_valid (Room.set_is_occupied v r).
Proof. by intros (? & ? & ?). Qed.

Lemma booking_valid_set_status st b :
  is_valid st = true → booking_valid b → booking_valid (Booking.set_status st b).
Proof. by intros Hst (? & ? & ?). Qed.

(** References of the rooms dictionary lie inside the store. *)
Lemma wf_rooms_lt s n l : wf s → (n, l) ∈ rooms s → (l < length (objs s))%nat.
Proof.
  intros [Hr _] Hin. rewrite Forall_forall in Hr. specialize (Hr _ Hin).
  unfold names_room in Hr. simpl in Hr.
  apply lookup_lt_is_Some. apply (fmap_is_Some Room.number). by eexists.
Qed.

Lemma entities_valid_status_write s id b st (σ : list Room.t) :
  dict_get id (bookings s) = Some b →
  is_valid st = true →
  Forall room_valid σ →
  entities_valid s →
  entities_valid
    (set_objs (λ _, σ) (set_bookings (dict_set id (Booking.set_status st b)) s)).
Proof.
  intros Hb Hst Hσ (Hobjs & Hg & Hbk & Hkr & Hkg & Hkb & Hvr).
  unfold entities_valid, rooms, guests, bookings in *. simpl.
  repeat split; try done.
  - apply Forall_dict_set; [|done].
    pose proof (Forall_dict_get _ _ _ _ Hbk Hb) as (Hv & Hid & Hgv). simpl in *.
    split; [by apply booking_valid_set_status | done].
  - by apply NoDup_keys_set.
Qed.

Lemma writes_entities_valid s o s' :
  writes s o s' → wf s → entities_valid s → entities_valid s'.
Proof.
  destruct 1 as [o|n t p Hn Hpos Hp Ht|n l r Hn Hl Hocc|u nm c Hu Hnm Hc
                 |u gid g n l ci co Hg Hl Hav Hu Hlt|id b Hb Hs1 Hs2
                 |id b r Hb Hst Hr Hocc|id b r Hb Hst Hr|id b Hb Hst Hr];
    intros Hwf Hev; try done.
  - destruct Hev as (Hobjs & Hg & Hbk & Hkr & Hkg & Hkb & Hvr).
    unfold entities_valid, rooms, guests, bookings in *. simpl.
    repeat split; try done.
    + apply Forall_app. split; [done |]. by apply Forall_singleton.
    + by apply NoDup_keys_set.
    + rewrite (dict_set_absent _ _ _ Hn). unfold dict_values in *.
      rewrite fmap_app. apply NoDup_app. split; [done |]. split.
      * intros x ([n0 l0] & -> & Hin)%list_elem_of_fmap Heq%list_elem_of_singleton.
        pose proof (wf_rooms_lt s n0 l0 Hwf Hin) as Hlt. simpl in Heq. lia.
      * apply NoDup_singleton.
  - destruct Hev as (Hobjs & Hg & Hbk & Hkr & Hkg & Hkb & Hvr).
    unfold entities_valid, rooms, guests, bookings in *. simpl.
    repeat split; try done; [by apply NoDup_keys_del | by apply NoDup_values_del].
  - destruct Hev as (Hobjs & Hg & Hbk & Hkr & Hkg & Hkb & Hvr).
    unfold entities_valid, rooms, guests, bookings in *. simpl.
    repeat split; try done; [|by apply NoDup_keys_set].
    by apply Forall_dict_set.
  - destruct Hev as (Hobjs & Hgs & Hbk & Hkr & Hkg & Hkb & Hvr).
    unfold entities_valid, rooms, guests, bookings in *. simpl.
    repeat split; try done; [|by apply NoDup_keys_set].
    apply Forall_dict_set; [|done]. simpl.
    pose proof (Forall_dict_get _ _ _ _ Hgs Hg) as [Hgv _].
    split; [|by split]. split; [done |]. split; [done |]. reflexivity.
  - apply (entities_valid_status_write s id b CANCELLED (objs s)); try done.
    by destruct Hev.
  - apply (entities_valid_status_write s id b CHECKED_IN
             (<[Booking.room b := Room.set_is_occupied true r]> (objs s)));
      try done.
    destruct Hev as [Hobjs _]. apply Forall_insert; [done |].
    apply room_valid_set_is_occupied. by eapply Forall_lookup_1.
  - apply (entities_valid_status_write s id b CHECKED_OUT
             (<[Booking.room b := Room.set_is_occupied false r]> (objs s)));
      try done.
    destruct Hev as [Hobjs _]. apply Forall_insert; [done |].
    apply room_valid_set_is_occupied. by eapply Forall_lookup_1.
  - apply (entities_valid_status_write s id b CHECKED_OUT (objs s)); try done.
    by destruct Hev.
Qed.

Lemma writes_wf s o s' : writes s o s' → wf s → wf s'.
Proof.
  intros Hw. apply (effect_wf true).
  destruct Hw as [o|n t p Hn Hpos Hp Ht|n l r Hn Hl Hocc|u nm c Hu Hnm Hc
                  |u gid g n l ci co Hg Hl Hav Hu Hlt|id b Hb Hs1 Hs2
                  |id b r Hb Hst Hr Hocc|id b r Hb Hst Hr|id b Hb Hst Hr].
  - apply effect_none.
  - apply (effect_add_room _ s (Room.mk n t p false)).
  - apply effect_remove_room.
  - apply effect_guest.
  - by apply (effect_booking _ s u (Booking.mk u g l ci co BOOKED) n).
  - by apply effect_status.
  - by apply effect_check_in.
  - by apply effect_check_out.
  - by apply effect_status.
Qed.

Lemma reachable_entities_valid s : reachable s → entities_valid s.
Proof.
  induction 1 as [name s Hinit|o s Hs IH].
  - unfold Hotel_init in Hinit. destruct (str_is_empty name); [done |].
    injection Hinit as <-. unfold entities_valid. simpl.
    repeat split; constructor.
  - eapply writes_entities_valid; [apply run_op_writes | by apply reachable_wf | done].
Qed.

(** ** No room is ever double-booked *)

(** Under well-formedness the availability test answers exactly whether the
    room number is free. *)
Lemma room_is_available_free s n l ci co :
  wf s → dict_get n (rooms s) = Some l →
  _room_is_available l ci co s
    = (Ok (negb (existsb (blocks s n ci co) (dict_values (bookings s)))), s).
Proof.
  intros [Hrooms Hbks] Hl.
  pose proof (Forall_dict_get _ _ _ _ Hrooms Hl) as Hn. unfold names_room in Hn.
  simpl in Hn. destruct (objs s !! l) as [r|] eqn:Hr; [|done].
  simpl in Hn. injection Hn as <-.
  unfold _room_is_available. mred.
  by apply room_is_available_loop_spec.
Qed.

Lemma room_is_available_true_free s n l ci co :
  wf s → dict_get n (rooms s) = Some l →
  _room_is_available l ci co s = (Ok true, s) → room_free s n ci co.
Proof.
  intros Hwf Hl Hav. rewrite (room_is_available_free s n l ci co Hwf Hl) in Hav.
  unfold room_free. rewrite <- blocks_conflicting.
  destruct (existsb _ _); [done | discriminate].
Qed.

(** A write that changes no dates and no room, activates nothing and keeps
    the room numbers keeps the bookings apart. *)
Lemma no_double_booking_frame s s' :
  (∀ id b', dict_get id (bookings s') = Some b' →
     ∃ b, dict_get id (bookings s) = Some b
        ∧ Booking.room b' = Booking.room b
        ∧ Booking.check_in b' = Booking.check_in b
        ∧ Booking.check_out b' = Booking.check_out b
        ∧ (active b' → active b)) →
  (∀ id b n, dict_get id (bookings s) = Some b →
     names_room s' (Booking.room b) n → names_room s (Booking.room b) n) →
  no_double_booking s → no_double_booking s'.
Proof.
  intros Hbk Hnames Hndb id1 id2 b1' b2' n H1 H2 Hne Hn1 Hn2 Ha1 Ha2.
  destruct (Hbk _ _ H1) as (b1 & Hb1 & Hr1 & Hci1 & Hco1 & Hact1).
  destruct (Hbk _ _ H2) as (b2 & Hb2 & Hr2 & Hci2 & Hco2 & Hact2).
  rewrite Hci1, Hco1, Hci2, Hco2. rewrite Hr1 in Hn1. rewrite Hr2 in Hn2.
  apply (Hndb id1 id2 b1 b2 n); eauto.
Qed.

Lemma names_room_insert_inv s l r v l' n :
  objs s !! l = Some r →
  Room.number <$> (<[l := Room.set_is_occupied v r]> (objs s)) !! l' = Some n →
  Room.number <$> objs s !! l' = Some n.
Proof.
  intros Hr. destruct (decide (l = l')) as [<-|Hne].
  - rewrite list_lookup_insert_eq by (by eapply lookup_lt_Some). by rewrite Hr.
  - by rewrite list_lookup_insert_ne.
Qed.

Lemma status_write_bookings s id b st id' b' :
  dict_get id (bookings s) = Some b →
  (active (Booking.set_status st b) → active b) →
  dict_get id' (dict_set id (Booking.set_status st b) (bookings s)) = Some b' →
  ∃ b0, dict_get id' (bookings s) = Some b0
      ∧ Booking.room b' = Booking.room b0
      ∧ Booking.check_in b' = Booking.check_in b0
      ∧ Booking.check_out b' = Booking.check_out b0
      ∧ (active b' → active b0).
Proof.
  intros Hb Hact [[-> ->]|[_ Hb']]%dict_get_set_inv.
  - exists b. by split_and!.
  - exists b'. by split_and!.
Qed.

Lemma writes_no_double_booking s o s' :
  writes s o s' → wf s → no_double_booking s → no_double_booking s'.
Proof.
  destruct 1 as [o|n t p Hn Hpos Hp Ht|n l r Hn Hl Hocc|u nm c Hu Hnm Hc
                 |u gid g n l ci co Hg Hl Hav Hu Hlt|id b Hb Hs1 Hs2
                 |id b r Hb Hst Hr Hocc|id b r Hb Hst Hr|id b Hb Hst Hr];
    intros Hwf Hndb; try done.
  - (* add_room *)
    apply (no_double_booking_frame s); [| |done].
    + intros id b' Hb'. exists b'. by split_and!.
    + intros id b n0 Hb. unfold names_room. simpl.
      destruct Hwf as [_ Hbks]. rewrite Forall_forall in Hbks.
      destruct (Hbks b (dict_get_values _ _ _ Hb)) as [r Hr].
      by rewrite (lookup_app_l_Some _ _ _ _ Hr), Hr.
  - (* create_booking *)
    pose proof (room_is_available_true_free s n l ci co Hwf Hl Hav) as Hfree.
    assert (Hln : names_room s l n).
    { destruct Hwf as [Hrooms _]. apply (Forall_dict_get _ _ _ _ Hrooms Hl). }
    assert (Hnew : ∀ id2 b2 n0, dict_get id2 (bookings s) = Some b2 →
      names_room s l n0 → names_room s (Booking.room b2) n0 → active b2 →
      ¬ (ci < Booking.check_out b2 ∧ Booking.check_in b2 < co)).
    { intros id2 b2 n0 Hb2 Hn1 Hn2 Hact Hov. apply Hfree. exists b2.
      assert (n0 = n) as -> by (unfold names_room in *; congruence).
      split; [by eapply dict_get_values | done]. }
    intros id1 id2 b1 b2 n0 H1 H2 Hne Hn1 Hn2 Ha1 Ha2.
    unfold bookings in H1, H2. simpl in H1, H2.
    apply dict_get_set_inv in H1 as [[-> ->]|[_ H1]];
      apply dict_get_set_inv in H2 as [[-> ->]|[_ H2]]; simpl in *.
    + done.
    + by eapply Hnew.
    + intros [Hx Hy]. by eapply (Hnew id1 b1 n0).
    + by eapply (Hndb id1 id2 b1 b2 n0).
  - (* cancel_booking *)
    apply (no_double_booking_frame s); [| |done].
    + intros id' b'. unfold bookings at 1. simpl.
      apply status_write_bookings; [done |]. by intros [? _].
    + done.
  - (* check_in *)
    apply (no_double_booking_frame s); [| |done].
    + intros id' b'. unfold bookings at 1. simpl.
      apply status_write_bookings; [done |]. intros _. unfold active.
      rewrite Hst. by split.
    + intros id' b0 n0 _. unfold names_room. simpl.
      by apply names_room_insert_inv.
  - (* check_out *)
    apply (no_double_booking_frame s); [| |done].
    + intros id' b'. unfold bookings at 1. simpl.
      apply status_write_bookings; [done |]. by intros [_ ?].
    + intros id' b0 n0 _. unfold names_room. simpl.
      by apply names_room_insert_inv.
  - apply (no_double_booking_frame s); [| |done].
    + intros id' b'. unfold bookings at 1. simpl.
      apply status_write_bookings; [done |]. by intros [_ ?].
    + done.
Qed.

Lemma reachable_no_double_booking s : reachable s → no_double_booking s.
Proof.
  induction 1 as [name s Hinit|o s Hs IH].
  - apply Hotel_init_inv in Hinit as (_ & _ & Hb).
    intros id1 id2 b1 b2 n H1. by rewrite Hb in H1.
  - eapply writes_no_double_booking; [apply run_op_writes | by apply reachable_wf | done].
Qed.

(** ** Reachable states *)

Lemma sample_reachable : reachable (hotel_with false [("b1", booking_jan BOOKED)]).
Proof.
  assert (H0 : reachable new_hotel)
    by (apply (reachable_init "Luxury Hotel"); reflexivity).
  pose proof (reachable_step
    (CreateBooking "b1" "g1" 101 (date_of_ymd 2024 1 1) (date_of_ymd 2024 1 3)) _
    (reachable_step (RegisterGuest "g1" "John" "john@example.com") _
       (reachable_step (AddRoom 101 "single" 100%float) _ H0))) as H3.
  exact H3.
Qed.

(** X1: in every state the engine reaches, two different bookings of the
    same room number that are both active (neither cancelled nor checked
    out) never overlap: not both [b1.check_in < b2.check_out] and
    [b2.check_in < b1.check_out]. *)
Theorem reachable_never_double_booked (s : State) (id1 id2 : string)
    (b1 b2 : Booking.t) (n : Z) :
  reachable s →
  dict_get id1 (bookings s) = Some b1 →
  dict_get id2 (bookings s) = Some b2 →
  id1 ≠ id2 →
  names_room s (Booking.room b1) n → names_room s (Booking.room b2) n →
  active b1 → active b2 →
  ¬ (Booking.check_in b1 < Booking.check_out b2
     ∧ Booking.check_in b2 < Booking.check_out b1).
Proof.
  intros Hs. by apply (reachable_no_double_booking s Hs).
Qed.

Lemma sample_two_bookings_reachable :
  reachable (hotel_with false [("b1", booking_jan BOOKED); ("b2", booking_later BOOKED)]).
Proof.
  exact (reachable_step
    (CreateBooking "b2" "g1" 101 (date_of_ymd 2024 1 3) (date_of_ymd 2024 1 5)) _
    sample_reachable).
Qed.

Lemma reachable_never_double_booked_witness :
  ¬ (Booking.check_in (booking_jan BOOKED) < Booking.check_out (booking_later BOOKED)
     ∧ Booking.check_in (booking_later BOOKED) < Booking.check_out (booking_jan BOOKED)).
Proof.
  apply (reachable_never_double_booked _ "b1" "b2" _ _ 101
           sample_two_bookings_reachable);
    first [reflexivity | discriminate | by split].
Defined.

(** X2: in every state the engine reaches, each object satisfies the checks
    of its constructor and is filed under its own identifier: every room of
    the store has a positive number, a price that is not [<= 0] and a
    non-empty type; every guest has non-empty id, name and contact and is
    stored under its [guest_id]; every booking has a non-empty id,
    [check_in < check_out] and one of the four statuses, and is stored
    under its [booking_id]; no key occurs twice and no room object is filed
    under two numbers. *)
Theorem reachable_entities_hold (s : State) :
  reachable s →
  Forall room_valid (objs s)
  ∧ Forall (λ kg, guest_valid kg.2 ∧ Guest.guest_id kg.2 = kg.1) (guests s)
  ∧ Forall (λ kb, booking_valid kb.2 ∧ Booking.booking_id kb.2 = kb.1
                  ∧ guest_valid (Booking.guest kb.2)) (bookings s)
  ∧ NoDup (dict_keys (rooms s))
  ∧ NoDup (dict_keys (guests s))
  ∧ NoDup (dict_keys (bookings s))
  ∧ NoDup (dict_values (rooms s)).
Proof. apply reachable_entities_valid. Qed.

Lemma reachable_entities_hold_witness :
  Forall room_valid (objs (hotel_with false [("b1", booking_jan BOOKED)])).
Proof.
  exact (proj1 (reachable_entities_hold _ sample_reachable)).
Defined.

(** ** Availability queries and booking creation *)

Lemma create_booking_no_guest s u gid n ci co :
  dict_get gid (guests s) = None →
  create_booking u gid n ci co s = (Raise EntityNotFoundError, s).
Proof. intros Hg. unfold create_booking, get_guest. mred. by rewrite Hg. Qed.

Lemma create_booking_no_room s u gid n ci co :
  is_Some (dict_get gid (guests s)) →
  dict_get n (rooms s) = None →
  create_booking u gid n ci co s = (Raise EntityNotFoundError, s).
Proof.
  intros [g Hg] Hn. unfold create_booking, get_guest, Hotel_get_room. mred.
  by rewrite Hg, Hn.
Qed.

(** What a successful [create_booking] tested and wrote. *)
Lemma create_booking_Ok_inv s u gid n ci co bk s' :
  wf s →
  create_booking u gid n ci co s = (Ok bk, s') →
  ∃ g l, dict_get gid (guests s) = Some g
       ∧ dict_get n (rooms s) = Some l
       ∧ existsb (blocks s n ci co) (dict_values (bookings s)) = false
       ∧ u ≠ EmptyString ∧ ci < co
       ∧ bk = Booking.mk u g l ci co BOOKED
       ∧ s' = set_bookings (dict_set u bk) s.
Proof.
  intros Hwf Hok.
  destruct (dict_get gid (guests s)) as [g|] eqn:Hg;
    [|by rewrite create_booking_no_guest in Hok].
  destruct (dict_get n (rooms s)) as [l|] eqn:Hl;
    [|by rewrite create_booking_no_room in Hok].
  rewrite (create_booking_found s u gid n ci co g l Hwf Hg Hl) in Hok.
  destruct (existsb _ _); [done |].
  destruct (str_is_empty u) eqn:Hu; [done |].
  destruct (Z.leb_spec co ci); [done |].
  injection Hok as <- <-. exists g, l.
  split_and!; try done. by apply str_is_empty_false_inv.
Qed.

Lemma room_matches_spec s ci co rt l :
  room_matches s ci co rt l = true
  ↔ ∃ r, objs s !! l = Some r
       ∧ (type_filter rt = None ∨ type_filter rt = Some (Room.room_type r))
       ∧ room_free s (Room.number r) ci co.
Proof.
  unfold room_matches, room_free. split.
  - destruct (objs s !! l) as [r|]; [|done].
    intros [Ht Hb]%andb_prop. exists r. split; [done |]. split.
    + destruct (type_filter rt) as [t|]; [|by left]. right.
      apply negb_true_iff, bool_decide_eq_false in Ht.
      f_equal. by destruct (decide (Room.room_type r = t)).
    + rewrite <- blocks_conflicting. apply negb_true_iff in Hb. by rewrite Hb.
  - intros (r & -> & Ht & Hfree). apply andb_true_intro. split.
    + destruct Ht as [-> | ->]; [done |].
      apply negb_true_iff, bool_decide_eq_false. intros Hx. by apply Hx.
    + apply negb_true_iff, not_true_is_false. by rewrite blocks_conflicting.
Qed.

Lemma available_rooms_loop_spec s rs ci co rt acc :
  Forall (λ l, is_Some (objs s !! l)) rs →
  Forall (λ b, is_Some (objs s !! Booking.room b)) (dict_values (bookings s)) →
  available_rooms_loop rs ci co rt acc s
    = (Ok (acc ++ filter (λ l, room_matches s ci co rt l = true) rs), s).
Proof.
  intros Hrs Hbks. revert acc.
  induction Hrs as [|l rs [r Hr] _ IH]; intros acc; simpl.
  - by rewrite app_nil_r.
  - assert (Hav : _room_is_available l ci co s
      = (Ok (negb (existsb (blocks s (Room.number r) ci co)
                     (dict_values (bookings s)))), s)).
    { unfold _room_is_available. mred. by apply room_is_available_loop_spec. }
    assert (Hm : room_matches s ci co rt l
      = (match type_filter rt with
         | Some t => negb (bool_decide (Room.room_type r ≠ t))
         | None => true
         end
         && negb (existsb (blocks s (Room.number r) ci co)
                    (dict_values (bookings s)))))
      by (unfold room_matches; by rewrite Hr).
    unfold deref. mred.
    destruct (type_filter rt) as [t|]; simpl; [rewrite Hr; simpl |].
    + destruct (bool_decide (Room.room_type r ≠ t)); simpl.
      * rewrite filter_cons_False by (by rewrite Hm). apply IH.
      * rewrite Hav. simpl in Hm.
        destruct (existsb _ _); simpl.
        -- rewrite filter_cons_False by (by rewrite Hm). apply IH.
        -- rewrite filter_cons_True by done.
           rewrite IH. by rewrite <- app_assoc.
    + rewrite Hav. simpl in Hm. destruct (existsb _ _); simpl.
      * rewrite filter_cons_False by (by rewrite Hm). apply IH.
      * rewrite filter_cons_True by done.
        rewrite IH. by rewrite <- app_assoc.
Qed.

Lemma get_available_rooms_found s ci co rt :
  wf s → ci < co →
  get_available_rooms ci co rt s
    = (Ok (filter (λ l, room_matches s ci co rt l = true) (dict_values (rooms s))), s).
Proof.
  intros [Hrooms Hbks] Hlt. unfold get_available_rooms, Hotel_list_rooms.
  rewrite (proj2 (Z.leb_gt co ci) Hlt). mred.
  rewrite (available_rooms_loop_spec s _ ci co rt []); [done | | done].
  unfold dict_values. apply Forall_fmap. eapply Forall_impl; [exact Hrooms |].
  intros [n l] Hn. simpl in *. unfold names_room in Hn.
  apply (fmap_is_Some Room.number). by eexists.
Qed.

(** X3: [get_available_rooms] raises [InvalidOperationError], leaving the
    state alone, exactly when [check_out <= check_in]; otherwise it returns,
    in the insertion order of the rooms, the rooms that pass the type filter
    ([None] and the empty string filter nothing) and for which no stored
    active booking of the same room number overlaps the interval. *)
Theorem get_available_rooms_spec (s : State) (ci co : date) (rt : option string) :
  wf s →
  (co ≤ ci → get_available_rooms ci co rt s = (Raise InvalidOperationError, s))
  ∧ (ci < co →
     ∃ ls, get_available_rooms ci co rt s = (Ok ls, s)
       ∧ ls = filter (λ l, room_matches s ci co rt l = true) (dict_values (rooms s))
       ∧ ∀ l, l ∈ ls
           ↔ l ∈ dict_values (rooms s)
             ∧ ∃ r, objs s !! l = Some r
                  ∧ (type_filter rt = None ∨ type_filter rt = Some (Room.room_type r))
                  ∧ ¬ ∃ b, b ∈ dict_values (bookings s)
                         ∧ names_room s (Booking.room b) (Room.number r)
                         ∧ active b ∧ overlaps ci co b).
Proof.
  intros Hwf. split.
  - intros Hle. unfold get_available_rooms.
    by rewrite (proj2 (Z.leb_le co ci) Hle).
  - intros Hlt. eexists. split; [by apply get_available_rooms_found |].
    split; [done |]. intros l.
    rewrite list_elem_of_filter, room_matches_spec. unfold room_free, conflicting.
    split; intros [? ?]; by split.
Qed.

Lemma get_available_rooms_spec_witness :
  get_available_rooms (date_of_ymd 2024 1 3) (date_of_ymd 2024 1 5) (Some "single")
    (hotel_with false [("b1", booking_jan BOOKED)])
  = (Ok [0%nat], hotel_with false [("b1", booking_jan BOOKED)]).
Proof.
  assert (Hwf : wf (hotel_with false [("b1", booking_jan BOOKED)])) by solve_wf.
  destruct (get_available_rooms_spec (hotel_with false [("b1", booking_jan BOOKED)])
    (date_of_ymd 2024 1 3) (date_of_ymd 2024 1 5) (Some "single") Hwf)
    as [_ Hok].
  destruct Hok as (ls & Hls & -> & _); [reflexivity |]. exact Hls.
Defined.

Lemma dict_set_set {K V} `{EqDecision K} (k : K) (v v' : V) (d : dict K V) :
  dict_set k v' (dict_set k v d) = dict_set k v' d.
Proof.
  induction d as [|[k0 v0] d IH]; simpl.
  - by rewrite decide_True.
  - destruct (decide (k = k0)) as [->|Hne]; simpl.
    + by rewrite decide_True.
    + rewrite decide_False by done. by rewrite IH.
Qed.

(** X4: [get_available_rooms] and [create_booking] agree. For an existing
    guest, a room filed under number [n], dates with [ci < co] and a
    non-empty drawn identifier, the room is listed by
    [get_available_rooms ci co] (no type filter) exactly when
    [create_booking] on [n] for the same dates succeeds. *)
Theorem available_iff_bookable (s : State) (u gid : string) (n : Z) (l : ref)
    (ci co : date) :
  wf s → ci < co → u ≠ EmptyString →
  is_Some (dict_get gid (guests s)) →
  dict_get n (rooms s) = Some l →
  ∃ ls, get_available_rooms ci co None s = (Ok ls, s)
      ∧ (l ∈ ls ↔ ∃ bk, outcome (create_booking u gid n ci co) s = Ok bk).
Proof.
  intros Hwf Hlt Hu [g Hg] Hl. eexists.
  split; [by apply get_available_rooms_found |].
  unfold outcome. rewrite (create_booking_found s u gid n ci co g l Hwf Hg Hl).
  rewrite (str_is_empty_false _ Hu), (proj2 (Z.leb_gt co ci) Hlt).
  rewrite list_elem_of_filter.
  assert (Hn : names_room s l n).
  { destruct Hwf as [Hrooms _]. apply (Forall_dict_get _ _ _ _ Hrooms Hl). }
  unfold names_room in Hn. unfold room_matches.
  destruct (objs s !! l) as [r|]; [|done]. simpl in Hn. injection Hn as ->.
  simpl. destruct (existsb _ _); simpl.
  - split; [intros [Hx _] | intros [bk Hx]]; discriminate Hx.
  - split; [by eexists |]. intros _. split; [done |].
    apply list_elem_of_fmap. exists (n, l).
    split; [done | by apply dict_get_elem].
Qed.

Lemma available_iff_bookable_witness :
  ∃ ls, get_available_rooms (date_of_ymd 2024 1 3) (date_of_ymd 2024 1 5) None
          (hotel_with false [("b1", booking_jan BOOKED)])
        = (Ok ls, hotel_with false [("b1", booking_jan BOOKED)])
      ∧ (0%nat ∈ ls
         ↔ ∃ bk, outcome (create_booking "b2" "g1" 101
                            (date_of_ymd 2024 1 3) (date_of_ymd 2024 1 5))
                   (hotel_with false [("b1", booking_jan BOOKED)]) = Ok bk).
Proof.
  assert (Hwf : wf (hotel_with false [("b1", booking_jan BOOKED)])) by solve_wf.
  apply (available_iff_bookable _ "b2" "g1" 101 0%nat _ _ Hwf);
    first [reflexivity | discriminate | by eexists].
Defined.

(** X5: in the state a successful [create_booking] for room [n] and
    [[ci, co)] returns, before any further call, a [create_booking] on [n]
    by an existing guest for dates that pass the overlap test against
    [[ci, co)] raises [BookingConflictError] and writes nothing, and
    [get_available_rooms] for such dates does not list the room, whatever
    the type filter. *)
Theorem overlapping_booking_refused (s s' : State) (u gid : string) (n : Z)
    (ci co : date) (bk : Booking.t) :
  wf s →
  create_booking u gid n ci co s = (Ok bk, s') →
  ∀ u' gid' ci' co' rt,
    is_Some (dict_get gid' (guests s')) →
    ci' < co → ci < co' →
    create_booking u' gid' n ci' co' s' = (Raise BookingConflictError, s')
    ∧ (ci' < co' →
       ∃ ls, get_available_rooms ci' co' rt s' = (Ok ls, s')
           ∧ Booking.room bk ∉ ls).
Proof.
  intros Hwf Hok u' gid' ci' co' rt [g' Hg'] Hov1 Hov2.
  destruct (create_booking_Ok_inv _ _ _ _ _ _ _ _ Hwf Hok)
    as (g & l & Hg & Hl & Hfree & Hu & Hlt & Hbk & Hs').
  assert (Hwf' : wf s').
  { apply (effect_wf true s); [|done]. rewrite Hs'.
    apply (effect_booking _ s u bk n); by rewrite Hbk. }
  assert (Hl' : dict_get n (rooms s') = Some l) by (by rewrite Hs').
  assert (Hn : names_room s l n).
  { destruct Hwf as [Hrooms _]. apply (Forall_dict_get _ _ _ _ Hrooms Hl). }
  assert (Hblk : existsb (blocks s' n ci' co') (dict_values (bookings s')) = true).
  { apply blocks_conflicting. exists bk. split_and!.
    - apply (dict_get_values u). rewrite Hs'. unfold bookings. simpl.
      apply dict_get_set_eq.
    - rewrite Hs', Hbk. exact Hn.
    - rewrite Hbk. by split.
    - rewrite Hbk. by split. }
  split.
  - rewrite (create_booking_found s' u' gid' n ci' co' g' l Hwf' Hg' Hl').
    by rewrite Hblk.
  - intros Hlt'. eexists. split; [by apply get_available_rooms_found |].
    rewrite list_elem_of_filter. intros [Hm _]. rewrite Hbk in Hm. simpl in Hm.
    unfold room_matches in Hm.
    assert (Hn' : names_room s' l n) by (by rewrite Hs').
    unfold names_room in Hn'.
    destruct (objs s' !! l) as [r|]; [|done]. simpl in Hn'. injection Hn' as Hn'.
    rewrite Hn', Hblk in Hm. by rewrite andb_false_r in Hm.
Qed.

Lemma overlapping_booking_refused_witness :
  create_booking "b2" "g1" 101 (date_of_ymd 2024 1 2) (date_of_ymd 2024 1 4)
    (hotel_with false [("b1", booking_jan BOOKED)])
  = (Raise BookingConflictError, hotel_with false [("b1", booking_jan BOOKED)]).
Proof.
  assert (Hwf : wf (hotel_with false [])) by solve_wf.
  apply (overlapping_booking_refused (hotel_with false [])
           (hotel_with false [("b1", booking_jan BOOKED)])
           "b1" "g1" 101 (date_of_ymd 2024 1 1) (date_of_ymd 2024 1 3)
           (booking_jan BOOKED) Hwf eq_refl "b2" "g1" _ _ None);
    first [reflexivity | by eexists].
Defined.

(** X6: a cancelled booking no longer holds its room. When
    [create_booking] has succeeded and the new booking is then cancelled,
    [cancel_booking] returns normally and a further [create_booking] on the
    same room for the same dates succeeds. *)
Theorem cancel_frees_the_room (s s1 : State) (u gid : string) (n : Z)
    (ci co : date) (bk : Booking.t) :
  wf s →
  create_booking u gid n ci co s = (Ok bk, s1) →
  ∃ s2, cancel_booking u s1 = (Ok tt, s2)
      ∧ dict_get u (bookings s2) = Some (Booking.set_status CANCELLED bk)
      ∧ ∀ u', u' ≠ EmptyString →
          ∃ bk', outcome (create_booking u' gid n ci co) s2 = Ok bk'.
Proof.
  intros Hwf Hok.
  destruct (create_booking_Ok_inv _ _ _ _ _ _ _ _ Hwf Hok)
    as (g & l & Hg & Hl & Hfree & Hu & Hlt & Hbk & Hs1).
  assert (Hget : dict_get u (bookings s1) = Some bk).
  { rewrite Hs1. unfold bookings. simpl. apply dict_get_set_eq. }
  exists (set_bookings (dict_set u (Booking.set_status CANCELLED bk)) s).
  split; [|split].
  - rewrite (cancel_booking_stored _ _ _ Hget). rewrite Hbk. simpl.
    rewrite <- Hbk, Hs1. unfold set_bookings. simpl. by rewrite dict_set_set.
  - unfold bookings. simpl. apply dict_get_set_eq.
  - intros u' Hu'.
    set (s2 := set_bookings (dict_set u (Booking.set_status CANCELLED bk)) s).
    assert (Hwf2 : wf s2).
    { destruct Hwf as [Hrooms Hbks]. split; [exact Hrooms |].
      unfold s2, bookings. simpl. apply Forall_dict_values_set; [|done].
      rewrite Hbk. simpl.
      pose proof (Forall_dict_get _ _ _ _ Hrooms Hl) as Hn. unfold names_room in Hn.
      apply (fmap_is_Some Room.number). by eexists. }
    unfold outcome.
    rewrite (create_booking_found s2 u' gid n ci co g l Hwf2 Hg Hl).
    assert (existsb (blocks s2 n ci co) (dict_values (bookings s2)) = false) as ->.
    { apply not_true_is_false. rewrite blocks_conflicting.
      intros (b & Hin & Hnum & Hact & Hov).
      unfold s2, bookings in Hin. simpl in Hin.
      apply dict_values_set in Hin as [-> | Hin].
      - destruct Hact as [Hc _]. by apply Hc.
      - assert (existsb (blocks s n ci co) (dict_values (bookings s)) = true)
          as Hex by (apply blocks_conflicting; by exists b).
        congruence. }
    rewrite (str_is_empty_false _ Hu'), (proj2 (Z.leb_gt co ci) Hlt). by eexists.
Qed.

Lemma cancel_frees_the_room_witness :
  ∃ s2, cancel_booking "b1" (hotel_with false [("b1", booking_jan BOOKED)]) = (Ok tt, s2)
      ∧ ∃ bk', outcome (create_booking "b2" "g1" 101
                          (date_of_ymd 2024 1 1) (date_of_ymd 2024 1 3)) s2 = Ok bk'.
Proof.
  assert (Hwf : wf (hotel_with false [])) by solve_wf.
  destruct (cancel_frees_the_room (hotel_with false [])
              (hotel_with false [("b1", booking_jan BOOKED)])
              "b1" "g1" 101 (date_of_ymd 2024 1 1) (date_of_ymd 2024 1 3)
              (booking_jan BOOKED) Hwf eq_refl) as (s2 & Hc & _ & Hcr).
  exists s2. split; [exact Hc |]. apply Hcr. discriminate.
Defined.

(** ** Errors of creation, of room addition and of check-out *)

(** X7: [create_booking] looks the guest up first, then the room: with an
    unknown guest id, or a known guest and an unknown room number, it
    raises [EntityNotFoundError] and leaves the state as it was, whatever
    the dates and whatever bookings exist. *)
Theorem create_booking_not_found (s : State) (u gid : string) (n : Z)
    (ci co : date) :
  (dict_get gid (guests s) = None →
   create_booking u gid n ci co s = (Raise EntityNotFoundError, s))
  ∧ (is_Some (dict_get gid (guests s)) → dict_get n (rooms s) = None →
     create_booking u gid n ci co s = (Raise EntityNotFoundError, s)).
Proof.
  split; [apply create_booking_no_guest | apply create_booking_no_room].
Qed.

Lemma create_booking_not_found_witness :
  create_booking "b2" "nobody" 101 (date_of_ymd 2024 1 3) (date_of_ymd 2024 1 5)
    (hotel_with false [("b1", booking_jan BOOKED)])
  = (Raise EntityNotFoundError, hotel_with false [("b1", booking_jan BOOKED)])
  ∧ create_booking "b2" "g1" 999 (date_of_ymd 2024 1 3) (date_of_ymd 2024 1 5)
      (hotel_with false [("b1", booking_jan BOOKED)])
    = (Raise EntityNotFoundError, hotel_with false [("b1", booking_jan BOOKED)]).
Proof.
  split.
  - apply (proj1 (create_booking_not_found _ _ _ _ _ _)). reflexivity.
  - apply (proj2 (create_booking_not_found _ _ _ _ _ _)); [by eexists | reflexivity].
Defined.

(** X8: [add_room] with a number that is not positive, a price that is
    [<= 0], or an empty type raises [InvalidOperationError] and stores
    nothing, whether or not the number is already present. *)
Theorem add_room_invalid (s : State) (number : Z) (room_type : string)
    (price : float) :
  number ≤ 0 ∨ PrimFloat.leb price 0%float = true ∨ room_type = EmptyString →
  add_room number room_type price s = (Raise InvalidOperationError, s).
Proof.
  intros Hbad. unfold add_room, Hotel_add_room, Room_init. mred.
  destruct (dict_mem number (rooms s)); [done |].
  destruct (Z.leb_spec number 0); [done |].
  destruct (PrimFloat.leb price 0%float); [done |].
  destruct Hbad as [?|[?|Ht]]; [lia | done | by rewrite Ht].
Qed.

Lemma add_room_invalid_witness :
  add_room 102 "double" 0%float (hotel_with false [])
  = (Raise InvalidOperationError, hotel_with false []).
Proof.
  apply add_room_invalid. right. left. reflexivity.
Defined.

(** X9: [check_out] on an absent id raises [EntityNotFoundError]; on a
    stored booking whose status is not [checked_in], or at a date other
    than the booking's check-out date, it raises [InvalidOperationError];
    in all three cases the state is unchanged. *)
Theorem check_out_errors (s : State) (id : string) (d : date) :
  (dict_get id (bookings s) = None →
   check_out id d s = (Raise EntityNotFoundError, s))
  ∧ (∀ b, dict_get id (bookings s) = Some b →
       Booking.status b ≠ CHECKED_IN ∨ d ≠ Booking.check_out b →
       check_out id d s = (Raise InvalidOperationError, s)).
Proof.
  split.
  - intros Hb. unfold check_out. mred. by rewrite (get_booking_None _ _ Hb).
  - intros b Hb Hbad. rewrite (check_out_stored _ _ _ _ Hb).
    repeat case_bool_decide; try done. by destruct Hbad.
Qed.

Lemma check_out_errors_witness :
  check_out "b1" (date_of_ymd 2024 1 3) (hotel_with false [("b1", booking_jan BOOKED)])
  = (Raise InvalidOperationError, hotel_with false [("b1", booking_jan BOOKED)])
  ∧ check_out "zz" (date_of_ymd 2024 1 3) (hotel_with false [("b1", booking_jan BOOKED)])
    = (Raise EntityNotFoundError, hotel_with false [("b1", booking_jan BOOKED)]).
Proof.
  split.
  - apply (proj2 (check_out_errors _ _ _) (booking_jan BOOKED)); [reflexivity |].
    left. discriminate.
  - apply (proj1 (check_out_errors _ _ _)). reflexivity.
Defined.

(** ** A stay: check-in followed by check-out *)

(** X10: for a [booked] booking whose room is unoccupied, [check_in] on the
    check-in date followed by [check_out] on the check-out date returns
    nights times nightly price and leaves the state exactly as it was but
    for that booking's status, now [checked_out]: every room object,
    the occupancy flag included, is as before the stay. *)
Theorem stay_restores_rooms (s : State) (id : string) (b : Booking.t) (r : Room.t) :
  dict_get id (bookings s) = Some b →
  Booking.status b = BOOKED →
  objs s !! Booking.room b = Some r →
  Room.is_occupied r = false →
  (check_in id (Booking.check_in b);; check_out id (Booking.check_out b)) s
  = (Ok (PrimFloat.mul (float_of_int (Booking.check_out b - Booking.check_in b))
           (Room.price_per_night r)),
     set_bookings (dict_set id (Booking.set_status CHECKED_OUT b)) s).
Proof.
  intros Hb Hst Hr Hocc. unfold mbind, M_bind.
  rewrite (check_in_stored _ _ _ _ Hb), Hst, Hr, Hocc.
  rewrite !bool_decide_eq_false_2 by (intros Hx; by apply Hx).
  set (s1 := set_objs _ _).
  assert (Hb1 : dict_get id (bookings s1) = Some (Booking.set_status CHECKED_IN b)).
  { unfold s1, bookings. simpl. apply dict_get_set_eq. }
  rewrite (check_out_stored _ _ _ _ Hb1). simpl.
  rewrite !bool_decide_eq_false_2 by (intros Hx; by apply Hx).
  rewrite list_lookup_insert_eq by (by eapply lookup_lt_Some). simpl.
  f_equal. unfold set_objs, set_bookings. simpl.
  rewrite list_insert_insert_eq, dict_set_set. f_equal.
  apply list_insert_id. etransitivity; [exact Hr |]. f_equal.
  destruct r as [n t p o]. simpl in *. by rewrite Hocc.
Qed.

Lemma stay_restores_rooms_witness :
  (check_in "b1" (date_of_ymd 2024 1 1);; check_out "b1" (date_of_ymd 2024 1 3))
    (hotel_with false [("b1", booking_jan BOOKED)])
  = (Ok 200%float, hotel_with false [("b1", booking_jan CHECKED_OUT)]).
Proof.
  exact (stay_restores_rooms (hotel_with false [("b1", booking_jan BOOKED)]) "b1"
           (booking_jan BOOKED) (room101 false) eq_refl eq_refl eq_refl eq_refl).
Defined.

(** ** Bookings are kept, and only their status moves *)

Lemma create_booking_after s u gid n ci co :
  after (create_booking u gid n ci co) s = s
  ∨ ∃ bk, after (create_booking u gid n ci co) s = set_bookings (dict_set u bk) s.
Proof.
  unfold after, create_booking, get_guest, Hotel_get_room, Booking_init. mred.
  destruct (dict_get gid (guests s)); [|by left].
  destruct (dict_get n (rooms s)) as [l|]; [|by left].
  destruct (room_is_available_state l ci co s) as [x ->].
  destruct x as [[|]|]; simpl; try (by left).
  destruct (str_is_empty u); [by left |].
  destruct (co <=? ci); simpl; [by left |]. right. by eexists.
Qed.

(** What each call does to the bookings dictionary. *)
Lemma run_op_bookings o s :
  match o with
  | CreateBooking u _ _ _ _ =>
      bookings (after (run_op o) s) = bookings s
      ∨ ∃ bk, bookings (after (run_op o) s) = dict_set u bk (bookings s)
  | CancelBooking id | CheckIn id _ | CheckOut id _ =>
      bookings (after (run_op o) s) = bookings s
      ∨ ∃ b st, dict_get id (bookings s) = Some b
              ∧ status_step (Booking.status b) st
              ∧ bookings (after (run_op o) s)
                = dict_set id (Booking.set_status st b) (bookings s)
  | _ => bookings (after (run_op o) s) = bookings s
  end.
Proof.
  destruct o as [n t p|n|u nm c|u g n ci co|id|id d|id d].
  - unfold after, run_op, add_room, Hotel_add_room, Room_init, alloc. mred.
    repeat case_match; by simplify_eq/=.
  - unfold after, run_op, Hotel_remove_room, deref. mred.
    repeat case_match; by simplify_eq/=.
  - unfold after, run_op, register_guest, Guest_init. mred.
    repeat case_match; by simplify_eq/=.
  - assert (after (run_op (CreateBooking u g n ci co)) s
            = after (create_booking u g n ci co) s) as ->.
    { unfold after, run_op. mred. by destruct (create_booking u g n ci co s) as [[?|?] ?]. }
    destruct (create_booking_after s u g n ci co) as [-> | [bk ->]];
      [by left | right; by exists bk].
  - assert (after (run_op (CancelBooking id)) s = after (cancel_booking id) s) as ->.
    { unfold after, run_op. mred. by destruct (cancel_booking id s) as [[?|?] ?]. }
    unfold after. destruct (dict_get id (bookings s)) as [b|] eqn:Hb.
    + rewrite (cancel_booking_stored _ _ _ Hb).
      repeat case_bool_decide; simpl; try (by left).
      right. exists b, CANCELLED. split_and!; try done.
      right. right. right. done.
    + rewrite (cancel_booking_absent _ _ Hb). by left.
  - assert (after (run_op (CheckIn id d)) s = after (check_in id d) s) as ->.
    { unfold after, run_op. mred. by destruct (check_in id d s) as [[?|?] ?]. }
    unfold after. destruct (dict_get id (bookings s)) as [b|] eqn:Hb.
    + rewrite (check_in_stored _ _ _ _ Hb).
      case_bool_decide as Hst; simpl; [by left |].
      repeat case_match; simpl; try (by left).
      right. exists b, CHECKED_IN. split_and!; try done.
      right. left. split; [|done]. by destruct (decide (Booking.status b = BOOKED)).
    + unfold check_in. mred. rewrite (get_booking_None _ _ Hb). by left.
  - assert (after (run_op (CheckOut id d)) s = after (check_out id d) s) as ->.
    { unfold after, run_op. mred. by destruct (check_out id d s) as [[?|?] ?]. }
    unfold after. destruct (dict_get id (bookings s)) as [b|] eqn:Hb.
    + rewrite (check_out_stored _ _ _ _ Hb).
      case_bool_decide as Hst; simpl; [by left |].
      assert (status_step (Booking.status b) CHECKED_OUT).
      { right. right. left. split; [|done].
        by destruct (decide (Booking.status b = CHECKED_IN)). }
      repeat case_match; simpl; try (by left); right; by exists b, CHECKED_OUT.
    + unfold check_out. mred. rewrite (get_booking_None _ _ Hb). by left.
Qed.

(** X11: no call deletes a booking, and apart from a [create_booking] that
    draws an identifier already in use, the booking stored under an id keeps
    its id, guest, room and dates for ever; its status either stays or moves
    along booked -> checked_in, checked_in -> checked_out, or from a status
    other than cancelled and checked_out to cancelled. In particular
    cancelled and checked_out are terminal. *)
Theorem bookings_persist (o : op) (s : State) (id : string) (b : Booking.t) :
  dict_get id (bookings s) = Some b →
  is_Some (dict_get id (bookings (after (run_op o) s)))
  ∧ (¬ creates o id →
     ∃ b', dict_get id (bookings (after (run_op o) s)) = Some b'
         ∧ Booking.booking_id b' = Booking.booking_id b
         ∧ Booking.guest b' = Booking.guest b
         ∧ Booking.room b' = Booking.room b
         ∧ Booking.check_in b' = Booking.check_in b
         ∧ Booking.check_out b' = Booking.check_out b
         ∧ status_step (Booking.status b) (Booking.status b')
         ∧ (Booking.status b = CANCELLED ∨ Booking.status b = CHECKED_OUT →
            b' = b)).
Proof.
  intros Hb.
  assert (Hsame : bookings (after (run_op o) s) = bookings s →
    is_Some (dict_get id (bookings (after (run_op o) s)))
    ∧ ∃ b', dict_get id (bookings (after (run_op o) s)) = Some b'
         ∧ Booking.booking_id b' = Booking.booking_id b
         ∧ Booking.guest b' = Booking.guest b
         ∧ Booking.room b' = Booking.room b
         ∧ Booking.check_in b' = Booking.check_in b
         ∧ Booking.check_out b' = Booking.check_out b
         ∧ status_step (Booking.status b) (Booking.status b')
         ∧ (Booking.status b = CANCELLED ∨ Booking.status b = CHECKED_OUT →
            b' = b)).
  { intros ->. split; [by eexists |]. exists b. split_and!; try done. by left. }
  assert (Hstatus : ∀ id0, (bookings (after (run_op o) s) = bookings s
      ∨ ∃ b0 st, dict_get id0 (bookings s) = Some b0
              ∧ status_step (Booking.status b0) st
              ∧ bookings (after (run_op o) s)
                = dict_set id0 (Booking.set_status st b0) (bookings s)) →
    is_Some (dict_get id (bookings (after (run_op o) s)))
    ∧ ∃ b', dict_get id (bookings (after (run_op o) s)) = Some b'
         ∧ Booking.booking_id b' = Booking.booking_id b
         ∧ Booking.guest b' = Booking.guest b
         ∧ Booking.room b' = Booking.room b
         ∧ Booking.check_in b' = Booking.check_in b
         ∧ Booking.check_out b' = Booking.check_out b
         ∧ status_step (Booking.status b) (Booking.status b')
         ∧ (Booking.status b = CANCELLED ∨ Booking.status b = CHECKED_OUT →
            b' = b)).
  { intros id0 [Heq | (b0 & st & Hb0 & Hstep & Heq)]; [by apply Hsame |].
    rewrite Heq. destruct (decide (id0 = id)) as [->|Hne].
    - rewrite dict_get_set_eq. split; [by eexists |].
      assert (b0 = b) as -> by congruence.
      eexists. split_and!; try done. simpl.
      intros Hterm. destruct b as [bi bg br bci bco bst]. simpl in *. f_equal.
      destruct Hstep as [->|[[-> ->]|[[-> ->]|(H1 & H2 & ->)]]]; try done;
        destruct Hterm as [Ht|Ht]; try done; by inversion Ht.
    - rewrite dict_get_set_ne by done. split; [by eexists |].
      exists b. split_and!; try done. by left. }
  pose proof (run_op_bookings o s) as Hop.
  destruct o as [n t p|n|u nm c|u g n ci co|id0|id0 d|id0 d];
    try (destruct (Hsame Hop) as [H1 H2]; by split);
    try (destruct (Hstatus id0 Hop) as [H1 H2]; by split).
  destruct Hop as [Heq | [bk Heq]]; [destruct (Hsame Heq) as [H1 H2]; by split |].
  rewrite Heq. split.
  - destruct (decide (u = id)) as [->|Hne].
    + rewrite dict_get_set_eq. by eexists.
    + rewrite dict_get_set_ne by done. by eexists.
  - simpl. intros Hne. rewrite dict_get_set_ne by done.
    exists b. split_and!; try done. by left.
Qed.

Lemma bookings_persist_witness :
  is_Some (dict_get "b1" (bookings (after (run_op (CancelBooking "b1"))
                                      (hotel_with false [("b1", booking_jan BOOKED)])))).
Proof.
  exact (proj1 (bookings_persist (CancelBooking "b1")
    (hotel_with false [("b1", booking_jan BOOKED)]) "b1" (booking_jan BOOKED) eq_refl)).
Defined.

(** ** Guests *)

(** X12: [register_guest] with a non-empty name and contact (and drawn
    identifier) succeeds, the guest is then returned by [get_guest] under
    the drawn id, every other guest id resolves as before and rooms,
    bookings and room objects are untouched; with an empty name or contact
    it raises [InvalidOperationError] and registers nothing. [get_guest] on
    an id that is not registered raises [EntityNotFoundError]. *)
Theorem register_guest_spec (s : State) (u name contact : string) :
  (u ≠ EmptyString → name ≠ EmptyString → contact ≠ EmptyString →
   ∃ s', register_guest u name contact s = (Ok (Guest.mk u name contact), s')
       ∧ get_guest u s' = (Ok (Guest.mk u name contact), s')
       ∧ (∀ gid, gid ≠ u → dict_get gid (guests s') = dict_get gid (guests s))
       ∧ rooms s' = rooms s ∧ bookings s' = bookings s ∧ objs s' = objs s)
  ∧ (name = EmptyString ∨ contact = EmptyString →
     register_guest u name contact s = (Raise InvalidOperationError, s))
  ∧ (∀ gid, dict_get gid (guests s) = None →
     get_guest gid s = (Raise EntityNotFoundError, s)).
Proof.
  split; [|split].
  - intros Hu Hn Hc. eexists. unfold register_guest, Guest_init, get_guest. mred.
    rewrite !str_is_empty_false by done. simpl. split; [done |].
    unfold guests. simpl. rewrite dict_get_set_eq. split; [done |].
    split; [|done]. intros gid Hne. by apply dict_get_set_ne.
  - intros Hbad. unfold register_guest, Guest_init. mred.
    destruct (str_is_empty u); [done |].
    destruct Hbad as [Hx|Hx]; rewrite Hx; simpl; [done |].
    by destruct (str_is_empty name).
  - intros gid Hg. unfold get_guest. mred. by rewrite Hg.
Qed.

Lemma register_guest_spec_witness :
  ∃ s', register_guest "g2" "Jane" "jane@example.com" (hotel_with false [])
        = (Ok (Guest.mk "g2" "Jane" "jane@example.com"), s')
      ∧ get_guest "g2" s' = (Ok (Guest.mk "g2" "Jane" "jane@example.com"), s').
Proof.
  destruct (proj1 (register_guest_spec (hotel_with false [])
    "g2" "Jane" "jane@example.com")) as (s' & Hreg & Hget & _);
    [discriminate.. |].
  exists s'. split; [exact Hreg | exact Hget].
Defined.

(** X13: [get_guest_bookings] raises [EntityNotFoundError] for an
    unregistered guest id. For a registered one it returns, without writing,
    bookings whose guest all carry that id; and right after a successful
    [create_booking] for a guest filed under its own id, the new booking is
    among them. *)
Theorem guest_bookings_spec (s : State) (gid : string) :
  (dict_get gid (guests s) = None →
   get_guest_bookings gid s = (Raise EntityNotFoundError, s))
  ∧ (is_Some (dict_get gid (guests s)) →
     ∃ bs, get_guest_bookings gid s = (Ok bs, s)
         ∧ ∀ b, b ∈ bs ↔ b ∈ dict_values (bookings s)
                          ∧ Guest.guest_id (Booking.guest b) = gid)
  ∧ (∀ u n ci co bk s' g,
       wf s →
       dict_get gid (guests s) = Some g → Guest.guest_id g = gid →
       create_booking u gid n ci co s = (Ok bk, s') →
       ∃ bs, get_guest_bookings gid s' = (Ok bs, s') ∧ bk ∈ bs).
Proof.
  split; [|split].
  - intros Hg. unfold get_guest_bookings, get_guest. mred. by rewrite Hg.
  - intros [g Hg]. eexists. unfold get_guest_bookings, get_guest. mred.
    rewrite Hg. split; [done |]. intros b. rewrite list_elem_of_filter.
    split; intros [? ?]; by split.
  - intros u n ci co bk s' g Hwf Hg Hid Hok.
    destruct (create_booking_Ok_inv _ _ _ _ _ _ _ _ Hwf Hok)
      as (g0 & l & Hg0 & Hl & _ & Hu & Hlt & Hbk & Hs').
    assert (g0 = g) as -> by congruence.
    eexists. unfold get_guest_bookings, get_guest. mred.
    assert (dict_get gid (guests s') = Some g) as -> by (by rewrite Hs').
    split; [done |]. apply list_elem_of_filter. split.
    + by rewrite Hbk.
    + apply (dict_get_values u). rewrite Hs'. unfold bookings. simpl.
      apply dict_get_set_eq.
Qed.

Lemma guest_bookings_spec_witness :
  ∃ bs, get_guest_bookings "g1" (hotel_with false [("b1", booking_jan BOOKED)])
        = (Ok bs, hotel_with false [("b1", booking_jan BOOKED)])
      ∧ booking_jan BOOKED ∈ bs.
Proof.
  assert (Hwf : wf (hotel_with false [])) by solve_wf.
  destruct (guest_bookings_spec (hotel_with false []) "g1") as (_ & _ & Hnew).
  apply (Hnew "b1" 101 (date_of_ymd 2024 1 1) (date_of_ymd 2024 1 3)
           (booking_jan BOOKED) (hotel_with false [("b1", booking_jan BOOKED)])
           john Hwf); reflexivity.
Defined.

(** ** Active bookings *)

(** X14: [get_active_bookings] returns, without writing, the stored
    bookings whose status is [booked] or [checked_in]. In a state the engine
    reaches every stored booking is either returned by it or is cancelled or
    checked out, so the bookings that can raise a [BookingConflictError] are
    exactly among those it returns. *)
Theorem active_bookings_spec (s : State) :
  (∃ bs, get_active_bookings s = (Ok bs, s)
       ∧ (∀ b, b ∈ bs ↔ b ∈ dict_values (bookings s)
                        ∧ (Booking.status b = BOOKED ∨ Booking.status b = CHECKED_IN))
       ∧ (reachable s →
          (∀ b, b ∈ dict_values (bookings s) →
             b ∈ bs ∨ Booking.status b = CANCELLED ∨ Booking.status b = CHECKED_OUT)
          ∧ (∀ n ci co b, conflicting s n ci co b → b ∈ bs))).
Proof.
  eexists. split; [reflexivity |].
  assert (Hmem : ∀ b, b ∈ filter (λ b, Booking.status b ∈ [BOOKED; CHECKED_IN])
                        (dict_values (bookings s))
      ↔ b ∈ dict_values (bookings s)
        ∧ (Booking.status b = BOOKED ∨ Booking.status b = CHECKED_IN)).
  { intros b. rewrite list_elem_of_filter, !elem_of_cons, elem_of_nil.
    split; [intros [[?|[?|[]]] ?] | intros [? [?|?]]]; auto. }
  split; [exact Hmem |]. intros Hreach.
  assert (Hvalid : ∀ b, b ∈ dict_values (bookings s) →
    is_valid (Booking.status b) = true).
  { intros b ([k b0] & -> & Hin)%list_elem_of_fmap.
    destruct (reachable_entities_valid s Hreach) as (_ & _ & Hbk & _).
    rewrite Forall_forall in Hbk. by destruct (Hbk _ Hin) as ((_ & _ & ?) & _). }
  assert (Hcases : ∀ b, b ∈ dict_values (bookings s) →
    (Booking.status b = BOOKED ∨ Booking.status b = CHECKED_IN)
    ∨ Booking.status b = CANCELLED ∨ Booking.status b = CHECKED_OUT).
  { intros b Hin. specialize (Hvalid b Hin). unfold is_valid in Hvalid.
    apply bool_decide_eq_true in Hvalid.
    rewrite !elem_of_cons, elem_of_nil in Hvalid.
    destruct Hvalid as [?|[?|[?|[?|[]]]]]; auto. }
  split.
  - intros b Hin. destruct (Hcases b Hin) as [Hact | Hterm]; [left | by right].
    apply Hmem. by split.
  - intros n ci co b (Hin & _ & [Hc Ho] & _). apply Hmem. split; [done |].
    destruct (Hcases b Hin) as [Hact | [?|?]]; done.
Qed.

Lemma active_bookings_spec_witness :
  ∃ bs, get_active_bookings (hotel_with false [("b1", booking_jan BOOKED)])
        = (Ok bs, hotel_with false [("b1", booking_jan BOOKED)])
      ∧ (booking_jan BOOKED ∈ bs
         ∨ Booking.status (booking_jan BOOKED) = CANCELLED
         ∨ Booking.status (booking_jan BOOKED) = CHECKED_OUT).
Proof.
  destruct (active_bookings_spec (hotel_with false [("b1", booking_jan BOOKED)]))
    as (bs & Hget & _ & Hreach).
  exists bs. split; [exact Hget |].
  apply (proj1 (Hreach sample_reachable)). apply list_elem_of_here.
Defined.

(** ** The occupancy report *)

Lemma count_rooms_loop_spec s ls want acc :
  Forall (λ l, is_Some (objs s !! l)) ls →
  count_rooms_loop ls want acc s
  = (Ok (acc + Z.of_nat (length
       (filter (λ l, Room.is_occupied <$> objs s !! l = Some want) ls))), s).
Proof.
  intros Hls. revert acc. induction Hls as [|l ls [r Hr] _ IH]; intros acc; simpl.
  - unfold mret, M_ret. by rewrite Z.add_0_r.
  - unfold deref. mred. rewrite Hr.
    destruct want, (Room.is_occupied r) eqn:Hocc; simpl.
    + rewrite filter_cons_True by (by rewrite Hr; simpl; rewrite Hocc).
      rewrite IH. simpl. do 2 f_equal. lia.
    + rewrite filter_cons_False by (rewrite Hr; simpl; rewrite Hocc; done).
      apply IH.
    + rewrite filter_cons_False by (rewrite Hr; simpl; rewrite Hocc; done).
      apply IH.
    + rewrite filter_cons_True by (by rewrite Hr; simpl; rewrite Hocc).
      rewrite IH. simpl. do 2 f_equal. lia.
Qed.

Lemma flags_partition (σ : list Room.t) (ls : list ref) :
  Forall (λ l, is_Some (σ !! l)) ls →
  (length (filter (λ l, Room.is_occupied <$> σ !! l = Some true) ls)
   + length (filter (λ l, Room.is_occupied <$> σ !! l = Some false) ls)
   = length ls)%nat.
Proof.
  induction 1 as [|l ls [r Hr] _ IH]; [done |].
  destruct (Room.is_occupied r) eqn:Hocc.
  - rewrite filter_cons_True by (by rewrite Hr; simpl; rewrite Hocc).
    rewrite filter_cons_False by (rewrite Hr; simpl; rewrite Hocc; done).
    simpl. lia.
  - rewrite filter_cons_False by (rewrite Hr; simpl; rewrite Hocc; done).
    rewrite filter_cons_True by (by rewrite Hr; simpl; rewrite Hocc).
    simpl. lia.
Qed.

Lemma wf_rooms_values s :
  wf s → Forall (λ l, is_Some (objs s !! l)) (dict_values (rooms s)).
Proof.
  intros [Hrooms _]. unfold dict_values. apply Forall_fmap.
  eapply Forall_impl; [exact Hrooms |]. intros [n l] Hn. simpl in *.
  unfold names_room in Hn. apply (fmap_is_Some Room.number). by eexists.
Qed.

Lemma get_occupancy_report_found s :
  wf s →
  get_occupancy_report s
  = (Ok (report (Z.of_nat (length (rooms s))) (count_flag s true) (count_flag s false)), s).
Proof.
  intros Hwf. pose proof (wf_rooms_values s Hwf) as Hls.
  unfold get_occupancy_report. mred.
  rewrite (count_rooms_loop_spec s _ true 0 Hls).
  by rewrite (count_rooms_loop_spec s _ false 0 Hls).
Qed.

(** X15: [get_occupancy_report] never raises and never writes; its
    [total_rooms] is the number of rooms filed in the hotel, and
    [occupied_rooms] and [available_rooms] are non-negative and add up to
    [total_rooms]. *)
Theorem occupancy_report_adds_up (s : State) :
  wf s →
  ∃ occupied available,
    get_occupancy_report s
    = (Ok (report (Z.of_nat (length (rooms s))) occupied available), s)
    ∧ occupied = count_flag s true ∧ available = count_flag s false
    ∧ 0 ≤ occupied ∧ 0 ≤ available
    ∧ occupied + available = Z.of_nat (length (rooms s)).
Proof.
  intros Hwf. exists (count_flag s true), (count_flag s false).
  split; [by apply get_occupancy_report_found |]. split; [done |]. split; [done |].
  unfold count_flag. split; [lia |]. split; [lia |].
  pose proof (flags_partition (objs s) _ (wf_rooms_values s Hwf)) as Hpart.
  unfold dict_values in *. rewrite length_fmap in Hpart. lia.
Qed.

Lemma occupancy_report_adds_up_witness :
  get_occupancy_report (hotel_with true [("b1", booking_jan CHECKED_IN)])
  = (Ok (report 1 1 0), hotel_with true [("b1", booking_jan CHECKED_IN)]).
Proof.
  assert (Hwf : wf (hotel_with true [("b1", booking_jan CHECKED_IN)])) by solve_wf.
  destruct (occupancy_report_adds_up _ Hwf) as (occ & av & Hrep & -> & -> & _).
  exact Hrep.
Defined.

(** Counting over a list whose members are pairwise distinct, when the
    predicate changes at one member only. *)
Lemma filter_length_change (P Q : ref → Prop) `{∀ x, Decision (P x)}
    `{∀ x, Decision (Q x)} (l : ref) (ls : list ref) :
  (∀ x, x ≠ l → (P x ↔ Q x)) →
  NoDup ls →
  (l ∉ ls → length (filter Q ls) = length (filter P ls))
  ∧ (l ∈ ls → ¬ P l → Q l → length (filter Q ls) = S (length (filter P ls)))
  ∧ (l ∈ ls → P l → ¬ Q l → S (length (filter Q ls)) = length (filter P ls)).
Proof.
  intros Hsame. induction 1 as [|x ls Hx Hnd IH].
  { split; [done |]. split; by intros ?%elem_of_nil. }
  destruct IH as (IH0 & IH1 & IH2).
  assert (Hstep : x ≠ l →
    (length (filter Q (x :: ls)) - length (filter Q ls)
     = length (filter P (x :: ls)) - length (filter P ls)
     ∧ length (filter Q ls) ≤ length (filter Q (x :: ls))
     ∧ length (filter P ls) ≤ length (filter P (x :: ls)))%nat).
  { intros Hne. specialize (Hsame x Hne).
    destruct (decide (P x)) as [Hp|Hp].
    - rewrite !filter_cons_True by tauto. simpl. lia.
    - rewrite !filter_cons_False by tauto. lia. }
  split_and!.
  - intros Hnin. apply not_elem_of_cons in Hnin as [Hne Hnin].
    specialize (IH0 Hnin). destruct (Hstep (not_eq_sym Hne)) as (? & ? & ?). lia.
  - intros [<-|Hin]%elem_of_cons Hp Hq.
    + rewrite filter_cons_True, filter_cons_False by done.
      simpl. by rewrite (IH0 Hx).
    + assert (x ≠ l) as Hne by (intros Heq; apply Hx; by rewrite Heq).
      specialize (IH1 Hin Hp Hq). destruct (Hstep Hne) as (? & ? & ?). lia.
  - intros [<-|Hin]%elem_of_cons Hp Hq.
    + rewrite (filter_cons_False Q), (filter_cons_True P) by done.
      simpl. by rewrite (IH0 Hx).
    + assert (x ≠ l) as Hne by (intros Heq; apply Hx; by rewrite Heq).
      specialize (IH2 Hin Hp Hq). destruct (Hstep Hne) as (? & ? & ?). lia.
Qed.

Lemma count_flag_write s id b0 st (l : ref) r v want :
  objs s !! l = Some r →
  NoDup (dict_values (rooms s)) →
  Room.is_occupied r = negb v →
  let s' := set_objs (λ σ, <[l := Room.set_is_occupied v r]> σ)
              (set_bookings (dict_set id (Booking.set_status st b0)) s) in
  (l ∉ dict_values (rooms s) → count_flag s' want = count_flag s want)
  ∧ (l ∈ dict_values (rooms s) →
     count_flag s' want
     = count_flag s want + (if bool_decide (v = want) then 1 else -1)).
Proof.
  intros Hr Hnd Hocc s'. unfold count_flag, s', rooms. simpl.
  assert (Hlt : (l < length (objs s))%nat) by (by eapply lookup_lt_Some).
  destruct (filter_length_change
    (λ x, Room.is_occupied <$> objs s !! x = Some want)
    (λ x, Room.is_occupied <$>
            (<[l := Room.set_is_occupied v r]> (objs s)) !! x = Some want)
    l (dict_values (Hotel.rooms (hotel s)))) as (H0 & H1 & H2); [|done|].
  { intros x Hne. by rewrite list_lookup_insert_ne. }
  split.
  - intros Hnin. by rewrite (H0 Hnin).
  - intros Hin. case_bool_decide as Hv.
    + rewrite (H1 Hin); [lia | |]; cbv beta.
      * rewrite Hr. simpl. rewrite Hocc, Hv. by destruct want.
      * rewrite list_lookup_insert_eq by done. simpl. by rewrite Hv.
    + specialize (H2 Hin). rewrite <- H2; [lia | |]; cbv beta.
      * rewrite Hr. simpl. rewrite Hocc. f_equal. by destruct v, want.
      * rewrite list_lookup_insert_eq by done. simpl. intros [= Heq]. done.
Qed.

(** X16: occupancy is kept on the room object a booking references. A
    successful [check_in] moves one room of the report from
    [available_rooms] to [occupied_rooms], and a successful [check_out]
    moves one back, exactly when the booking's room object is the one filed
    in the hotel; when it is not (the room was removed, or removed and added
    again under the same number, after the booking was made) the report
    does not change at all. *)
Theorem occupancy_report_follows_filed_room (s s' : State) (id : string)
    (d : date) (b : Booking.t) :
  wf s → NoDup (dict_values (rooms s)) →
  dict_get id (bookings s) = Some b →
  (check_in id d s = (Ok tt, s') →
   ∃ total occupied available,
     get_occupancy_report s = (Ok (report total occupied available), s)
     ∧ (Booking.room b ∈ dict_values (rooms s) →
        get_occupancy_report s'
        = (Ok (report total (occupied + 1) (available - 1)), s'))
     ∧ (Booking.room b ∉ dict_values (rooms s) →
        get_occupancy_report s' = (Ok (report total occupied available), s')))
  ∧ (∀ p, check_out id d s = (Ok p, s') →
     Room.is_occupied <$> objs s !! Booking.room b = Some true →
     ∃ total occupied available,
       get_occupancy_report s = (Ok (report total occupied available), s)
       ∧ (Booking.room b ∈ dict_values (rooms s) →
          get_occupancy_report s'
          = (Ok (report total (occupied - 1) (available + 1)), s'))
       ∧ (Booking.room b ∉ dict_values (rooms s) →
          get_occupancy_report s' = (Ok (report total occupied available), s'))).
Proof.
  intros Hwf Hnd Hb. split.
  - intros Hci. rewrite (check_in_stored _ _ _ _ Hb) in Hci.
    case_bool_decide as Hst; [done |]. case_bool_decide as Hd; [done |].
    destruct (objs s !! Booking.room b) as [r|] eqn:Hr; [|done].
    destruct (Room.is_occupied r) eqn:Hocc; [done |]. injection Hci as <-.
    assert (Hwf' : wf (set_objs
      (λ σ, <[Booking.room b := Room.set_is_occupied true r]> σ)
      (set_bookings (dict_set id (Booking.set_status CHECKED_IN b)) s)))
      by (by apply wf_write_status_room).
    exists (Z.of_nat (length (rooms s))), (count_flag s true), (count_flag s false).
    split; [by apply get_occupancy_report_found |].
    rewrite (get_occupancy_report_found _ Hwf').
    destruct (count_flag_write s id b CHECKED_IN _ r true true Hr Hnd Hocc) as [Ht0 Ht1].
    destruct (count_flag_write s id b CHECKED_IN _ r true false Hr Hnd Hocc) as [Hf0 Hf1].
    split; intros Hin.
    + rewrite (Ht1 Hin), (Hf1 Hin). simpl. do 3 f_equal.
    + by rewrite (Ht0 Hin), (Hf0 Hin).
  - intros p Hco Hflag. rewrite (check_out_stored _ _ _ _ Hb) in Hco.
    case_bool_decide as Hst; [done |]. case_bool_decide as Hd; [done |].
    destruct (objs s !! Booking.room b) as [r|] eqn:Hr; [|done].
    simpl in Hflag. injection Hflag as Hocc. injection Hco as _ <-.
    assert (Hwf' : wf (set_objs
      (λ σ, <[Booking.room b := Room.set_is_occupied false r]> σ)
      (set_bookings (dict_set id (Booking.set_status CHECKED_OUT b)) s)))
      by (by apply wf_write_status_room).
    exists (Z.of_nat (length (rooms s))), (count_flag s true), (count_flag s false).
    split; [by apply get_occupancy_report_found |].
    rewrite (get_occupancy_report_found _ Hwf').
    destruct (count_flag_write s id b CHECKED_OUT _ r false true Hr Hnd Hocc) as [Ht0 Ht1].
    destruct (count_flag_write s id b CHECKED_OUT _ r false false Hr Hnd Hocc) as [Hf0 Hf1].
    split; intros Hin.
    + rewrite (Ht1 Hin), (Hf1 Hin). simpl. do 3 f_equal.
    + by rewrite (Ht0 Hin), (Hf0 Hin).
Qed.

Lemma occupancy_report_follows_filed_room_witness :
  ∃ s', check_in "b1" (date_of_ymd 2024 1 1) hotel_readded = (Ok tt, s')
      ∧ objs s' !! 0%nat = Some (room101 true)
      ∧ get_occupancy_report hotel_readded = (Ok (report 1 0 1), hotel_readded)
      ∧ get_occupancy_report s' = (Ok (report 1 0 1), s').
Proof.
  assert (Hwf : wf hotel_readded) by solve_wf.
  assert (Hnd : NoDup (dict_values (rooms hotel_readded)))
    by (apply NoDup_singleton).
  eexists. split; [reflexivity |]. split; [reflexivity |].
  destruct (proj1 (occupancy_report_follows_filed_room hotel_readded _
    "b1" (date_of_ymd 2024 1 1) (booking_jan BOOKED) Hwf Hnd eq_refl) eq_refl)
    as (total & occ & av & Hrep & _ & Hout).
  assert (Hrep0 : get_occupancy_report hotel_readded
                  = (Ok (report 1 0 1), hotel_readded)) by reflexivity.
  rewrite Hrep0 in Hrep. injection Hrep as <- <- <-.
  split; [reflexivity |]. apply Hout.
  intros [Heq|[]%elem_of_nil]%elem_of_cons. discriminate Heq.
Defined.

Lemma writes_touches_no_room s o s' :
  writes s o s' → touches_no_room o → objs s' = objs s ∧ rooms s' = rooms s.
Proof. destruct 1; simpl; try done. Qed.

(** X17: registering a guest, creating a booking and cancelling a booking
    never change the occupancy report, whether they succeed or fail:
    occupancy is a matter of the rooms' flags, not of the reservations. *)
Theorem occupancy_report_ignores_reservations (s : State) (o : op) :
  wf s → touches_no_room o →
  ∃ rep, get_occupancy_report s = (Ok rep, s)
       ∧ get_occupancy_report (after (run_op o) s) = (Ok rep, after (run_op o) s).
Proof.
  intros Hwf Ho. pose proof (run_op_writes o s) as Hw.
  destruct (writes_touches_no_room _ _ _ Hw Ho) as [Hobjs Hrooms].
  pose proof (writes_wf _ _ _ Hw Hwf) as Hwf'.
  eexists. split; [by apply get_occupancy_report_found |].
  rewrite (get_occupancy_report_found _ Hwf'). unfold count_flag.
  by rewrite Hobjs, Hrooms.
Qed.

Lemma occupancy_report_ignores_reservations_witness :
  ∃ rep, get_occupancy_report (hotel_with true [("b1", booking_jan CHECKED_IN)])
         = (Ok rep, hotel_with true [("b1", booking_jan CHECKED_IN)])
       ∧ get_occupancy_report (hotel_with true [("b1", booking_jan CANCELLED)])
         = (Ok rep, hotel_with true [("b1", booking_jan CANCELLED)]).
Proof.
  assert (Hwf : wf (hotel_with true [("b1", booking_jan CHECKED_IN)])) by solve_wf.
  exact (occupancy_report_ignores_reservations _ (CancelBooking "b1") Hwf I).
Defined.

(** ** Removing a room *)

(** X18: [remove_room] raises [EntityNotFoundError] for a number that is not
    filed and [InvalidOperationError] when the filed room is occupied,
    writing nothing. Otherwise it succeeds although bookings may still
    reference the room: the number is then unknown to [get_room], the other
    numbers resolve as before, and the bookings, the guests and the room
    objects are untouched. *)
Theorem remove_room_spec (s : State) (n : Z) :
  (dict_get n (rooms s) = None →
   Hotel_remove_room n s = (Raise EntityNotFoundError, s))
  ∧ (∀ l r, dict_get n (rooms s) = Some l → objs s !! l = Some r →
       (Room.is_occupied r = true →
        Hotel_remove_room n s = (Raise InvalidOperationError, s))
       ∧ (Room.is_occupied r = false →
          ∃ s', Hotel_remove_room n s = (Ok tt, s')
              ∧ (NoDup (dict_keys (rooms s)) →
                 Hotel_get_room n s' = (Raise EntityNotFoundError, s'))
              ∧ (∀ n', n' ≠ n → dict_get n' (rooms s') = dict_get n' (rooms s))
              ∧ bookings s' = bookings s ∧ guests s' = guests s
              ∧ objs s' = objs s)).
Proof.
  split.
  - intros Hn. unfold Hotel_remove_room. mred. by rewrite Hn.
  - intros l r Hn Hl. unfold Hotel_remove_room, Hotel_get_room, deref. mred.
    rewrite Hn, Hl. split; intros Hocc; rewrite Hocc; [done |].
    eexists. split; [done |]. unfold rooms. simpl. split_and!; try done.
    + intros Hnd. by rewrite dict_get_del_eq.
    + intros n' Hne. by apply dict_get_del_ne.
Qed.

Lemma remove_room_spec_witness :
  ∃ s', Hotel_remove_room 101 (hotel_with false [("b1", booking_jan BOOKED)])
        = (Ok tt, s')
      ∧ Hotel_get_room 101 s' = (Raise EntityNotFoundError, s')
      ∧ bookings s' = [("b1", booking_jan BOOKED)].
Proof.
  destruct (proj2 (remove_room_spec (hotel_with false [("b1", booking_jan BOOKED)]) 101)
              0%nat (room101 false) eq_refl eq_refl) as [_ Hok].
  destruct (Hok eq_refl) as (s' & Hrm & Hget & _ & Hbk & _).
  exists s'. split; [exact Hrm |]. split; [|exact Hbk].
  apply Hget. apply NoDup_singleton.
Defined.

(** ** Invoices *)

(** X19: the invoice of a booking that has just been checked out agrees
    with the check-out: its base cost is the amount [check_out] returned,
    its tax is that amount times the rate and its total is the amount plus
    the tax; computing them writes nothing. *)
Theorem invoice_matches_check_out (s s' : State) (id : string) (d : date)
    (p : float) :
  check_out id d s = (Ok p, s') →
  ∃ b', dict_get id (bookings s') = Some b'
      ∧ Booking.status b' = CHECKED_OUT
      ∧ Invoice_calculate_base_cost b' s' = (Ok p, s')
      ∧ ∀ rate,
          Invoice_calculate_tax b' rate s' = (Ok (PrimFloat.mul p rate), s')
          ∧ Invoice_calculate_total_with_tax b' rate s'
            = (Ok (PrimFloat.add p (PrimFloat.mul p rate)), s').
Proof.
  intros Hco.
  destruct (dict_get id (bookings s)) as [b|] eqn:Hb.
  2:{ unfold check_out in Hco. mred. by rewrite (get_booking_None _ _ Hb) in Hco. }
  rewrite (check_out_stored _ _ _ _ Hb) in Hco.
  case_bool_decide; [done |]. case_bool_decide; [done |].
  destruct (objs s !! Booking.room b) as [r|] eqn:Hr; [|done].
  injection Hco as <- <-. exists (Booking.set_status CHECKED_OUT b).
  assert (Hbase : Invoice_calculate_base_cost (Booking.set_status CHECKED_OUT b)
      (set_objs (λ σ, <[Booking.room b := Room.set_is_occupied false r]> σ)
         (set_bookings (dict_set id (Booking.set_status CHECKED_OUT b)) s))
    = (Ok (PrimFloat.mul (float_of_int (Booking.check_out b - Booking.check_in b))
             (Room.price_per_night r)),
       set_objs (λ σ, <[Booking.room b := Room.set_is_occupied false r]> σ)
         (set_bookings (dict_set id (Booking.set_status CHECKED_OUT b)) s))).
  { unfold Invoice_calculate_base_cost, Booking_calculate_total_price, deref. mred.
    by rewrite list_lookup_insert_eq by (by eapply lookup_lt_Some). }
  split_and!; try done.
  - unfold bookings. simpl. apply dict_get_set_eq.
  - intros rate. unfold Invoice_calculate_total_with_tax, Invoice_calculate_tax.
    unfold mbind, M_bind, mret, M_ret. by rewrite !Hbase.
Qed.

Lemma invoice_matches_check_out_witness :
  ∃ b', Invoice_calculate_total_with_tax b' default_tax_rate
          (hotel_with false [("b1", booking_jan CHECKED_OUT)])
        = (Ok (PrimFloat.add 200%float (PrimFloat.mul 200%float default_tax_rate)),
           hotel_with false [("b1", booking_jan CHECKED_OUT)]).
Proof.
  destruct (invoice_matches_check_out
    (hotel_with true [("b1", booking_jan CHECKED_IN)])
    (hotel_with false [("b1", booking_jan CHECKED_OUT)])
    "b1" (date_of_ymd 2024 1 3) 200%float eq_refl) as (b' & _ & _ & _ & Hrate).
  exists b'. exact (proj2 (Hrate default_tax_rate)).
Defined.

(** ** Revenue moves at check-out only *)

Lemma filter_values_set_present {K V} `{EqDecision K} (P : V → Prop)
    `{∀ x, Decision (P x)} (k : K) (v v' : V) (d : dict K V) :
  dict_get k d = Some v → ¬ P v → ¬ P v' →
  filter P (dict_values (dict_set k v' d)) = filter P (dict_values d).
Proof.
  intros Hg Hv Hv'. induction d as [|[k0 v0] d IH]; [done |].
  cbn [dict_get dict_set] in *. destruct (decide (k = k0)) as [->|Hne].
  - injection Hg as ->. rewrite !dict_values_cons.
    by rewrite !filter_cons_False.
  - rewrite !dict_values_cons.
    destruct (decide (P v0)).
    + rewrite !filter_cons_True by done. f_equal. by apply IH.
    + rewrite !filter_cons_False by done. by apply IH.
Qed.

Lemma filter_values_set_absent {K V} `{EqDecision K} (P : V → Prop)
    `{∀ x, Decision (P x)} (k : K) (v' : V) (d : dict K V) :
  dict_get k d = None → ¬ P v' →
  filter P (dict_values (dict_set k v' d)) = filter P (dict_values d).
Proof.
  intros Hg Hv'. rewrite (dict_set_absent _ _ _ Hg). unfold dict_values.
  rewrite fmap_app, filter_app. simpl. rewrite filter_cons_False by done.
  by rewrite filter_nil, app_nil_r.
Qed.

Lemma revenue_same s s' :
  wf s → wf s' →
  checked_out_bookings s' = checked_out_bookings s →
  (∀ b p, price_of s b p → price_of s' b p) →
  outcome calculate_total_revenue s' = outcome calculate_total_revenue s.
Proof.
  intros [_ Hbks] [_ Hbks'] Hco Hprice.
  unfold outcome, calculate_total_revenue. mred.
  destruct (total_revenue_loop_spec s _ 0%float Hbks) as (ps & Hps & ->).
  destruct (total_revenue_loop_spec s' _ 0%float Hbks') as (qs & Hqs & ->).
  simpl. do 2 f_equal. fold (checked_out_bookings s) in Hps.
  fold (checked_out_bookings s') in Hqs. rewrite Hco in Hqs.
  symmetry. eapply price_of_functional; [|exact Hqs].
  eapply Forall2_impl; [exact Hps | exact Hprice].
Qed.

Lemma price_of_insert s (l : ref) r v b p :
  objs s !! l = Some r →
  price_of s b p →
  price_of (set_objs (λ σ, <[l := Room.set_is_occupied v r]> σ) s) b p.
Proof.
  intros Hr (r0 & Hr0 & ->). unfold price_of. simpl.
  destruct (decide (l = Booking.room b)) as [->|Hne].
  - rewrite list_lookup_insert_eq by (by eapply lookup_lt_Some).
    eexists. split; [done |]. simpl. rewrite Hr in Hr0. by injection Hr0 as ->.
  - rewrite list_lookup_insert_ne by done. by exists r0.
Qed.

(** X20: the total revenue changes at a successful check-out only. Any
    other call, failed calls included, leaves the value returned by
    [calculate_total_revenue] as it was, provided a [create_booking] draws
    an identifier that is not in use. *)
Theorem revenue_moves_at_check_out_only (s : State) (o : op) :
  wf s →
  (∀ id, creates o id → dict_get id (bookings s) = None) →
  successful_check_out o s = false →
  outcome calculate_total_revenue (after (run_op o) s)
  = outcome calculate_total_revenue s.
Proof.
  intros Hwf Hfresh Hnot. pose proof (run_op_writes o s) as Hw.
  pose proof (writes_wf _ _ _ Hw Hwf) as Hwf'.
  revert Hw Hwf' Hfresh Hnot. generalize (after (run_op o) s). intros s' Hw.
  destruct Hw as [o|n t p Hn Hpos Hp Ht|n l r Hn Hl Hocc|u nm c Hu Hnm Hc
                  |u gid g n l ci co Hg Hl Hav Hu Hlt|id b Hb Hs1 Hs2
                  |id b r Hb Hst Hr Hocc|id b r Hb Hst Hr|id b Hb Hst Hr];
    intros Hwf' Hfresh Hnot; try done.
  - apply revenue_same; try done.
    intros b0 p0 (r & Hr & ->). exists r. split; [|done]. simpl.
    by apply lookup_app_l_Some.
  - by apply revenue_same.
  - by apply revenue_same.
  - apply revenue_same; try done.
    unfold checked_out_bookings, bookings. simpl.
    apply filter_values_set_absent; [by apply Hfresh | done].
  - apply revenue_same; try done.
    unfold checked_out_bookings, bookings. simpl.
    by apply (filter_values_set_present _ _ b).
  - apply revenue_same; try done.
    + unfold checked_out_bookings, bookings. simpl.
      apply (filter_values_set_present _ _ b); try done. by rewrite Hst.
    + intros b0 p Hp.
      apply (price_of_insert (set_bookings _ s) (Booking.room b) r true b0 p Hr Hp).
  - exfalso. unfold successful_check_out, outcome, run_op in Hnot.
    unfold mbind, M_bind in Hnot.
    rewrite (check_out_stored _ _ _ _ Hb), Hst, Hr in Hnot.
    by rewrite !bool_decide_eq_false_2 in Hnot by (intros Hx; by apply Hx).
  - exfalso. destruct Hwf as [_ Hbks]. rewrite Forall_forall in Hbks.
    destruct (Hbks b (dict_get_values _ _ _ Hb)) as [r Hr']. congruence.
Qed.

Lemma revenue_moves_at_check_out_only_witness :
  outcome calculate_total_revenue
    (after (run_op (CancelBooking "b2"))
       (hotel_with false [("b1", booking_jan CHECKED_OUT); ("b2", booking_later BOOKED)]))
  = outcome calculate_total_revenue
      (hotel_with false [("b1", booking_jan CHECKED_OUT); ("b2", booking_later BOOKED)]).
Proof.
  assert (Hwf : wf (hotel_with false
    [("b1", booking_jan CHECKED_OUT); ("b2", booking_later BOOKED)])) by solve_wf.
  apply (revenue_moves_at_check_out_only _ (CancelBooking "b2") Hwf);
    [intros id [] | reflexivity].
Defined.

(** ** Check-in through the shared room object *)

(** X21: a booking holds the hotel's own room object. When [check_in] of a
    booking is run on the very state its successful [create_booking] on
    room [n] returned, with no call in between, and succeeds, the room filed
    under [n] is occupied and [remove_room n] raises
    [InvalidOperationError], leaving the state as it is. *)
Theorem checked_in_room_not_removable (s s1 s2 : State) (u gid : string) (n : Z)
    (ci co d : date) (bk : Booking.t) :
  wf s →
  create_booking u gid n ci co s = (Ok bk, s1) →
  check_in u d s1 = (Ok tt, s2) →
  dict_get n (rooms s2) = Some (Booking.room bk)
  ∧ Room.is_occupied <$> objs s2 !! Booking.room bk = Some true
  ∧ Hotel_remove_room n s2 = (Raise InvalidOperationError, s2).
Proof.
  intros Hwf Hok Hci.
  destruct (create_booking_Ok_inv _ _ _ _ _ _ _ _ Hwf Hok)
    as (g & l & Hg & Hl & _ & Hu & Hlt & Hbk & Hs1).
  assert (Hb1 : dict_get u (bookings s1) = Some bk).
  { rewrite Hs1. unfold bookings. simpl. apply dict_get_set_eq. }
  rewrite (check_in_stored _ _ _ _ Hb1) in Hci.
  case_bool_decide; [done |]. case_bool_decide; [done |].
  destruct (objs s1 !! Booking.room bk) as [r|] eqn:Hr; [|done].
  destruct (Room.is_occupied r); [done |]. injection Hci as <-.
  assert (Hroom : Booking.room bk = l) by (by rewrite Hbk).
  assert (Hl2 : dict_get n (Hotel.rooms (hotel s1)) = Some (Booking.room bk))
    by (by rewrite Hs1, Hroom).
  assert (Hlook : (<[Booking.room bk := Room.set_is_occupied true r]> (objs s1))
                    !! Booking.room bk = Some (Room.set_is_occupied true r))
    by (apply list_lookup_insert_eq; by eapply lookup_lt_Some).
  split_and!.
  - exact Hl2.
  - simpl. by rewrite Hlook.
  - unfold Hotel_remove_room, deref. mred. unfold rooms. simpl.
    rewrite Hl2. simpl. by rewrite Hlook.
Qed.

Lemma checked_in_room_not_removable_witness :
  Hotel_remove_room 101 (hotel_with true [("b1", booking_jan CHECKED_IN)])
  = (Raise InvalidOperationError, hotel_with true [("b1", booking_jan CHECKED_IN)]).
Proof.
  assert (Hwf : wf (hotel_with false [])) by solve_wf.
  exact (proj2 (proj2 (checked_in_room_not_removable (hotel_with false [])
    (hotel_with false [("b1", booking_jan BOOKED)])
    (hotel_with true [("b1", booking_jan CHECKED_IN)])
    "b1" "g1" 101 (date_of_ymd 2024 1 1) (date_of_ymd 2024 1 3)
    (date_of_ymd 2024 1 1) (booking_jan BOOKED) Hwf eq_refl eq_refl))).
Defined.

(** X22: a successful [check_in] or [check_out] writes the status of the
    booking it is given and the occupancy flag of that booking's room
    object, and nothing else: rooms and guests dictionaries, every other
    booking and every other room object are as before, and the room keeps
    its number, type and price. *)
Theorem check_in_out_frame (s s' : State) (id : string) (d : date) (b : Booking.t) :
  dict_get id (bookings s) = Some b →
  check_in id d s = (Ok tt, s') ∨ (∃ p, check_out id d s = (Ok p, s')) →
  rooms s' = rooms s ∧ guests s' = guests s
  ∧ (∀ id', id' ≠ id → dict_get id' (bookings s') = dict_get id' (bookings s))
  ∧ (∃ st, dict_get id (bookings s') = Some (Booking.set_status st b))
  ∧ (∀ l, l ≠ Booking.room b → objs s' !! l = objs s !! l)
  ∧ (∃ r v, objs s !! Booking.room b = Some r
          ∧ objs s' !! Booking.room b = Some (Room.set_is_occupied v r)).
Proof.
  intros Hb Hcall.
  assert (∃ r v st, objs s !! Booking.room b = Some r
    ∧ s' = set_objs (λ σ, <[Booking.room b := Room.set_is_occupied v r]> σ)
             (set_bookings (dict_set id (Booking.set_status st b)) s))
    as (r & v & st & Hr & ->).
  { destruct Hcall as [Hci | [p Hco]].
    - rewrite (check_in_stored _ _ _ _ Hb) in Hci.
      case_bool_decide; [done |]. case_bool_decide; [done |].
      destruct (objs s !! Booking.room b) as [r|] eqn:Hr; [|done].
      destruct (Room.is_occupied r); [done |]. injection Hci as <-.
      by exists r, true, CHECKED_IN.
    - rewrite (check_out_stored _ _ _ _ Hb) in Hco.
      case_bool_decide; [done |]. case_bool_decide; [done |].
      destruct (objs s !! Booking.room b) as [r|] eqn:Hr; [|done].
      injection Hco as _ <-. by exists r, false, CHECKED_OUT. }
  unfold rooms, guests, bookings. simpl. split_and!; try done.
  - intros id' Hne. by apply dict_get_set_ne.
  - exists st. apply dict_get_set_eq.
  - intros l Hne. by apply list_lookup_insert_ne.
  - exists r, v. split; [done |].
    apply list_lookup_insert_eq. by eapply lookup_lt_Some.
Qed.

Lemma check_in_out_frame_witness :
  rooms (hotel_with true [("b1", booking_jan CHECKED_IN)])
  = rooms (hotel_with false [("b1", booking_jan BOOKED)]).
Proof.
  exact (proj1 (check_in_out_frame (hotel_with false [("b1", booking_jan BOOKED)])
    (hotel_with true [("b1", booking_jan CHECKED_IN)]) "b1" (date_of_ymd 2024 1 1)
    (booking_jan BOOKED) eq_refl (or_introl eq_refl))).
Defined.
